(** * Campus event planner: a shallow embedding of the backend's validated
    CRUD, reporting and auth code, with the properties its specification
    states about it.

    Conventions of the embedding.
    - A JavaScript value is a term of [Js.value]; a JavaScript number is an
      exact rational extended with [NaN] and the two infinities.  The binary
      rounding of IEEE-754 arithmetic is not modelled: quotients and products
      are exact.
    - A string is held as the bytes of its UTF-8 encoding, as a string
      literal is; where a length or a class of characters matters, it is
      read by its UTF-16 code units ([UString]).
    - An [async] function that throws is a function into [result]; the
      database client is a pure function of an explicit table state.
    - Library code the repository only calls (bcrypt, jsonwebtoken, the
      ECMAScript date parser) is a [Variable] of a [Section]. *)

From Stdlib Require Import ZArith QArith Qround Qabs Lqa Lia String Ascii List.
From Stdlib Require Import DecimalString.
From stdpp Require Import base option list gmap strings.

#[local] Open Scope string_scope.
#[local] Open Scope Z_scope.

(** ** Results of functions that may throw *)

Inductive result (A : Type) : Type :=
| Ok (a : A)
| Throw (message : string).
Arguments Ok {A} a.
Arguments Throw {A} message.

Definition is_ok {A} (r : result A) : bool :=
  match r with Ok _ => true | Throw _ => false end.

(** ** JavaScript values and numbers *)

Module Js.

Inductive number : Type :=
| Fin (q : Q)
| NaN
| Inf (negative : bool).

Inductive value : Type :=
| VUndefined
| VNull
| VBool (b : bool)
| VNum (n : number)
| VStr (s : string)
| VObj.

Definition of_Z (z : Z) : number := Fin (inject_Z z).
Definition of_nat (n : nat) : number := of_Z (Z.of_nat n).

Definition is_zero (q : Q) : bool := Qeq_bool q 0.
Definition is_neg (q : Q) : bool := negb (Qle_bool 0 q).

(** ToBoolean *)
Definition truthy (v : value) : bool :=
  match v with
  | VUndefined | VNull => false
  | VBool b => b
  | VNum (Fin q) => negb (is_zero q)
  | VNum NaN => false
  | VNum (Inf _) => true
  | VStr s => negb (String.eqb s "")
  | VObj => true
  end.

(** [x + y] on numbers *)
Definition add (x y : number) : number :=
  match x, y with
  | NaN, _ | _, NaN => NaN
  | Inf a, Inf b => if Bool.eqb a b then Inf a else NaN
  | Inf a, Fin _ | Fin _, Inf a => Inf a
  | Fin a, Fin b => Fin (a + b)
  end.

(** [x * y] on numbers *)
Definition mul (x y : number) : number :=
  match x, y with
  | NaN, _ | _, NaN => NaN
  | Inf a, Inf b => Inf (xorb a b)
  | Inf a, Fin q | Fin q, Inf a =>
      if is_zero q then NaN else Inf (xorb a (is_neg q))
  | Fin a, Fin b => Fin (a * b)
  end.

(** [x / y] on numbers: a zero divisor gives [NaN] or an infinity, never
    an exception. *)
Definition div (x y : number) : number :=
  match x, y with
  | NaN, _ | _, NaN => NaN
  | Inf _, Inf _ => NaN
  | Inf a, Fin q => Inf (xorb a (is_neg q))
  | Fin _, Inf _ => Fin 0
  | Fin a, Fin b =>
      if is_zero b then (if is_zero a then NaN else Inf (is_neg a))
      else Fin (a / b)
  end.

(** [Number.isInteger] on a number *)
Definition num_isInteger (n : number) : bool :=
  match n with
  | Fin q => Qeq_bool q (inject_Z (Qfloor q))
  | _ => false
  end.

(** [x <= y] on numbers: false as soon as one side is [NaN] *)
Definition num_le (x y : number) : bool :=
  match x, y with
  | NaN, _ | _, NaN => false
  | Inf true, _ => true
  | _, Inf false => true
  | Inf false, _ => false
  | _, Inf true => false
  | Fin a, Fin b => Qle_bool a b
  end.

(** [x < y] on numbers *)
Definition num_lt (x y : number) : bool :=
  match x, y with
  | NaN, _ | _, NaN => false
  | _, _ => negb (num_le y x)
  end.

(** The integer [n] that [x.toFixed(2)] prints as [n / 100]: the one
    closest to [100 * x], the larger one on a tie, for non-negative [x];
    a negative [x] is negated first. *)
Definition fixed2_digits (q : Q) : Z :=
  if is_neg q then - Qfloor (- q * 100 + (1 # 2))
  else Qfloor (q * 100 + (1 # 2)).

(** [Number(x.toFixed(2))].  From 1e21 on, [toFixed] prints the number
    itself, and [NaN] and the infinities print as their names.  The
    argument is the exact quotient or product where the engine has its
    nearest double, so the two can differ in the last digit when the exact
    value lies midway between two hundredths (100 * 23 / 160 = 14.375 is
    printed as 14.37 by the engine); the theorems on rounded values
    therefore speak of a nearest hundredth, which both are. *)
Definition Number_toFixed2 (x : number) : number :=
  match x with
  | Fin q =>
      if Qle_bool (inject_Z (10 ^ 21)) (Qabs q) then Fin q
      else Fin (Qred (fixed2_digits q # 100))
  | other => other
  end.

(** [v === 0] *)
Definition strict_eq_zero (v : value) : bool :=
  match v with
  | VNum (Fin q) => is_zero q
  | _ => false
  end.

(** [v === 's'] for a string literal *)
Definition strict_eq_string (v : value) (s : string) : bool :=
  match v with
  | VStr t => String.eqb t s
  | _ => false
  end.

(** ToNumber on the values a count can take: a number or [null] *)
Definition to_number_count (v : value) : number :=
  match v with
  | VNum n => n
  | VNull => Fin 0
  | VBool b => if b then Fin 1 else Fin 0
  | _ => NaN
  end.

End Js.

(** ** Conversions of the engine *)

Module Conversion.
Import Js.

Section WithEngine.
(** [Number(s)] on a string *)
Variable String_toNumber : string -> number.
(** [String(n)] on a number *)
Variable Number_toString : number -> string.
(** what the object at hand converts to, as a number and as a string *)
Variable Object_toNumber : number.
Variable Object_toString : string.

(** ToNumber *)
Definition to_number (v : value) : number :=
  match v with
  | VUndefined => NaN
  | VNull => Fin 0
  | VBool b => if b then Fin 1 else Fin 0
  | VNum n => n
  | VStr s => String_toNumber s
  | VObj => Object_toNumber
  end.

(** ToString, as a template literal applies it *)
Definition to_string (v : value) : string :=
  match v with
  | VUndefined => "undefined"
  | VNull => "null"
  | VBool b => if b then "true" else "false"
  | VNum n => Number_toString n
  | VStr s => s
  | VObj => Object_toString
  end.

(** The decimal digits of a natural number *)
Definition digits (n : Z) : string := NilZero.string_of_uint (N.to_uint (Z.to_N n)).

(** [x.toFixed(2)]: the sign of a negative number, the digits of the
    integer closest to [100 * x] (see [fixed2_digits]), and a point before
    the last two of them.  From 1e21 on [toFixed] prints the number as
    [String] does. *)
Definition toFixed2 (x : number) : string :=
  match x with
  | Fin q =>
      if Qle_bool (inject_Z (10 ^ 21)) (Qabs q) then Number_toString x
      else
        let n := Z.abs (fixed2_digits q) in
        let cents := n mod 100 in
        (if is_neg q then "-" else "")
        ++ digits (n / 100) ++ "."
        ++ (if cents <? 10 then "0" else "") ++ digits cents
  | NaN => "NaN"
  | Inf negative => if negative then "-Infinity" else "Infinity"
  end.
End WithEngine.

End Conversion.


(** ** Strings by their UTF-16 code units

    Where a length or a character class matters, a string is the list of
    its code units, as [length], [trim] and a regular expression without the
    [u] flag see it. *)

Module UString.

Definition t : Type := list N.

(** WhiteSpace and LineTerminator, what [trim] strips *)
Definition is_white_space (c : N) : bool :=
  existsb (N.eqb c)
    [9; 10; 11; 12; 13; 32; 160; 5760; 8232; 8233; 8239; 8287; 12288; 65279]%N
  || ((8192 <=? c) && (c <=? 8202))%N.

Fixpoint trim_start (s : t) : t :=
  match s with
  | c :: rest => if is_white_space c then trim_start rest else s
  | [] => []
  end.

(** [s.trim()] *)
Definition trim (s : t) : t := rev (trim_start (rev (trim_start s))).

(** [!s] *)
Definition is_empty (s : t) : bool :=
  match s with [] => true | _ => false end.

(** A continuation byte of UTF-8 *)
Definition is_continuation (b : N) : bool := ((128 <=? b) && (b <? 192))%N.

(** The code units of a code point *)
Definition units_of (cp : N) : t :=
  (if cp <? 65536 then [cp]
   else [55296 + (cp - 65536) / 1024; 56320 + (cp - 65536) mod 1024])%N.

(** The code units of a string that is held as the bytes of its UTF-8
    encoding, the way a string literal is.  A byte outside any sequence of
    UTF-8 stands for the code unit of its own value. *)
Fixpoint of_utf8 (s : string) : t :=
  match s with
  | EmptyString => []
  | String a rest =>
      let b := N_of_ascii a in
      let alone := b :: of_utf8 rest in
      if (b <? 192)%N then alone
      else
        match rest with
        | EmptyString => alone
        | String a1 rest1 =>
            let b1 := N_of_ascii a1 in
            if negb (is_continuation b1) then alone
            else if (b <? 224)%N
            then ((b - 192) * 64 + (b1 - 128))%N :: of_utf8 rest1
            else
              match rest1 with
              | EmptyString => alone
              | String a2 rest2 =>
                  let b2 := N_of_ascii a2 in
                  if negb (is_continuation b2) then alone
                  else if (b <? 240)%N
                  then ((b - 224) * 4096 + (b1 - 128) * 64 + (b2 - 128))%N
                         :: of_utf8 rest2
                  else
                    match rest2 with
                    | EmptyString => alone
                    | String a3 rest3 =>
                        let b3 := N_of_ascii a3 in
                        if negb (is_continuation b3) || (248 <=? b)%N then alone
                        else
                          (units_of ((b - 240) * 262144 + (b1 - 128) * 4096
                                     + (b2 - 128) * 64 + (b3 - 128))%N
                             ++ of_utf8 rest3)%list
                    end
              end
        end
  end.

End UString.

(** ** The database client

    A response of the query builder: [data], [count] and [error], each of
    them [null] when absent. *)

Record response (A : Type) : Type := {
  data : option A;
  count : option nat;
  error : option string
}.
Arguments data {A} r.
Arguments count {A} r.
Arguments error {A} r.

Module Db.

Record registration_row : Type := {
  registration_id : Z;
  reg_event_id : Z;
  reg_student_id : Z
}.

Record attendance_row : Type := {
  attendance_id : Z;
  att_event_id : Z;
  att_student_id : Z;
  att_status : string
}.

Record tables : Type := {
  registrations : list registration_row;
  attendance : list attendance_row
}.

(** [.select(cols, { count: 'exact', head: true })] followed by [.eq]
    filters: a HEAD request, which carries the exact count of the matching
    rows and no rows at all ([data] is [null]). *)
Definition select_head_count {A} (rows : list A) (matches : A -> bool)
  : response (list A) :=
  {| data := None;
     count := Some (length (List.filter matches rows));
     error := None |}.

Definition registrations_of_event (db : tables) (event_id : Z)
  : response (list registration_row) :=
  select_head_count (registrations db)
    (fun r => reg_event_id r =? event_id).

Definition present_of_event (db : tables) (event_id : Z)
  : response (list attendance_row) :=
  select_head_count (attendance db)
    (fun a => (att_event_id a =? event_id) && String.eqb (att_status a) "Present").

End Db.

(** ** Attendance percentage: the two report handlers *)

Module Reports.
Import Js.

Inductive report_body : Type :=
| ErrorBody (message : string)
| AttendanceBody (event_id : Z) (total_registrations present : value)
    (attendance_percentage : number).

Record http_response : Type := {
  status : Z;
  body : report_body
}.

Definition count_value (c : option nat) : value :=
  match c with
  | Some n => VNum (of_nat n)
  | None => VNull
  end.

(** [attendancePercentage] of the report controller, from the two
    responses of the client.  It reads [count]. *)
Definition attendancePercentage_of {A B} (event_id : Z)
  (regs : response A) (atts : response B) : http_response :=
  let totalCount := count_value (count regs) in
  match error regs with
  | Some regErr => {| status := 400; body := ErrorBody regErr |}
  | None =>
      let presentCount := count_value (count atts) in
      match error atts with
      | Some attErr => {| status := 400; body := ErrorBody attErr |}
      | None =>
          let percentage :=
            if strict_eq_zero totalCount then Fin 0
            else mul (div (to_number_count presentCount)
                          (to_number_count totalCount)) (Fin 100) in
          {| status := 200;
             body := AttendanceBody event_id totalCount presentCount
                       (Number_toFixed2 percentage) |}
      end
  end.

Definition attendancePercentage (db : Db.tables) (event_id : Z)
  : http_response :=
  attendancePercentage_of event_id
    (Db.registrations_of_event db event_id)
    (Db.present_of_event db event_id).

(** The count the route handler of [routes/reports.js] extracts from
    [data]:
    [d?.length ? d.length : d?.count ?? d?.[0]?.count ?? err?.count ?? 0].
    Neither [null], nor an array, nor a selected row, nor the (absent)
    error has a [count] property, so every operand of [??] but the last is
    [undefined]. *)
Definition count_from_data {A} (d : option (list A)) : nat :=
  let d_length : option nat := length <$> d in
  let d_count : option nat := None in
  let d_0_count : option nat := None in
  let err_count : option nat := None in
  match d_length with
  | Some (S n) => S n
  | _ => default (default (default 0%nat err_count) d_0_count) d_count
  end.

(** The handler of [GET /attendance/:event_id] in [routes/reports.js],
    from the two responses of the client.  It reads [data]. *)
Definition attendance_route_of {A B} (event_id : Z)
  (regs : response (list A)) (atts : response (list B)) : http_response :=
  let totalRegs := data regs in
  match error regs with
  | Some regErr => {| status := 400; body := ErrorBody regErr |}
  | None =>
      let presentRows := data atts in
      match error atts with
      | Some attErr => {| status := 400; body := ErrorBody attErr |}
      | None =>
          let totalCount := count_from_data totalRegs in
          let presentCount := count_from_data presentRows in
          let percentage :=
            if (totalCount =? 0)%nat then Fin 0
            else mul (div (of_nat presentCount) (of_nat totalCount)) (Fin 100) in
          {| status := 200;
             body := AttendanceBody event_id (VNum (of_nat totalCount))
                       (VNum (of_nat presentCount))
                       (Number_toFixed2 percentage) |}
      end
  end.

Definition attendance_route (db : Db.tables) (event_id : Z)
  : http_response :=
  attendance_route_of event_id
    (Db.registrations_of_event db event_id)
    (Db.present_of_event db event_id).

(** *** The average rating of an event: [feedbackAverage] of the report
    controller, and the handler of [GET /feedback/:event_id] in
    [routes/reports.js], which has the same body *)

Record feedback_row : Type := {
  fb_event_id : Z;
  fb_rating : Z
}.

Inductive feedback_body : Type :=
| FeedbackError (message : string)
| FeedbackAverage (event_id : Z) (average_rating : number) (count : nat).

Record feedback_response : Type := {
  fb_status : Z;
  fb_body : feedback_body
}.

(** [.from('feedback').select('rating').eq('event_id', event_id)] *)
Definition ratings_of_event (feedback : list feedback_row) (event_id : Z)
  : response (list feedback_row) :=
  {| data := Some (List.filter (fun r => fb_event_id r =? event_id) feedback);
     count := None;
     error := None |}.

(** From the response of the client.  [data.map] on [null] throws, and the
    [catch] answers 500. *)
Definition feedbackAverage_of (event_id : Z) (r : response (list feedback_row))
  : feedback_response :=
  match error r with
  | Some e => {| fb_status := 400; fb_body := FeedbackError e |}
  | None =>
      match data r with
      | None => {| fb_status := 500; fb_body := FeedbackError "Server error" |}
      | Some rows =>
          let ratings := map fb_rating rows in
          let average :=
            if (0 <? List.length ratings)%nat
            then div (fold_left (fun a b => add a (of_Z b)) ratings (Fin 0))
                     (of_nat (List.length ratings))
            else Fin 0 in
          {| fb_status := 200;
             fb_body := FeedbackAverage event_id (Number_toFixed2 average)
                          (List.length ratings) |}
      end
  end.

Definition feedbackAverage (feedback : list feedback_row) (event_id : Z)
  : feedback_response :=
  feedbackAverage_of event_id (ratings_of_event feedback event_id).

End Reports.

(** ** The Feedback model *)

Module Feedback.
Import Js.

(** The fields the constructor copies from its argument; a field the
    argument lacks is [undefined]. *)
Record t : Type := {
  id : value;
  student_id : value;
  event_id : value;
  rating : value;
  comments : value;
  submitted_at : value;
  created_at : value;
  updated_at : value
}.

Definition MIN_RATING : number := Fin 1.
Definition MAX_RATING : number := Fin 5.

(** [Number.isInteger(rating) && rating >= MIN_RATING && rating <= MAX_RATING].
    [Number.isInteger] is false on every value that is not a number, and
    [&&] stops there. *)
Definition validateRating (rating : value) : bool :=
  match rating with
  | VNum n => num_isInteger n && num_le MIN_RATING n && num_le n MAX_RATING
  | _ => false
  end.

(** [typeof v !== 'string'] *)
Definition not_a_string (v : value) : bool :=
  match v with VStr _ => false | _ => true end.

Definition rating_message : string :=
  "Rating must be an integer between 1 and 5".

(** [Feedback.create(data)]; [now] is [new Date().toISOString()]. *)
Definition create (now : string) (data : t) : result t :=
  if negb (truthy (student_id data)) then Throw "Student ID is required"
  else if negb (truthy (event_id data)) then Throw "Event ID is required"
  else if negb (truthy (rating data)) || negb (validateRating (rating data))
  then Throw rating_message
  else if truthy (comments data) && not_a_string (comments data)
  then Throw "Comments must be a string"
  else Ok {| id := id data;
             student_id := student_id data;
             event_id := event_id data;
             rating := rating data;
             comments := comments data;
             submitted_at :=
               if truthy (submitted_at data) then submitted_at data
               else VStr now;
             created_at := created_at data;
             updated_at := updated_at data |}.

(** The static members of the class, by name: two getters and two
    methods.  Every other name is [undefined] on the class. *)
Inductive static_member : Type :=
| Member_MIN_RATING
| Member_MAX_RATING
| Member_validateRating
| Member_create.

Definition static (name : string) : option static_member :=
  if String.eqb name "MIN_RATING" then Some Member_MIN_RATING
  else if String.eqb name "MAX_RATING" then Some Member_MAX_RATING
  else if String.eqb name "validateRating" then Some Member_validateRating
  else if String.eqb name "create" then Some Member_create
  else None.

(** [Feedback.<name>(arg)] for a truthy [arg] that is not a feedback
    object, read as a boolean.  Calling [undefined] or a number throws a
    [TypeError]; [create] finds no [student_id] on such an argument. *)
Definition call_static (name : string) (arg : value) : result bool :=
  match static name with
  | Some Member_validateRating => Ok (validateRating arg)
  | Some Member_create => Throw "Student ID is required"
  | Some Member_MIN_RATING | Some Member_MAX_RATING | None =>
      Throw ("Feedback." ++ name ++ " is not a function")
  end.

Section WithEngine.
Variable String_toNumber : string -> number.
Variable Object_toNumber : number.

(** [this.rating >= 4] *)
Definition isPositive (f : t) : bool :=
  num_le (Fin 4) (Conversion.to_number String_toNumber Object_toNumber (rating f)).

(** [this.rating <= 2] *)
Definition isNegative (f : t) : bool :=
  num_le (Conversion.to_number String_toNumber Object_toNumber (rating f)) (Fin 2).
End WithEngine.

End Feedback.

Module ValidationService.
Import Js.

(** [typeof rating === 'number' && rating >= 1 && rating <= 5 &&
    Number.isInteger(rating)] *)
Definition isValidRating (rating : value) : bool :=
  match rating with
  | VNum n => num_le (Fin 1) n && num_le n (Fin 5) && num_isInteger n
  | _ => false
  end.

(** [typeof capacity === 'number' && capacity > 0 && Number.isInteger(capacity)] *)
Definition isValidCapacity (capacity : value) : bool :=
  match capacity with
  | VNum n => num_lt (Fin 0) n && num_isInteger n
  | _ => false
  end.

(** *** validatePasswordStrength *)

Record requirements : Type := {
  minLength : bool;
  hasUppercase : bool;
  hasLowercase : bool;
  hasNumber : bool;
  hasSpecialChar : bool
}.

Record strength : Type := {
  isValid : bool;
  score : nat;
  met : requirements;
  suggestions : list string
}.

(** The classes [A-Z], [a-z] and [\d] on a code unit *)
Definition is_upper (c : N) : bool := ((65 <=? c) && (c <=? 90))%N.
Definition is_lower (c : N) : bool := ((97 <=? c) && (c <=? 122))%N.
Definition is_digit (c : N) : bool := ((48 <=? c) && (c <=? 57))%N.

(** The class of special characters of the last test, by code unit: the
    exclamation mark, at sign, hash, dollar, percent, caret, ampersand,
    asterisk, the two parentheses, comma, full stop, question mark, double
    quote, colon, the two braces, vertical bar, less-than and
    greater-than. *)
Definition is_special (c : N) : bool :=
  existsb (N.eqb c)
    [33; 64; 35; 36; 37; 94; 38; 42; 40; 41; 44; 46; 63; 34; 58; 123; 125; 124;
     60; 62]%N.

(** One requirement: the flag, the point it scores and the suggestion it
    leaves when it is not met. *)
Definition check (ok : bool) (suggestion : string) (acc : nat * list string)
  : nat * list string :=
  if ok then (S (fst acc), snd acc) else (fst acc, (snd acc ++ [suggestion])%list).

(** [validatePasswordStrength(password)], for a password that is a string
    or absent. *)
Definition validatePasswordStrength (password : option UString.t) : strength :=
  let none := {| minLength := false; hasUppercase := false; hasLowercase := false;
                 hasNumber := false; hasSpecialChar := false |} in
  match password with
  | None | Some [] =>
      {| isValid := false; score := 0; met := none;
         suggestions := ["Password is required"] |}
  | Some password =>
      let minLength := (8 <=? List.length password)%nat in
      let hasUppercase := existsb is_upper password in
      let hasLowercase := existsb is_lower password in
      let hasNumber := existsb is_digit password in
      let hasSpecialChar := existsb is_special password in
      let '(score, suggestions) :=
        check hasSpecialChar "Password must contain at least one special character"
          (check hasNumber "Password must contain at least one number"
             (check hasLowercase "Password must contain at least one lowercase letter"
                (check hasUppercase
                   "Password must contain at least one uppercase letter"
                   (check minLength "Password must be at least 8 characters long"
                      (0%nat, []))))) in
      {| isValid := (4 <=? score)%nat;
         score := score;
         met := {| minLength := minLength; hasUppercase := hasUppercase;
                   hasLowercase := hasLowercase; hasNumber := hasNumber;
                   hasSpecialChar := hasSpecialChar |};
         suggestions := suggestions |}
  end.

End ValidationService.

(** ** FeedbackService *)

Module FeedbackService.
Import Js.

(** *** updateFeedback

    The table state and the client's
    [.update(updateData).eq('id', feedbackId).select().single()] belong to
    the database service. *)
Section WithClient.
Variable table : Type.
Variable update_single :
  table -> string -> Feedback.t -> table * response Feedback.t.

(** The body of the [try] block. *)
Definition updateFeedback_try (db : table) (feedbackId : string)
  (updateData : Feedback.t) : table * result Feedback.t :=
  (* updateData.rating && !Feedback.isValidRating(updateData.rating) *)
  let invalid : result bool :=
    if truthy (Feedback.rating updateData) then
      match Feedback.call_static "isValidRating" (Feedback.rating updateData) with
      | Ok valid => Ok (negb valid)
      | Throw m => Throw m
      end
    else Ok false in
  match invalid with
  | Throw m => (db, Throw m)
  | Ok true => (db, Throw "Invalid rating. Must be between 1 and 5")
  | Ok false =>
      let (db', r) := update_single db feedbackId updateData in
      match error r, data r with
      | Some e, _ => (db', Throw e)
      | None, None => (db', Throw "Feedback not found")
      | None, Some row => (db', Ok row)
      end
  end.

(** [catch (error) { throw new Error(`Failed to update feedback: ...`) }] *)
Definition updateFeedback (db : table) (feedbackId : string)
  (updateData : Feedback.t) : table * result Feedback.t :=
  match updateFeedback_try db feedbackId updateData with
  | (db', Throw m) => (db', Throw ("Failed to update feedback: " ++ m))
  | (db', Ok f) => (db', Ok f)
  end.
End WithClient.

(** A table the client can serve [update_single] from: the rows, patched
    with the defined fields of [updateData] where the id matches, and the
    single matching row when there is one. *)
Definition patch_field (old new : value) : value :=
  match new with VUndefined => old | v => v end.

Definition patch (updateData row : Feedback.t) : Feedback.t :=
  {| Feedback.id := patch_field (Feedback.id row) (Feedback.id updateData);
     Feedback.student_id :=
       patch_field (Feedback.student_id row) (Feedback.student_id updateData);
     Feedback.event_id :=
       patch_field (Feedback.event_id row) (Feedback.event_id updateData);
     Feedback.rating := patch_field (Feedback.rating row) (Feedback.rating updateData);
     Feedback.comments :=
       patch_field (Feedback.comments row) (Feedback.comments updateData);
     Feedback.submitted_at :=
       patch_field (Feedback.submitted_at row) (Feedback.submitted_at updateData);
     Feedback.created_at :=
       patch_field (Feedback.created_at row) (Feedback.created_at updateData);
     Feedback.updated_at :=
       patch_field (Feedback.updated_at row) (Feedback.updated_at updateData) |}.

Definition update_single_rows (db : list Feedback.t) (feedbackId : string)
  (updateData : Feedback.t) : list Feedback.t * response Feedback.t :=
  let hit r := strict_eq_string (Feedback.id r) feedbackId in
  let db' := map (fun r => if hit r then patch updateData r else r) db in
  (db',
   match List.filter hit db' with
   | [row] => {| data := Some row; count := None; error := None |}
   | _ => {| data := None; count := None;
             error := Some "JSON object requested, multiple (or no) rows returned" |}
   end).

(** *** getOverallFeedbackStats *)

(** A row of [select('rating, created_at')]: an integer column and a
    timestamp, here in milliseconds. *)
Record rating_row : Type := {
  rating : Z;
  created_at : Z
}.

(** The bounds of [filters] that are truthy. *)
Record filters : Type := {
  start_date : option Z;
  end_date : option Z
}.

Definition in_scope (f : filters) (r : rating_row) : bool :=
  match start_date f with Some s => s <=? created_at r | None => true end
  && match end_date f with Some e => created_at r <=? e | None => true end.

Definition select_ratings (rows : list rating_row) (f : filters)
  : response (list rating_row) :=
  {| data := Some (List.filter (in_scope f) rows);
     count := None;
     error := None |}.

Record overall_stats : Type := {
  total_feedback : nat;
  average_rating : number;
  rating_distribution : gmap Z number;
  satisfaction_rate : number
}.

(** [{ 1: 0, 2: 0, 3: 0, 4: 0, 5: 0 }] *)
Definition empty_distribution : gmap Z number :=
  <[1 := Fin 0]> (<[2 := Fin 0]> (<[3 := Fin 0]> (<[4 := Fin 0]> (<[5 := Fin 0]> ∅)))).

(** [d[k]], with [undefined] read as a number *)
Definition bucket (d : gmap Z number) (k : Z) : number :=
  default NaN (d !! k).

(** [d[k]++] *)
Definition increment (d : gmap Z number) (k : Z) : gmap Z number :=
  <[k := add (bucket d k) (Fin 1)]> d.

Definition stats_of_ratings (ratings : list Z) : overall_stats :=
  let n := length ratings in
  if (0 <? n)%nat then
    let totalRating := fold_left (fun sum r => add sum (of_Z r)) ratings (Fin 0) in
    let distribution := fold_left increment ratings empty_distribution in
    let satisfiedCount := add (bucket distribution 4) (bucket distribution 5) in
    {| total_feedback := n;
       average_rating := Number_toFixed2 (div totalRating (of_nat n));
       rating_distribution := distribution;
       satisfaction_rate :=
         Number_toFixed2 (mul (div satisfiedCount (of_nat n)) (Fin 100)) |}
  else
    {| total_feedback := n;
       average_rating := Fin 0;
       rating_distribution := empty_distribution;
       satisfaction_rate := Fin 0 |}.

Definition stats_prefix : string := "Failed to fetch overall feedback stats: ".

Definition getOverallFeedbackStats_of (r : response (list rating_row))
  : result overall_stats :=
  match error r, data r with
  | Some e, _ => Throw (stats_prefix ++ e)
  | None, None =>
      Throw (stats_prefix ++ "Cannot read properties of null (reading 'length')")
  | None, Some rows => Ok (stats_of_ratings (map rating rows))
  end.

Definition getOverallFeedbackStats (rows : list rating_row) (f : filters)
  : result overall_stats :=
  getOverallFeedbackStats_of (select_ratings rows f).

(** *** getEventFeedbackStats *)

(** A row of [select('rating, comments')]: an integer column and a text
    column that may be [NULL]. *)
Record comment_row : Type := {
  cr_event_id : Z;
  cr_rating : Z;
  cr_comments : option UString.t
}.

Record event_stats : Type := {
  ev_total_feedback : nat;
  ev_average_rating : number;
  ev_rating_distribution : gmap Z number;
  ev_total_comments : nat
}.

(** [f.comments && f.comments.trim()], read as a boolean *)
Definition has_comments (f : comment_row) : bool :=
  match cr_comments f with
  | Some s => negb (UString.is_empty s) && negb (UString.is_empty (UString.trim s))
  | None => false
  end.

Definition event_stats_of (rows : list comment_row) : event_stats :=
  let n := List.length rows in
  let total_comments := List.length (List.filter has_comments rows) in
  if (0 <? n)%nat then
    let totalRating :=
      fold_left (fun sum feedback => add sum (of_Z (cr_rating feedback))) rows (Fin 0) in
    let distribution :=
      fold_left (fun d feedback => increment d (cr_rating feedback)) rows
        empty_distribution in
    {| ev_total_feedback := n;
       ev_average_rating := Number_toFixed2 (div totalRating (of_nat n));
       ev_rating_distribution := distribution;
       ev_total_comments := total_comments |}
  else
    {| ev_total_feedback := n;
       ev_average_rating := Fin 0;
       ev_rating_distribution := empty_distribution;
       ev_total_comments := total_comments |}.

Definition event_stats_prefix : string := "Failed to fetch event feedback stats: ".

Definition getEventFeedbackStats_of (r : response (list comment_row))
  : result event_stats :=
  match error r, data r with
  | Some e, _ => Throw (event_stats_prefix ++ e)
  | None, None =>
      Throw (event_stats_prefix ++ "Cannot read properties of null (reading 'length')")
  | None, Some rows => Ok (event_stats_of rows)
  end.

(** [.from('feedback').select('rating, comments').eq('event_id', eventId)] *)
Definition getEventFeedbackStats (rows : list comment_row) (eventId : Z)
  : result event_stats :=
  getEventFeedbackStats_of
    {| data := Some (List.filter (fun r => cr_event_id r =? eventId) rows);
       count := None;
       error := None |}.

End FeedbackService.

(** ** ResponseHelper: the standard envelopes *)

Module ResponseHelper.

(** [{ success, message, data | errors, timestamp }] with its HTTP status;
    the timestamp is left out. *)
Record envelope (A : Type) : Type := {
  status : Z;
  success : bool;
  message : string;
  data : option A
}.
Arguments status {A} e.
Arguments success {A} e.
Arguments message {A} e.
Arguments data {A} e.

Definition success_with {A} (d : option A) (msg : string) (statusCode : Z)
  : envelope A :=
  {| status := statusCode; success := true; message := msg; data := d |}.

Definition error {A} (msg : string) (statusCode : Z) : envelope A :=
  {| status := statusCode; success := false; message := msg; data := None |}.

Definition validationError {A} (msg : string) : envelope A := error msg 400.
Definition unauthorized {A} (msg : string) : envelope A := error msg 401.
Definition forbidden {A} (msg : string) : envelope A := error msg 403.

End ResponseHelper.

(** ** The Admin model *)

Module Admin.
Import Js.

Record t : Type := {
  id : value;
  username : value;
  email : value;
  password_hash : value;
  role : value;
  is_active : value;
  last_login : value;
  created_at : value;
  updated_at : value
}.

(** [new Admin(data)] *)
Definition construct (data : t) : t :=
  {| id := id data;
     username := username data;
     email := email data;
     password_hash := password_hash data;
     role := if truthy (role data) then role data else VStr "admin";
     is_active :=
       match is_active data with VUndefined => VBool true | v => v end;
     last_login := last_login data;
     created_at := created_at data;
     updated_at := updated_at data |}.

(** [updateLastLogin()]; [now] is [new Date().toISOString()]. *)
Definition updateLastLogin (now : string) (a : t) : t :=
  {| id := id a;
     username := username a;
     email := email a;
     password_hash := password_hash a;
     role := role a;
     is_active := is_active a;
     last_login := VStr now;
     created_at := created_at a;
     updated_at := VStr now |}.

(** [toJSON(includePassword = false)]: the default replaces an argument
    that is [undefined]. *)
Definition toJSON (a : t) (includePassword : value) : gmap string value :=
  let includePassword :=
    match includePassword with VUndefined => VBool false | v => v end in
  let result : gmap string value :=
    <["id" := id a]>
    (<["username" := username a]>
    (<["email" := email a]>
    (<["role" := role a]>
    (<["is_active" := is_active a]>
    (<["last_login" := last_login a]>
    (<["created_at" := created_at a]>
    (<["updated_at" := updated_at a]> ∅))))))) in
  if truthy includePassword
  then <["password_hash" := password_hash a]> result
  else result.

(** The record [a] with another password hash. *)
Definition with_password_hash (h : value) (a : t) : t :=
  {| id := id a;
     username := username a;
     email := email a;
     password_hash := h;
     role := role a;
     is_active := is_active a;
     last_login := last_login a;
     created_at := created_at a;
     updated_at := updated_at a |}.

End Admin.

(** ** AuthService *)

Module AuthService.
Import Js.

(** [.eq(column, v)] of the client on one row: SQL equality, which no
    [NULL] satisfies. *)
Definition column_eq (column v : value) : bool :=
  match column, v with
  | VStr a, VStr b => String.eqb a b
  | VNum (Fin a), VNum (Fin b) => Qeq_bool a b
  | VBool a, VBool b => Bool.eqb a b
  | _, _ => false
  end.

(** [.single()]: the row when exactly one matches; otherwise the client
    reports PGRST116, which the lookups below turn into [null]. *)
Definition single {A} (rows : list A) : option A :=
  match rows with
  | [r] => Some r
  | _ => None
  end.

Definition getAdminByEmail (db : list Admin.t) (email : string)
  : option Admin.t :=
  Admin.construct <$>
    single (List.filter (fun r => column_eq (Admin.email r) (VStr email)) db).

Definition getAdminByUsername (db : list Admin.t) (username : string)
  : option Admin.t :=
  Admin.construct <$>
    single (List.filter (fun r => column_eq (Admin.username r) (VStr username)) db).

(** The lookup of [loginAdmin]: by email, and by username when no admin
    has that email. *)
Definition findAdmin (db : list Admin.t) (identifier : string)
  : option Admin.t :=
  match getAdminByEmail db identifier with
  | Some a => Some a
  | None => getAdminByUsername db identifier
  end.

(** [.update({ last_login: now }).eq('id', adminId)] *)
Definition updateLastLogin (db : list Admin.t) (adminId : value) (now : string)
  : list Admin.t :=
  map (fun r =>
         if column_eq (Admin.id r) adminId
         then {| Admin.id := Admin.id r;
                 Admin.username := Admin.username r;
                 Admin.email := Admin.email r;
                 Admin.password_hash := Admin.password_hash r;
                 Admin.role := Admin.role r;
                 Admin.is_active := Admin.is_active r;
                 Admin.last_login := VStr now;
                 Admin.created_at := Admin.created_at r;
                 Admin.updated_at := Admin.updated_at r |}
         else r) db.

(** [.update({ is_active: false }).eq('id', adminId)] *)
Definition deactivateAdmin (db : list Admin.t) (adminId : string)
  : list Admin.t * result bool :=
  (map (fun r =>
          if column_eq (Admin.id r) (VStr adminId)
          then {| Admin.id := Admin.id r;
                  Admin.username := Admin.username r;
                  Admin.email := Admin.email r;
                  Admin.password_hash := Admin.password_hash r;
                  Admin.role := Admin.role r;
                  Admin.is_active := VBool false;
                  Admin.last_login := Admin.last_login r;
                  Admin.created_at := Admin.created_at r;
                  Admin.updated_at := Admin.updated_at r |}
          else r) db,
   Ok true).

Section WithOrder.
(** The order of the database on the column [created_at], whose type is
    the schema's: [created_at_desc a b] holds when a row with
    [created_at = a] does not come after a row with [created_at = b] under
    [ORDER BY created_at DESC]. *)
Variable created_at_desc : value -> value -> bool.

Fixpoint place_row (r : Admin.t) (rows : list Admin.t) : list Admin.t :=
  match rows with
  | [] => [r]
  | r' :: rest =>
      if created_at_desc (Admin.created_at r) (Admin.created_at r')
      then r :: rows
      else r' :: place_row r rest
  end.

(** [.order('created_at', { ascending: false })]; rows that the order does
    not tell apart, which the database may give either way round, stay as
    the table has them. *)
Definition order_by_created_at (rows : list Admin.t) : list Admin.t :=
  fold_right place_row [] rows.

(** [getAllAdmins]: the rows in that order, through
    [data.map(admin => new Admin(admin).toJSON())] *)
Definition getAllAdmins (db : list Admin.t) : list (gmap string value) :=
  map (fun admin => Admin.toJSON (Admin.construct admin) VUndefined)
    (order_by_created_at db).
End WithOrder.

Record login_result : Type := {
  admin : gmap string value;
  accessToken : string;
  refreshToken : string
}.

Section WithLibraries.
(** [bcrypt.compare], which throws on a malformed hash *)
Variable bcrypt_compare : string -> value -> result bool.
(** [jwt.sign(payload, secret, { expiresIn })] *)
Variable jwt_sign : gmap string value -> string -> string -> string.
(** [process.env.JWT_SECRET] and [process.env.JWT_REFRESH_SECRET] *)
Variable JWT_SECRET : option string.
Variable JWT_REFRESH_SECRET : option string.

Definition env_truthy (v : option string) : option string :=
  match v with
  | Some s => if String.eqb s "" then None else Some s
  | None => None
  end.

Definition comparePassword (password : string) (hash : value) : result bool :=
  match bcrypt_compare password hash with
  | Ok b => Ok b
  | Throw m => Throw ("Failed to compare password: " ++ m)
  end.

Definition generateToken (payload : gmap string value) : result string :=
  match env_truthy JWT_SECRET with
  | None => Throw "JWT_SECRET environment variable is not set"
  | Some secretKey => Ok (jwt_sign payload secretKey "24h")
  end.

Definition generateRefreshToken (payload : gmap string value) : result string :=
  match env_truthy JWT_REFRESH_SECRET, env_truthy JWT_SECRET with
  | Some refreshSecret, _ | None, Some refreshSecret =>
      Ok (jwt_sign payload refreshSecret "7d")
  | None, None => Throw "JWT_REFRESH_SECRET environment variable is not set"
  end.

(** The body of the [try] block of [loginAdmin]. *)
Definition loginAdmin_try (db : list Admin.t) (identifier password now : string)
  : list Admin.t * result login_result :=
  match findAdmin db identifier with
  | None => (db, Throw "Invalid credentials")
  | Some admin =>
      if negb (truthy (Admin.is_active admin))
      then (db, Throw "Account is deactivated")
      else
        match comparePassword password (Admin.password_hash admin) with
        | Throw m => (db, Throw m)
        | Ok false => (db, Throw "Invalid credentials")
        | Ok true =>
            let db' := updateLastLogin db (Admin.id admin) now in
            let admin := Admin.updateLastLogin now admin in
            let tokenPayload : gmap string value :=
              <["id" := Admin.id admin]>
              (<["username" := Admin.username admin]>
              (<["email" := Admin.email admin]>
              (<["role" := Admin.role admin]> ∅))) in
            match generateToken tokenPayload with
            | Throw m => (db', Throw m)
            | Ok access =>
                match generateRefreshToken tokenPayload with
                | Throw m => (db', Throw m)
                | Ok refresh =>
                    (db', Ok {| admin := Admin.toJSON admin VUndefined;
                                accessToken := access;
                                refreshToken := refresh |})
                end
            end
        end
  end.

(** [catch (error) { throw new Error(`Login failed: ...`) }] *)
Definition loginAdmin (db : list Admin.t) (identifier password now : string)
  : list Admin.t * result login_result :=
  match loginAdmin_try db identifier password now with
  | (db', Throw m) => (db', Throw ("Login failed: " ++ m))
  | (db', Ok r) => (db', Ok r)
  end.
End WithLibraries.

(** The lookup of a row by one column: [.eq(column, v).single()], wrapped
    in [new Admin(data)]. *)
Definition getAdminBy (column : Admin.t -> value) (db : list Admin.t) (v : value)
  : option Admin.t :=
  Admin.construct <$> single (List.filter (fun r => column_eq (column r) v) db).

Definition getAdminById (db : list Admin.t) (adminId : string) : option Admin.t :=
  getAdminBy Admin.id db (VStr adminId).

(** [validateSession(adminId)] *)
Definition validateSession (db : list Admin.t) (adminId : string)
  : option Admin.t :=
  match getAdminById db adminId with
  | Some admin => if negb (truthy (Admin.is_active admin)) then None else Some admin
  | None => None
  end.

(** [.update({ is_active: true }).eq('id', adminId)] *)
Definition activateAdmin (db : list Admin.t) (adminId : string)
  : list Admin.t * result bool :=
  (map (fun r =>
          if column_eq (Admin.id r) (VStr adminId)
          then {| Admin.id := Admin.id r;
                  Admin.username := Admin.username r;
                  Admin.email := Admin.email r;
                  Admin.password_hash := Admin.password_hash r;
                  Admin.role := Admin.role r;
                  Admin.is_active := VBool true;
                  Admin.last_login := Admin.last_login r;
                  Admin.created_at := Admin.created_at r;
                  Admin.updated_at := Admin.updated_at r |}
          else r) db,
   Ok true).

Section WithCrypto.
Variable bcrypt_compare : string -> value -> result bool.
(** [bcrypt.hash(password, rounds)], with the salt it draws *)
Variable bcrypt_hash : string -> Z -> string -> result string.

(** [CryptoHelper.SALT_ROUNDS] *)
Definition SALT_ROUNDS : Z := 12.

(** [CryptoHelper.hashPassword] *)
Definition hashPassword (password salt : string) : result string :=
  match bcrypt_hash password SALT_ROUNDS salt with
  | Ok hash => Ok hash
  | Throw m => Throw ("Failed to hash password: " ++ m)
  end.

(** The body of the [try] block of [changePassword]; [salt] is the salt
    [bcrypt.hash] draws for the new password. *)
Definition changePassword_try (db : list Admin.t) (adminId : string)
  (currentPassword newPassword salt : string) : list Admin.t * result bool :=
  match getAdminById db adminId with
  | None => (db, Throw "Admin not found")
  | Some admin =>
      match comparePassword bcrypt_compare currentPassword
              (Admin.password_hash admin) with
      | Throw m => (db, Throw m)
      | Ok false => (db, Throw "Current password is incorrect")
      | Ok true =>
          match hashPassword newPassword salt with
          | Throw m => (db, Throw m)
          | Ok newPasswordHash =>
              (* .update({ password_hash: newPasswordHash }).eq('id', adminId) *)
              (map (fun r =>
                      if column_eq (Admin.id r) (VStr adminId)
                      then Admin.with_password_hash (VStr newPasswordHash) r
                      else r) db,
               Ok true)
          end
      end
  end.

Definition changePassword (db : list Admin.t) (adminId : string)
  (currentPassword newPassword salt : string) : list Admin.t * result bool :=
  match changePassword_try db adminId currentPassword newPassword salt with
  | (db', Throw m) => (db', Throw ("Failed to change password: " ++ m))
  | (db', Ok b) => (db', Ok b)
  end.
End WithCrypto.

(** *** updateAdminProfile *)

Definition allowedFields : list string := ["username"; "email"].

(** [filteredData], built field by field; a JSON body is a map from its
    keys to values. *)
Definition filteredData (updateData : gmap string value) : gmap string value :=
  fold_left
    (fun acc field =>
       match updateData !! field with
       | None | Some VUndefined => acc
       | Some v => <[field := v]> acc
       end)
    allowedFields ∅.

(** [.update(data)] on one row: each column that [data] names takes its
    value. *)
Definition set_columns (data : gmap string value) (r : Admin.t) : Admin.t :=
  {| Admin.id := default (Admin.id r) (data !! "id");
     Admin.username := default (Admin.username r) (data !! "username");
     Admin.email := default (Admin.email r) (data !! "email");
     Admin.password_hash := default (Admin.password_hash r) (data !! "password_hash");
     Admin.role := default (Admin.role r) (data !! "role");
     Admin.is_active := default (Admin.is_active r) (data !! "is_active");
     Admin.last_login := default (Admin.last_login r) (data !! "last_login");
     Admin.created_at := default (Admin.created_at r) (data !! "created_at");
     Admin.updated_at := default (Admin.updated_at r) (data !! "updated_at") |}.

Section WithClient.
(** The message of the error [.single()] reports unless exactly one row
    matches *)
Variable no_single_row : string.

(** [.update(data).eq('id', adminId).select().single()] *)
Definition update_single (db : list Admin.t) (adminId : string)
  (data : gmap string value) : list Admin.t * response Admin.t :=
  let hit r := column_eq (Admin.id r) (VStr adminId) in
  let db' := map (fun r => if hit r then set_columns data r else r) db in
  (db',
   match List.filter hit db' with
   | [row] => {| data := Some row; count := None; error := None |}
   | _ => {| data := None; count := None; error := Some no_single_row |}
   end).

(** [data.field] is truthy, and the lookup finds an admin with another
    id. *)
Definition in_use (column : Admin.t -> value) (db : list Admin.t)
  (adminId : string) (field : option value) : bool :=
  match field with
  | Some v =>
      truthy v
      && match getAdminBy column db v with
         | Some existingAdmin => negb (strict_eq_string (Admin.id existingAdmin) adminId)
         | None => false
         end
  | None => false
  end.

(** The body of the [try] block of [updateAdminProfile]. *)
Definition updateAdminProfile_try (db : list Admin.t) (adminId : string)
  (updateData : gmap string value) : list Admin.t * result (gmap string value) :=
  let filteredData := filteredData updateData in
  if (size filteredData =? 0)%nat
  then (db, Throw "No valid fields to update")
  else if in_use Admin.email db adminId (filteredData !! "email")
  then (db, Throw "Email already in use")
  else if in_use Admin.username db adminId (filteredData !! "username")
  then (db, Throw "Username already in use")
  else
    let (db', r) := update_single db adminId filteredData in
    match error r, data r with
    | Some e, _ => (db', Throw e)
    | None, None =>
        (db', Throw "Cannot read properties of null (reading 'id')")
    | None, Some row => (db', Ok (Admin.toJSON (Admin.construct row) VUndefined))
    end.

Definition updateAdminProfile (db : list Admin.t) (adminId : string)
  (updateData : gmap string value) : list Admin.t * result (gmap string value) :=
  match updateAdminProfile_try db adminId updateData with
  | (db', Throw m) => (db', Throw ("Failed to update admin profile: " ++ m))
  | (db', Ok r) => (db', Ok r)
  end.
End WithClient.

End AuthService.

(** ** AuthController *)

Module AuthController.
Import Js.

(** [req.body] of [POST /auth/login]; an absent field is [None]. *)
Record login_body : Type := {
  identifier : option string;
  password : option string
}.

(** [!field] on a field that is absent or a string *)
Definition provided (field : option string) : option string :=
  match field with
  | Some s => if String.eqb s "" then None else Some s
  | None => None
  end.

Section WithLibraries.
Variable bcrypt_compare : string -> value -> result bool.
Variable jwt_sign : gmap string value -> string -> string -> string.
Variable JWT_SECRET : option string.
Variable JWT_REFRESH_SECRET : option string.

Definition login (db : list Admin.t) (body : login_body) (now : string)
  : list Admin.t * ResponseHelper.envelope AuthService.login_result :=
  match provided (identifier body), provided (password body) with
  | Some identifier, Some password =>
      match AuthService.loginAdmin bcrypt_compare jwt_sign JWT_SECRET
              JWT_REFRESH_SECRET db identifier password now with
      | (db', Ok r) =>
          (db', ResponseHelper.success_with (Some r) "Login successful" 200)
      | (db', Throw m) => (db', ResponseHelper.unauthorized m)
      end
  | _, _ =>
      (db, ResponseHelper.validationError "Email/username and password are required")
  end.
End WithLibraries.

(** [req.user], the decoded token, and [req.params.id] *)
Record user : Type := {
  user_id : value;
  user_role : value
}.

Record request : Type := {
  req_user : user;
  params_id : string
}.

Definition deactivateAdmin (db : list Admin.t) (req : request)
  : list Admin.t * ResponseHelper.envelope unit :=
  if negb (strict_eq_string (user_role (req_user req)) "super_admin")
  then (db, ResponseHelper.forbidden "Super admin access required")
  else
    let id := params_id req in
    if strict_eq_string (user_id (req_user req)) id
    then (db, ResponseHelper.error "Cannot deactivate your own account" 400)
    else
      match AuthService.deactivateAdmin db id with
      | (db', Ok _) =>
          (db', ResponseHelper.success_with None "Admin deactivated successfully" 200)
      | (db', Throw m) => (db', ResponseHelper.error m 500)
      end.

End AuthController.

(** ** The Event model *)

Module Event.
Import Js.

Record t : Type := {
  id : value;
  title : value;
  description : value;
  date : value;
  location : value;
  max_attendees : value;
  college_id : value;
  created_at : value;
  updated_at : value
}.

(** [!v || v.trim().length < n], which throws when the truthy [v] has no
    [trim] method; [length] counts the code units that [trim] leaves. *)
Definition too_short (field : string) (v : value) (n : nat) : result bool :=
  if negb (truthy v) then Ok true
  else match v with
       | VStr s =>
           Ok (List.length (UString.trim (UString.of_utf8 s)) <? n)%nat
       | _ => Throw ("data." ++ field ++ ".trim is not a function")
       end.

Section WithDates.
(** [Date.parse] on a string, in milliseconds; [None] is an invalid date *)
Variable Date_parse : string -> option Z.
(** the time value [new Date(o)] takes from an object [o] *)
Variable Date_of_object : option Z.

(** the time value of [new Date(v)] *)
Definition time_value (v : value) : option Z :=
  match v with
  | VStr s => Date_parse s
  | VNum (Fin q) =>
      if Qle_bool (Qabs q) (inject_Z 8640000000000000)
      then Some (if is_neg q then - Qfloor (- q) else Qfloor q)
      else None
  | VNum _ => None
  | VBool b => Some (if b then 1 else 0)
  | VNull => Some 0
  | VUndefined => None
  | VObj => Date_of_object
  end.

(** [validateDate(date)]; [now] is the time value of [new Date()]. *)
Definition validateDate (now : Z) (date : value) : bool :=
  match time_value date with
  | Some eventDate => now <? eventDate
  | None => false
  end.

Definition validateMaxAttendees (maxAttendees : value) : bool :=
  match maxAttendees with
  | VNum n => num_isInteger n && num_lt (Fin 0) n
  | _ => false
  end.

Definition create (now : Z) (data : t) : result t :=
  match too_short "title" (title data) 3 with
  | Throw m => Throw m
  | Ok true => Throw "Event title must be at least 3 characters long"
  | Ok false =>
  match too_short "description" (description data) 10 with
  | Throw m => Throw m
  | Ok true => Throw "Event description must be at least 10 characters long"
  | Ok false =>
  if negb (truthy (date data)) || negb (validateDate now (date data))
  then Throw "Event date must be in the future"
  else
  match too_short "location" (location data) 3 with
  | Throw m => Throw m
  | Ok true => Throw "Event location must be at least 3 characters long"
  | Ok false =>
  if negb (truthy (max_attendees data))
     || negb (validateMaxAttendees (max_attendees data))
  then Throw "Max attendees must be a positive integer"
  else if negb (truthy (college_id data))
  then Throw "College ID is required"
  else Ok data
  end end end.
End WithDates.

Section WithClock.
Variable Date_parse : string -> option Z.
Variable Date_of_object : option Z.
Variable String_toNumber : string -> number.
Variable Object_toNumber : number.

(** [isPast()]: [new Date(this.date) < new Date()]; [now] is the time value
    of [new Date()], and an invalid date compares false. *)
Definition isPast (now : Z) (e : t) : bool :=
  match time_value Date_parse Date_of_object (date e) with
  | Some eventDate => eventDate <? now
  | None => false
  end.

(** [isFull(currentAttendees = 0)], for a number of attendees *)
Definition isFull (e : t) (currentAttendees : option number) : bool :=
  let currentAttendees := default (Fin 0) currentAttendees in
  num_le (Conversion.to_number String_toNumber Object_toNumber (max_attendees e))
    currentAttendees.
End WithClock.

End Event.

(** ** The Registration model *)

Module Registration.
Import Js.

Record t : Type := {
  id : value;
  student_id : value;
  event_id : value;
  registration_date : value;
  status : value;
  created_at : value;
  updated_at : value
}.

Definition VALID_STATUSES : list string :=
  ["confirmed"; "cancelled"; "waitlisted"].

(** [VALID_STATUSES.includes(status)] *)
Definition validateStatus (status : value) : bool :=
  existsb (strict_eq_string status) VALID_STATUSES.

(** [list.join(', ')] *)
Fixpoint join (l : list string) : string :=
  match l with
  | [] => ""
  | [s] => s
  | s :: rest => s ++ ", " ++ join rest
  end.

(** [new Registration(data)] *)
Definition construct (data : t) : t :=
  {| id := id data;
     student_id := student_id data;
     event_id := event_id data;
     registration_date := registration_date data;
     status := if truthy (status data) then status data else VStr "confirmed";
     created_at := created_at data;
     updated_at := updated_at data |}.

(** [Registration.create(data)]; [now] is [new Date().toISOString()]. *)
Definition create (now : string) (data : t) : result t :=
  if negb (truthy (student_id data)) then Throw "Student ID is required"
  else if negb (truthy (event_id data)) then Throw "Event ID is required"
  else if truthy (status data) && negb (validateStatus (status data))
  then Throw ("Status must be one of: " ++ join VALID_STATUSES)
  else Ok (construct
             {| id := id data;
                student_id := student_id data;
                event_id := event_id data;
                registration_date :=
                  if truthy (registration_date data) then registration_date data
                  else VStr now;
                status := status data;
                created_at := created_at data;
                updated_at := updated_at data |}).

(** [isActive()] *)
Definition isActive (r : t) : bool := strict_eq_string (status r) "confirmed".

(** [cancel()]; [now] is [new Date().toISOString()]. *)
Definition cancel (now : string) (r : t) : t :=
  {| id := id r;
     student_id := student_id r;
     event_id := event_id r;
     registration_date := registration_date r;
     status := VStr "cancelled";
     created_at := created_at r;
     updated_at := VStr now |}.

End Registration.

(** ** RegistrationService *)

Module RegistrationService.
Import Js.

Section WithClient.
Variable table : Type.
(** [.update({ status }).eq('id', registrationId).select().single()] *)
Variable update_status :
  table -> string -> string -> table * response Registration.t.


End WithClient.



End RegistrationService.

(** ** RateLimitMiddleware

    The store is a [Map] from keys to record objects.  A record lives on a
    heap and the store holds its reference: the middleware increments the
    object it found in the store, and the [finish] listener of a response
    keeps the object of its own request. *)

Module RateLimitMiddleware.

(** The options of [createLimiter].  [keyGenerator] gives the key of a
    request, which the events below carry; [legacyHeaders] only adds
    headers to the response. *)
Record options : Type := {
  windowMs : Z;
  max : Z;
  message : string;
  skipSuccessfulRequests : bool;
  skipFailedRequests : bool;
  standardHeaders : bool
}.

(** The defaults of [createLimiter]. *)
Definition createLimiter_defaults : options :=
  {| windowMs := 15 * 60 * 1000;
     max := 100;
     message := "Too many requests, please try again later";
     skipSuccessfulRequests := false;
     skipFailedRequests := false;
     standardHeaders := true |}.




Record record : Type := {
  count : Z;
  resetTime : Z
}.













(** What the process sees: requests entering a limiter and responses
    finishing, in their order of arrival.  The limiters of one process
    share the store. *)
Inductive event : Type :=
| Request (o : options) (key : string) (now : Z) (sweep : option Z)
| Finish (o : options) (key : string) (ref : nat) (statusCode : Z).
























End RateLimitMiddleware.

(** ** AuthMiddleware and AdminMiddleware: the role gates *)

Module AdminMiddleware.
Import Js.

(** [req.user], the decoded token, with the fields the middlewares read *)
Record user : Type := {
  id : value;
  student_id : value;
  role : value;
  college_id : value
}.

(** What a middleware does with a request: it calls [next()], or it answers
    through [ResponseHelper]. *)
Inductive verdict : Type :=
| Next
| Reply (e : ResponseHelper.envelope unit).

(** [user && (user.role === 'admin' || user.role === 'super_admin')], read
    as a boolean *)
Definition isAdmin (u : option user) : bool :=
  match u with
  | Some u => strict_eq_string (role u) "admin"
              || strict_eq_string (role u) "super_admin"
  | None => false
  end.

(** [user && user.role === 'super_admin'], read as a boolean *)
Definition isSuperAdmin (u : option user) : bool :=
  match u with
  | Some u => strict_eq_string (role u) "super_admin"
  | None => false
  end.

Definition requireAdmin (req_user : option user) : verdict :=
  match req_user with
  | None => Reply (ResponseHelper.unauthorized "Authentication required")
  | Some u =>
      if negb (strict_eq_string (role u) "admin")
         && negb (strict_eq_string (role u) "super_admin")
      then Reply (ResponseHelper.forbidden "Admin access required")
      else Next
  end.

Definition requireSuperAdmin (req_user : option user) : verdict :=
  match req_user with
  | None => Reply (ResponseHelper.unauthorized "Authentication required")
  | Some u =>
      if negb (strict_eq_string (role u) "super_admin")
      then Reply (ResponseHelper.forbidden "Super admin access required")
      else Next
  end.

(** [param === v] for a path parameter, a string or [undefined] *)
Definition strict_eq_param (param : option string) (v : value) : bool :=
  match param, v with
  | Some s, VStr t => String.eqb s t
  | None, VUndefined => true
  | _, _ => false
  end.

(** [a || b] *)
Definition or_else (a b : value) : value := if truthy a then a else b.

(** [allowAdminOrOwner(userIdParam)], called on the class; [param] is
    [req.params[userIdParam]]. *)
Definition allowAdminOrOwner (param : option string) (req_user : option user)
  : verdict :=
  match req_user with
  | None => Reply (ResponseHelper.unauthorized "Authentication required")
  | Some u =>
      if isAdmin (Some u) then Next
      else
        let resourceUserId := param in
        let currentUserId := or_else (id u) (student_id u) in
        if strict_eq_param resourceUserId currentUserId then Next
        else Reply (ResponseHelper.forbidden "Access denied")
  end.

(** The names every object inherits from [Object.prototype]. *)
Definition Object_prototype_names : list string :=
  [ "constructor"; "__defineGetter__"; "__defineSetter__"; "hasOwnProperty";
    "__lookupGetter__"; "__lookupSetter__"; "isPrototypeOf";
    "propertyIsEnumerable"; "toString"; "valueOf"; "__proto__";
    "toLocaleString" ].

(** The object literal [adminPermissions], own properties first. *)
Definition adminPermissions : list (string * list string) :=
  [ ("events", ["create"; "read"; "update"; "delete"]);
    ("students", ["create"; "read"; "update"]);
    ("registrations", ["read"; "update"]);
    ("attendance", ["read"; "update"]);
    ("feedback", ["read"]);
    ("reports", ["read"]);
    ("colleges", ["read"]) ].

Fixpoint own_property (o : list (string * list string)) (name : string)
  : option (list string) :=
  match o with
  | [] => None
  | (k, v) :: rest => if String.eqb k name then Some v else own_property rest name
  end.

(** [(adminPermissions[resource] || []).includes(operation)]: an inherited
    property is a function or an object, which has no [includes]. *)
Definition allowed (operation resource : string) : result bool :=
  match own_property adminPermissions resource with
  | Some allowedOperations => Ok (existsb (String.eqb operation) allowedOperations)
  | None =>
      if existsb (String.eqb resource) Object_prototype_names
      then Throw "allowedOperations.includes is not a function"
      else Ok false
  end.

(** [checkPermissions(operation, resource)] *)
Definition checkPermissions (operation resource : string)
  (req_user : option user) : result verdict :=
  match req_user with
  | None => Ok (Reply (ResponseHelper.unauthorized "Authentication required"))
  | Some u =>
      let userRole := role u in
      let insufficient :=
        Reply (ResponseHelper.forbidden
                 ("Insufficient permissions for " ++ operation ++ " on " ++ resource)) in
      if strict_eq_string userRole "super_admin" then Ok Next
      else if strict_eq_string userRole "admin" then
        match allowed operation resource with
        | Throw m => Throw m
        | Ok true => Ok Next
        | Ok false => Ok insufficient
        end
      else Ok insufficient
  end.

Section WithEngine.
Variable Number_toString : number -> string.
Variable Object_toString : string.

(** The key of an admin in the [attempts] map of [rateLimit]. *)
Definition rateLimit_key (u : user) : string :=
  "admin_" ++ Conversion.to_string Number_toString Object_toString (id u).

(** The middleware [rateLimit(maxAttempts, windowMs)] returns, called on the
    class, on a request at time [now]; [attempts] is the [Map] of its
    closure. *)
Definition rateLimit (maxAttempts windowMs : Z) (attempts : gmap string (list Z))
  (req_user : option user) (now : Z) : gmap string (list Z) * verdict :=
  match req_user with
  | None => (attempts, Next)
  | Some u =>
      if negb (isAdmin (Some u)) then (attempts, Next)
      else
        let key := rateLimit_key u in
        let windowStart := now - windowMs in
        let userAttempts := default [] (attempts !! key) in
        let recentAttempts :=
          List.filter (fun time => windowStart <? time) userAttempts in
        if maxAttempts <=? Z.of_nat (List.length recentAttempts)
        then (attempts,
              Reply (ResponseHelper.error
                       "Too many admin actions. Please try again later." 429))
        else (<[key := (recentAttempts ++ [now])%list]> attempts, Next)
  end.

(** The requests of a process, each with its clock, through one limiter:
    the times of the requests of the admin key [key] that went through. *)
Fixpoint let_through (maxAttempts windowMs : Z) (key : string)
  (attempts : gmap string (list Z)) (reqs : list (option user * Z)) : list Z :=
  match reqs with
  | [] => []
  | (req_user, now) :: rest =>
      let (attempts', v) := rateLimit maxAttempts windowMs attempts req_user now in
      let later := let_through maxAttempts windowMs key attempts' rest in
      match req_user, v with
      | Some u, Next =>
          if isAdmin (Some u) && String.eqb (rateLimit_key u) key
          then now :: later else later
      | _, _ => later
      end
  end.

(** The map of the closure after the requests. *)
Fixpoint after (maxAttempts windowMs : Z) (attempts : gmap string (list Z))
  (reqs : list (option user * Z)) : gmap string (list Z) :=
  match reqs with
  | [] => attempts
  | (req_user, now) :: rest =>
      after maxAttempts windowMs
        (fst (rateLimit maxAttempts windowMs attempts req_user now)) rest
  end.
End WithEngine.

(** The clock never runs backwards from [t0] on. *)
Fixpoint ordered (t0 : Z) (times : list Z) : Prop :=
  match times with
  | [] => True
  | t :: rest => t0 <= t /\ ordered t rest
  end.

(** What the map holds for [key] agrees with the history [P] of the times
    let through on every window that can still be asked for after [t0]. *)
Definition tracks (windowMs : Z) (key : string) (t0 : Z)
  (attempts : gmap string (list Z)) (P : list Z) : Prop :=
  forall c, t0 - windowMs <= c ->
    List.filter (fun time => c <? time) (default [] (attempts !! key))
    = List.filter (fun time => c <? time) P.

(** The number of [times] in the window of length [windowMs] that ends at
    [t]. *)
Definition in_window (windowMs t : Z) (times : list Z) : nat :=
  List.length (List.filter (fun x => (t - windowMs <? x) && (x <=? t)) times).

End AdminMiddleware.

Module AuthMiddleware.
Import Js.

Definition verifyAdmin (req_user : option AdminMiddleware.user)
  : AdminMiddleware.verdict :=
  match req_user with
  | None => AdminMiddleware.Reply (ResponseHelper.unauthorized "Authentication required")
  | Some u =>
      if negb (strict_eq_string (AdminMiddleware.role u) "admin")
         && negb (strict_eq_string (AdminMiddleware.role u) "super_admin")
      then AdminMiddleware.Reply (ResponseHelper.forbidden "Admin access required")
      else AdminMiddleware.Next
  end.

Definition verifySuperAdmin (req_user : option AdminMiddleware.user)
  : AdminMiddleware.verdict :=
  match req_user with
  | None => AdminMiddleware.Reply (ResponseHelper.unauthorized "Authentication required")
  | Some u =>
      if negb (strict_eq_string (AdminMiddleware.role u) "super_admin")
      then AdminMiddleware.Reply (ResponseHelper.forbidden "Super admin access required")
      else AdminMiddleware.Next
  end.

(** [verifyOwnership(userIdParam)]; [param] is [req.params[userIdParam]]. *)
Definition verifyOwnership (param : option string)
  (req_user : option AdminMiddleware.user) : AdminMiddleware.verdict :=
  match req_user with
  | None => AdminMiddleware.Reply (ResponseHelper.unauthorized "Authentication required")
  | Some u =>
      let resourceUserId := param in
      let currentUserId :=
        AdminMiddleware.or_else (AdminMiddleware.id u) (AdminMiddleware.student_id u) in
      if strict_eq_string (AdminMiddleware.role u) "admin"
         || strict_eq_string (AdminMiddleware.role u) "super_admin"
      then AdminMiddleware.Next
      else if negb (AdminMiddleware.strict_eq_param resourceUserId currentUserId)
      then AdminMiddleware.Reply
             (ResponseHelper.forbidden
                "Access denied: You can only access your own resources")
      else AdminMiddleware.Next
  end.

(** What [jwt.verify(token, secret)] does: it returns the payload, or it
    throws an error with one of the two names the middleware tells apart,
    or another error. *)
Inductive verification : Type :=
| Decoded (payload : AdminMiddleware.user)
| TokenExpiredError
| JsonWebTokenError
| OtherError.

Section WithLibraries.
Variable jwt_verify : string -> string -> verification.
(** [process.env.JWT_SECRET] *)
Variable JWT_SECRET : option string.

(** [authHeader.startsWith('Bearer ') ? authHeader.slice(7) : authHeader] *)
Definition token_of (authHeader : string) : string :=
  if String.prefix "Bearer " authHeader
  then String.substring 7 (String.length authHeader - 7) authHeader
  else authHeader.

(** [verifyToken]: the verdict and the [req.user] it sets; [authorization]
    is the header, when the request has one. *)
Definition verifyToken (authorization : option string)
  : AdminMiddleware.verdict * option AdminMiddleware.user :=
  match AuthController.provided authorization with
  | None =>
      (AdminMiddleware.Reply (ResponseHelper.unauthorized "Access token is required"),
       None)
  | Some authHeader =>
      let token := token_of authHeader in
      if String.eqb token ""
      then (AdminMiddleware.Reply
              (ResponseHelper.unauthorized "Access token is required"), None)
      else
        match AuthService.env_truthy JWT_SECRET with
        | None =>
            (AdminMiddleware.Reply
               (ResponseHelper.error "Server configuration error" 500), None)
        | Some secretKey =>
            match jwt_verify token secretKey with
            | Decoded decoded => (AdminMiddleware.Next, Some decoded)
            | TokenExpiredError =>
                (AdminMiddleware.Reply
                   (ResponseHelper.unauthorized "Token has expired"), None)
            | JsonWebTokenError =>
                (AdminMiddleware.Reply
                   (ResponseHelper.unauthorized "Invalid token"), None)
            | OtherError =>
                (AdminMiddleware.Reply
                   (ResponseHelper.error "Authentication failed" 500), None)
            end
        end
  end.
End WithLibraries.

End AuthMiddleware.


(** ** The Attendance model

    The methods change the object; here each returns the object as it is
    afterwards. *)

Module Attendance.
Import Js.

Record t : Type := {
  id : value;
  student_id : value;
  event_id : value;
  attended : value;
  check_in_time : value;
  check_out_time : value;
  created_at : value;
  updated_at : value
}.

(** [new Attendance(data)] *)
Definition construct (data : t) : t :=
  {| id := id data;
     student_id := student_id data;
     event_id := event_id data;
     attended := if truthy (attended data) then attended data else VBool false;
     check_in_time := check_in_time data;
     check_out_time := check_out_time data;
     created_at := created_at data;
     updated_at := updated_at data |}.

Definition create (data : t) : result t :=
  if negb (truthy (student_id data)) then Throw "Student ID is required"
  else if negb (truthy (event_id data)) then Throw "Event ID is required"
  else Ok (construct data).

(** [markAttended(checkInTime = null)]; [now] and [later] are the two
    readings of [new Date().toISOString()]. *)
Definition markAttended (now later : string) (checkInTime : value) (a : t) : t :=
  {| id := id a;
     student_id := student_id a;
     event_id := event_id a;
     attended := VBool true;
     check_in_time := if truthy checkInTime then checkInTime else VStr now;
     check_out_time := check_out_time a;
     created_at := created_at a;
     updated_at := VStr later |}.

(** [markCheckedOut(checkOutTime = null)] *)
Definition markCheckedOut (now later : string) (checkOutTime : value) (a : t)
  : result t :=
  if negb (truthy (attended a))
  then Throw "Cannot check out student who has not checked in"
  else Ok {| id := id a;
             student_id := student_id a;
             event_id := event_id a;
             attended := attended a;
             check_in_time := check_in_time a;
             check_out_time := if truthy checkOutTime then checkOutTime else VStr now;
             created_at := created_at a;
             updated_at := VStr later |}.

(** [isCheckedIn()], read as a boolean *)
Definition isCheckedIn (a : t) : bool :=
  truthy (attended a) && truthy (check_in_time a) && negb (truthy (check_out_time a)).

(** The calls a caller can make on a record. *)
Inductive call : Type :=
| MarkAttended (now later : string) (checkInTime : value)
| MarkCheckedOut (now later : string) (checkOutTime : value).

(** The record after a call; a call that throws leaves it as it was. *)
Definition after (a : t) (c : call) : t :=
  match c with
  | MarkAttended now later checkInTime => markAttended now later checkInTime a
  | MarkCheckedOut now later checkOutTime =>
      match markCheckedOut now later checkOutTime a with
      | Ok a' => a'
      | Throw _ => a
      end
  end.

End Attendance.

(** ** ValidationService: the validators of dates *)

Module DateValidation.
Import Js.

Section WithDates.
Variable Date_parse : string -> option Z.
Variable Date_of_object : option Z.

(** [isValidFutureDate(date, allowPast = false)]; [now] is the time value
    of [new Date()]. *)
Definition isValidFutureDate (now : Z) (date : value) (allowPast : bool) : bool :=
  match Event.time_value Date_parse Date_of_object date with
  | None => false
  | Some dateObj =>
      if negb allowPast && (dateObj <=? now) then false else true
  end.

(** [isValidDateRange(startDate, endDate)] *)
Definition isValidDateRange (startDate endDate : value) : bool :=
  match Event.time_value Date_parse Date_of_object startDate,
        Event.time_value Date_parse Date_of_object endDate with
  | Some start, Some end_ => start <? end_
  | _, _ => false
  end.
End WithDates.

End DateValidation.

(** ** EventService: room left in an event *)

Module EventService.
Import Js.

(** The columns of the two tables the functions read: [max_attendees] is
    an integer column that may be [NULL]. *)
Record event_row : Type := {
  ev_id : string;
  ev_max_attendees : option Z
}.

Record registration_row : Type := {
  rg_event_id : string;
  rg_status : string
}.

Record tables : Type := {
  events : list event_row;
  registrations : list registration_row
}.

Section WithClient.
(** The message of the error [.single()] reports unless exactly one row
    matches *)
Variable no_single_row : string.

(** [getEventById]: [.eq('id', eventId).single()] *)
Definition getEventById (db : tables) (eventId : string) : result event_row :=
  match List.filter (fun e => String.eqb (ev_id e) eventId) (events db) with
  | [row] => Ok row
  | _ => Throw ("Failed to fetch event: " ++ no_single_row)
  end.

(** The [count] of
    [.select('*', { count: 'exact' }).eq('event_id', eventId).eq('status', 'confirmed')] *)
Definition confirmed_count (db : tables) (eventId : string) : nat :=
  List.length
    (List.filter
       (fun r => String.eqb (rg_event_id r) eventId
                 && String.eqb (rg_status r) "confirmed")
       (registrations db)).

(** [max_attendees] as a number: [null] counts as 0 *)
Definition capacity (e : event_row) : Z := default 0 (ev_max_attendees e).

(** [isEventFull]: [count >= event.max_attendees] *)
Definition isEventFull (db : tables) (eventId : string) : result bool :=
  match getEventById db eventId with
  | Throw m => Throw ("Failed to check if event is full: " ++ m)
  | Ok event => Ok (capacity event <=? Z.of_nat (confirmed_count db eventId))
  end.

(** [getAvailableSpots]: [Math.max(0, event.max_attendees - count)] *)
Definition getAvailableSpots (db : tables) (eventId : string) : result Z :=
  match getEventById db eventId with
  | Throw m => Throw ("Failed to get available spots: " ++ m)
  | Ok event => Ok (Z.max 0 (capacity event - Z.of_nat (confirmed_count db eventId)))
  end.
End WithClient.

End EventService.

(** ** The feedback controller: submitFeedback *)

Module FeedbackController.
Import Js.

(** The fields the handler reads from [req.body] *)
Record body : Type := {
  event_id : value;
  student_id : value;
  rating : value;
  comments : value
}.

Inductive reply (row : Type) : Type :=
| Error (status : Z) (error : string)
| Created (feedback : option row).
Arguments Error {row} status error.
Arguments Created {row} feedback.

(** [v == null] *)
Definition loose_eq_null (v : value) : bool :=
  match v with
  | VUndefined | VNull => true
  | _ => false
  end.

Section WithClient.
Variables table row : Type.
(** [.insert([{ event_id, student_id, rating, comments }]).select().single()] *)
Variable insert_single : table -> body -> table * response row.
Variable String_toNumber : string -> number.
Variable Object_toNumber : number.

(** What the handler answers once the client has answered. *)
Definition answer (served : table * response row) : table * reply row :=
  match error (snd served) with
  | Some e => (fst served, Error 400 e)
  | None => (fst served, Created (data (snd served)))
  end.

Definition submitFeedback (db : table) (b : body) : table * reply row :=
  if negb (truthy (event_id b)) || negb (truthy (student_id b))
     || loose_eq_null (rating b)
  then (db, Error 400 "Missing event_id, student_id or rating")
  else
    let r := Conversion.to_number String_toNumber Object_toNumber (rating b) in
    if num_lt r (Fin 1) || num_lt (Fin 5) r
    then (db, Error 400 "Rating must be between 1 and 5")
    else answer (insert_single db b).
End WithClient.

End FeedbackController.

(** ** Attendance: the controller that writes the rows and the summary of
    the service *)

Module AttendanceController.
Import Js.

(** The fields the handler reads from [req.body] *)
Record body : Type := {
  event_id : value;
  student_id : value;
  status : value
}.

Inductive reply (row : Type) : Type :=
| Error (status : Z) (error : string)
| Marked (attendance : option row).
Arguments Error {row} status error.
Arguments Marked {row} attendance.

(** [['Present','Absent'].includes(status)] *)
Definition valid_status (status : value) : bool :=
  existsb (strict_eq_string status) ["Present"; "Absent"].

Section WithClient.
Variables table row : Type.
(** [.insert([{ event_id, student_id, status }]).select().single()] *)
Variable insert_single : table -> body -> table * response row.

(** What the handler answers once the client has answered. *)
Definition answer (served : table * response row) : table * reply row :=
  match error (snd served) with
  | Some e => (fst served, Error 400 e)
  | None => (fst served, Marked (data (snd served)))
  end.

Definition markAttendance (db : table) (b : body) : table * reply row :=
  if negb (truthy (event_id b)) || negb (truthy (student_id b))
     || negb (truthy (status b))
  then (db, Error 400 "Missing event_id, student_id or status")
  else if negb (valid_status (status b))
  then (db, Error 400 "Invalid status")
  else answer (insert_single db b).
End WithClient.

End AttendanceController.

Module AttendanceService.
Import Js.

(** A row of [select('status')]: a text column that may be [NULL]. *)
Record status_row : Type := {
  status : option string
}.

Record summary : Type := {
  total : nat;
  present : nat;
  absent : nat;
  late : nat;
  attendance_rate : value
}.

(** [record.status === s] *)
Definition has_status (s : string) (record : status_row) : bool :=
  match status record with
  | Some t => String.eqb t s
  | None => false
  end.

Section WithEngine.
Variable Number_toString : number -> string.

Definition summary_of (rows : list status_row) : summary :=
  let total := List.length rows in
  let present := List.length (List.filter (has_status "present") rows) in
  let absent := List.length (List.filter (has_status "absent") rows) in
  let late := List.length (List.filter (has_status "late") rows) in
  {| total := total;
     present := present;
     absent := absent;
     late := late;
     attendance_rate :=
       if (0 <? total)%nat
       then VStr (Conversion.toFixed2 Number_toString
                    (mul (div (add (of_nat present) (of_nat late)) (of_nat total))
                         (Fin 100)))
       else VNum (Fin 0) |}.

(** [getEventAttendanceSummary], from the response of the client to the
    query it has built *)
Definition getEventAttendanceSummary_of (r : response (list status_row))
  : result summary :=
  let prefix := "Failed to fetch event attendance summary: " in
  match error r, data r with
  | Some e, _ => Throw (prefix ++ e)
  | None, None =>
      Throw (prefix ++ "Cannot read properties of null (reading 'length')")
  | None, Some rows => Ok (summary_of rows)
  end.
End WithEngine.

End AttendanceService.

(** ** What the specification says, in its own words *)

Module Spec.
Import Js.

(** [r] is [x] rounded to 2 decimals: a multiple [n / 100] of a hundredth
    that no other multiple is closer to [x] than, that is, one at most half
    a hundredth away from [x]. *)
Definition rounded_to_2_decimals (x : Q) (r : number) : Prop :=
  exists n : Z,
    r = Fin (Qred (n # 100))
    /\ (inject_Z n - (1 # 2) <= x * 100)%Q
    /\ (x * 100 <= inject_Z n + (1 # 2))%Q.

(** [v] is an integer with 1 <= v <= 5. *)
Definition integer_1_to_5 (v : value) : Prop :=
  exists (q : Q) (z : Z),
    v = VNum (Fin q) /\ (q == inject_Z z)%Q /\ 1 <= z <= 5.

(** [part / whole * 100] *)
Definition percentage (part whole : nat) : Q :=
  (inject_Z (Z.of_nat part) / inject_Z (Z.of_nat whole) * 100)%Q.

Definition sum (l : list Z) : Z := fold_right Z.add 0 l.

(** The arithmetic mean of a non-empty list. *)
Definition mean (l : list Z) : Q :=
  (inject_Z (sum l) / inject_Z (Z.of_nat (length l)))%Q.

Definition occurrences (k : Z) (l : list Z) : nat :=
  length (List.filter (Z.eqb k) l).

Definition at_least (k : Z) (l : list Z) : nat :=
  length (List.filter (Z.leb k) l).

(** The histogram of [l] over the buckets 1 to 5. *)
Definition histogram (l : list Z) : gmap Z number :=
  <[1 := of_nat (occurrences 1 l)]>
  (<[2 := of_nat (occurrences 2 l)]>
  (<[3 := of_nat (occurrences 3 l)]>
  (<[4 := of_nat (occurrences 4 l)]>
  (<[5 := of_nat (occurrences 5 l)]> ∅)))).

(** The number of registration rows of an event. *)
Definition total_registrations (db : Db.tables) (event_id : Z) : nat :=
  length (List.filter (fun r => Db.reg_event_id r =? event_id) (Db.registrations db)).

(** The number of attendance rows of an event with status 'Present'. *)
Definition present_count (db : Db.tables) (event_id : Z) : nat :=
  length (List.filter
            (fun a => (Db.att_event_id a =? event_id)
                      && String.eqb (Db.att_status a) "Present")
            (Db.attendance db)).

End Spec.

(** ** Sample data *)

Module Sample.
Import Js.

(** Event 7 with [n] registrations, [p] of them with a 'Present' record. *)
Definition event_7 (n p : nat) : Db.tables :=
  {| Db.registrations :=
       map (fun i => {| Db.registration_id := Z.of_nat i;
                        Db.reg_event_id := 7;
                        Db.reg_student_id := Z.of_nat i |}) (seq 0 n);
     Db.attendance :=
       map (fun i => {| Db.attendance_id := Z.of_nat i;
                        Db.att_event_id := 7;
                        Db.att_student_id := Z.of_nat i;
                        Db.att_status := "Present" |}) (seq 0 p) |}.

(** Three feedback rows with the ratings 5, 4 and 3. *)
Definition rating_rows : list FeedbackService.rating_row :=
  [ {| FeedbackService.rating := 5; FeedbackService.created_at := 1000 |};
    {| FeedbackService.rating := 4; FeedbackService.created_at := 2000 |};
    {| FeedbackService.rating := 3; FeedbackService.created_at := 3000 |} ].

Definition no_filters : FeedbackService.filters :=
  {| FeedbackService.start_date := None; FeedbackService.end_date := None |}.

Definition feedback_of (id : string) (rating : value) : Feedback.t :=
  {| Feedback.id := VStr id;
     Feedback.student_id := VStr "s-1";
     Feedback.event_id := VStr "e-1";
     Feedback.rating := rating;
     Feedback.comments := VUndefined;
     Feedback.submitted_at := VUndefined;
     Feedback.created_at := VUndefined;
     Feedback.updated_at := VUndefined |}.

(** An update payload that only sets the rating. *)
Definition rating_update (rating : value) : Feedback.t :=
  {| Feedback.id := VUndefined;
     Feedback.student_id := VUndefined;
     Feedback.event_id := VUndefined;
     Feedback.rating := rating;
     Feedback.comments := VUndefined;
     Feedback.submitted_at := VUndefined;
     Feedback.created_at := VUndefined;
     Feedback.updated_at := VUndefined |}.


Definition admin_of (id username : string) (hash : string) (active : value)
  : Admin.t :=
  {| Admin.id := VStr id;
     Admin.username := VStr username;
     Admin.email := VStr (username ++ "@campus.edu");
     Admin.password_hash := VStr hash;
     Admin.role := VStr "admin";
     Admin.is_active := active;
     Admin.last_login := VNull;
     Admin.created_at := VNull;
     Admin.updated_at := VNull |}.

(** A stand-in for bcrypt: the hash of [p] is ["hash:" ++ p]. *)
Definition compare (password : string) (hash : value) : result bool :=
  match hash with
  | VStr h => Ok (String.eqb h ("hash:" ++ password))
  | _ => Throw "data and hash must be strings"
  end.

(** A stand-in for [jwt.sign]. *)
Definition sign (payload : gmap string value) (secret expiresIn : string)
  : string :=
  "token." ++ secret ++ "." ++ expiresIn.




Definition event_of (date : value) : Event.t :=
  {| Event.id := VUndefined;
     Event.title := VStr "Tech talk";
     Event.description := VStr "An evening of short talks";
     Event.date := date;
     Event.location := VStr "Main hall";
     Event.max_attendees := VNum (Fin 50);
     Event.college_id := VStr "c-1";
     Event.created_at := VUndefined;
     Event.updated_at := VUndefined |}.

End Sample.


(** ** More sample data *)

Module Fixtures.
Import Js.

(** Feedback of two events: the ratings 5, 4 and 3 for event 7. *)
Definition feedback_rows : list Reports.feedback_row :=
  [ {| Reports.fb_event_id := 7; Reports.fb_rating := 5 |};
    {| Reports.fb_event_id := 7; Reports.fb_rating := 4 |};
    {| Reports.fb_event_id := 8; Reports.fb_rating := 1 |};
    {| Reports.fb_event_id := 7; Reports.fb_rating := 3 |} ].

(** A table that takes every row it is given. *)
Definition insert_row (db : list FeedbackController.body)
  (b : FeedbackController.body)
  : list FeedbackController.body * response FeedbackController.body :=
  ((db ++ [b])%list, {| data := Some b; count := None; error := None |}).

Definition feedback_body (rating : value) : FeedbackController.body :=
  {| FeedbackController.event_id := VStr "e-1";
     FeedbackController.student_id := VStr "s-1";
     FeedbackController.rating := rating;
     FeedbackController.comments := VUndefined |}.

(** Stand-ins for the conversions of the engine. *)
Definition no_number (s : string) : number := NaN.
Definition some_digits (n : number) : string := "0".

(** A date parser that knows one day. *)
Definition parse_date (s : string) : option Z :=
  if String.eqb s "2030-01-01" then Some 1893456000000 else None.

Definition attendance_of (student : string) : Attendance.t :=
  {| Attendance.id := VUndefined;
     Attendance.student_id := VStr student;
     Attendance.event_id := VStr "e-1";
     Attendance.attended := VUndefined;
     Attendance.check_in_time := VUndefined;
     Attendance.check_out_time := VUndefined;
     Attendance.created_at := VUndefined;
     Attendance.updated_at := VUndefined |}.

(** The password Aa1! by its code units. *)
Definition short_password : UString.t := [65; 97; 49; 33]%N.

Definition admin_user (id : string) : AdminMiddleware.user :=
  {| AdminMiddleware.id := VStr id;
     AdminMiddleware.student_id := VUndefined;
     AdminMiddleware.role := VStr "admin";
     AdminMiddleware.college_id := VUndefined |}.

(** Three actions of one admin within a second, among one of another
    admin and one of a visitor. *)
Definition admin_requests : list (option AdminMiddleware.user * Z) :=
  [ (Some (admin_user "a-1"), 0); (Some (admin_user "a-2"), 5); (None, 6);
    (Some (admin_user "a-1"), 10); (Some (admin_user "a-1"), 20) ].

(** A super admin a-0 asking to deactivate the admin a-1. *)
Definition deactivation_request : AuthController.request :=
  {| AuthController.req_user :=
       {| AuthController.user_id := VStr "a-0";
          AuthController.user_role := VStr "super_admin" |};
     AuthController.params_id := "a-1" |}.

Definition admins : list Admin.t :=
  [ Sample.admin_of "a-0" "root" "hash:secret" (VBool true);
    Sample.admin_of "a-1" "ada" "hash:lovelace" (VBool true) ].



End Fixtures.

Import Js.

(** The histogram with the given five counts. *)
Definition buckets (c1 c2 c3 c4 c5 : nat) : gmap Z number :=
  <[1 := of_nat c1]> (<[2 := of_nat c2]> (<[3 := of_nat c3]>
  (<[4 := of_nat c4]> (<[5 := of_nat c5]> ∅)))).

(** 1 when the rating [r] falls in bucket [k], else 0. *)
Definition hit (r k : Z) : nat := if r =? k then 1%nat else 0%nat.

(** * Properties *)

(** ** Rounding *)

Lemma Qfloor_half_bounds (y : Q) :
  (inject_Z (Qfloor (y + (1 # 2))) - (1 # 2) <= y)%Q
  /\ (y < inject_Z (Qfloor (y + (1 # 2))) + (1 # 2))%Q.
Proof.
  pose proof (Qfloor_le (y + (1 # 2))) as Hle.
  pose proof (Qlt_floor (y + (1 # 2))) as Hlt.
  rewrite inject_Z_plus in Hlt.
  change (inject_Z 1) with 1%Q in Hlt.
  split; lra.
Qed.

Lemma is_neg_false (q : Q) : (0 <= q)%Q -> is_neg q = false.
Proof.
  intros H. unfold is_neg. apply Qle_bool_iff in H. now rewrite H.
Qed.

Lemma Number_toFixed2_rounds (q : Q) :
  (0 <= q)%Q -> (q < inject_Z (10 ^ 21))%Q ->
  Spec.rounded_to_2_decimals q (Number_toFixed2 (Fin q)).
Proof.
  intros Hpos Hbig. unfold Number_toFixed2, fixed2_digits.
  rewrite (Qabs_pos q Hpos).
  destruct (Qle_bool (inject_Z (10 ^ 21)) q) eqn:Hle.
  - apply Qle_bool_iff in Hle. lra.
  - rewrite (is_neg_false q Hpos).
    exists (Qfloor (q * 100 + (1 # 2))).
    split; [reflexivity |].
    destruct (Qfloor_half_bounds (q * 100)) as [Hlow Hhigh].
    split; [exact Hlow | apply Qlt_le_weak; exact Hhigh].
Qed.

(** ** Attendance percentage *)

Lemma is_zero_of_nat (n : nat) : is_zero (inject_Z (Z.of_nat n)) = (n =? 0)%nat.
Proof.
  unfold is_zero, Qeq_bool, inject_Z. simpl.
  destruct n as [| n]; [reflexivity |].
  rewrite Z.mul_1_r. simpl. reflexivity.
Qed.

Lemma percentage_nonneg (p t : nat) : (0 <= Spec.percentage p t)%Q.
Proof.
  unfold Spec.percentage.
  apply Qmult_le_0_compat; [| discriminate].
  apply Qmult_le_0_compat.
  - unfold Qle, inject_Z. simpl. lia.
  - apply Qinv_le_0_compat. unfold Qle, inject_Z. simpl. lia.
Qed.

(** X1.  The report controller computes the rate the specification describes:
    the two exact counts, 0 without registrations, and otherwise
    present / total * 100 rounded to 2 decimals. *)
Lemma attendancePercentage_controller_report (db : Db.tables) (event_id : Z) :
  let total := Spec.total_registrations db event_id in
  let present := Spec.present_count db event_id in
  (Spec.percentage present total < inject_Z (10 ^ 21))%Q ->
  exists pct,
    Reports.attendancePercentage db event_id
    = {| Reports.status := 200;
         Reports.body :=
           Reports.AttendanceBody event_id (VNum (of_nat total))
             (VNum (of_nat present)) pct |}
    /\ (total = 0%nat -> pct = Fin 0)
    /\ (total <> 0%nat ->
        Spec.rounded_to_2_decimals (Spec.percentage present total) pct).
Proof.
  intros total present Hbig.
  unfold Reports.attendancePercentage, Reports.attendancePercentage_of,
    Db.registrations_of_event, Db.present_of_event, Db.select_head_count.
  cbn [error count Reports.count_value].
  fold (Spec.total_registrations db event_id).
  fold (Spec.present_count db event_id).
  fold total. fold present.
  unfold strict_eq_zero, of_nat, of_Z, to_number_count, div.
  rewrite is_zero_of_nat.
  destruct (Nat.eqb_spec total 0) as [Hz | Hnz].
  - eexists. split; [reflexivity |]. split; [reflexivity | contradiction].
  - eexists. split; [reflexivity |]. split; [contradiction |].
    intros _. apply Number_toFixed2_rounds.
    + apply percentage_nonneg.
    + exact Hbig.
Qed.

(** C1.  The handler of [GET /attendance/:event_id] in [routes/reports.js]
    does not report present / total * 100: it reads the counts from [data],
    which a head request leaves [null], so for every event it answers 0
    registrations, 0 present and 0 percent (and 0 percent as well were
    [data] an empty array).  For an event with 10 registrations and 4
    'Present' records it answers 0 where the report controller answers
    40.00. *)
Theorem attendance_route_always_reports_zero :
  (forall db event_id,
      Reports.attendance_route db event_id
      = {| Reports.status := 200;
           Reports.body :=
             Reports.AttendanceBody event_id (VNum (Fin 0)) (VNum (Fin 0)) (Fin 0) |})
  /\ (forall event_id (regs : response (list Db.registration_row))
             (atts : response (list Db.attendance_row)),
        error regs = None -> error atts = None ->
        data regs = None \/ data regs = Some [] ->
        exists present,
          Reports.attendance_route_of event_id regs atts
          = {| Reports.status := 200;
               Reports.body :=
                 Reports.AttendanceBody event_id (VNum (Fin 0)) present (Fin 0) |})
  /\ Spec.total_registrations (Sample.event_7 10 4) 7 = 10%nat
  /\ Spec.present_count (Sample.event_7 10 4) 7 = 4%nat
  /\ Reports.attendance_route (Sample.event_7 10 4) 7
     = {| Reports.status := 200;
          Reports.body :=
            Reports.AttendanceBody 7 (VNum (Fin 0)) (VNum (Fin 0)) (Fin 0) |}
  /\ Reports.attendancePercentage (Sample.event_7 10 4) 7
     = {| Reports.status := 200;
          Reports.body :=
            Reports.AttendanceBody 7 (VNum (Fin 10)) (VNum (Fin 4)) (Fin 40) |}.
Proof.
  split; [intros db event_id; reflexivity |].
  split; [| repeat split; vm_compute; reflexivity].
  intros event_id regs atts Hregs Hatts Hdata.
  unfold Reports.attendance_route_of. rewrite Hregs, Hatts.
  destruct Hdata as [-> | ->]; eexists; reflexivity.
Qed.

(** ** Feedback statistics *)

Lemma Qplus_inject_Z (a b : Z) : (inject_Z a + inject_Z b)%Q = inject_Z (a + b).
Proof.
  unfold Qplus, inject_Z. simpl. rewrite !Z.mul_1_r. reflexivity.
Qed.

Lemma add_of_Z (a b : Z) : add (of_Z a) (of_Z b) = of_Z (a + b).
Proof. unfold add, of_Z. now rewrite Qplus_inject_Z. Qed.

Lemma add_one_of_nat (c : nat) : add (of_nat c) (Fin 1) = of_nat (S c).
Proof.
  unfold of_nat. change (Fin 1) with (of_Z 1). rewrite add_of_Z.
  f_equal. lia.
Qed.

Lemma totalRating_sum (l : list Z) (a : Z) :
  fold_left (fun sum r => add sum (of_Z r)) l (of_Z a) = of_Z (a + Spec.sum l).
Proof.
  revert a. induction l as [| r l IH]; intros a; cbn [fold_left Spec.sum fold_right].
  - now rewrite Z.add_0_r.
  - rewrite add_of_Z, IH. f_equal. unfold Spec.sum. lia.
Qed.

Lemma buckets_lookup (c1 c2 c3 c4 c5 : nat) (k : Z) :
  buckets c1 c2 c3 c4 c5 !! k =
  if decide (k = 1) then Some (of_nat c1)
  else if decide (k = 2) then Some (of_nat c2)
  else if decide (k = 3) then Some (of_nat c3)
  else if decide (k = 4) then Some (of_nat c4)
  else if decide (k = 5) then Some (of_nat c5)
  else None.
Proof.
  unfold buckets.
  repeat (case_decide; [subst; simplify_map_eq; reflexivity |]).
  simplify_map_eq. reflexivity.
Qed.

Lemma increment_buckets (c1 c2 c3 c4 c5 : nat) (r : Z) :
  1 <= r <= 5 ->
  FeedbackService.increment (buckets c1 c2 c3 c4 c5) r
  = buckets (c1 + hit r 1) (c2 + hit r 2) (c3 + hit r 3) (c4 + hit r 4)
      (c5 + hit r 5).
Proof.
  intros Hr. apply map_eq. intros k.
  unfold FeedbackService.increment, FeedbackService.bucket.
  rewrite lookup_insert, !buckets_lookup.
  assert (Hcases : r = 1 \/ r = 2 \/ r = 3 \/ r = 4 \/ r = 5) by lia.
  unfold hit.
  destruct Hcases as [-> | [-> | [-> | [-> | ->]]]]; cbn -[add of_nat];
    repeat case_decide; subst; try lia; cbn -[add of_nat];
    rewrite ?add_one_of_nat, ?Nat.add_0_r, ?Nat.add_1_r; reflexivity.
Qed.

Lemma occurrences_cons (k r : Z) (l : list Z) :
  Spec.occurrences k (r :: l)
  = (hit r k + Spec.occurrences k l)%nat.
Proof.
  unfold Spec.occurrences, hit. simpl. rewrite (Z.eqb_sym k r).
  destruct (r =? k); reflexivity.
Qed.

Lemma distribution_buckets (l : list Z) (c1 c2 c3 c4 c5 : nat) :
  Forall (fun r => 1 <= r <= 5) l ->
  fold_left FeedbackService.increment l (buckets c1 c2 c3 c4 c5)
  = buckets (c1 + Spec.occurrences 1 l) (c2 + Spec.occurrences 2 l)
      (c3 + Spec.occurrences 3 l) (c4 + Spec.occurrences 4 l)
      (c5 + Spec.occurrences 5 l).
Proof.
  intros Hall. revert c1 c2 c3 c4 c5.
  induction Hall as [| r l Hr _ IH]; intros c1 c2 c3 c4 c5.
  - simpl. unfold Spec.occurrences. simpl. now rewrite !Nat.add_0_r.
  - simpl. rewrite increment_buckets by exact Hr. rewrite IH.
    rewrite !occurrences_cons. f_equal; lia.
Qed.

Lemma at_least_4_split (l : list Z) :
  Forall (fun r => 1 <= r <= 5) l ->
  Spec.at_least 4 l = (Spec.occurrences 4 l + Spec.occurrences 5 l)%nat.
Proof.
  induction 1 as [| r l Hr _ IH].
  - reflexivity.
  - rewrite !occurrences_cons. unfold Spec.at_least, hit in *.
    cbn [List.filter].
    destruct (Z.leb_spec 4 r); cbn [length]; rewrite IH;
      destruct (Z.eqb_spec r 4); destruct (Z.eqb_spec r 5); lia.
Qed.

Lemma at_least_le_length (k : Z) (l : list Z) :
  (Spec.at_least k l <= length l)%nat.
Proof. unfold Spec.at_least. apply List.filter_length_le. Qed.

Lemma sum_bounds (l : list Z) :
  Forall (fun r => 1 <= r <= 5) l ->
  0 <= Spec.sum l <= 5 * Z.of_nat (length l).
Proof.
  induction 1 as [| r l Hr _ IH]; simpl; [lia |].
  unfold Spec.sum in *. simpl. lia.
Qed.

Lemma Qdiv_nat_bounds (a n k : Z) :
  0 < n -> 0 <= a <= k * n ->
  (0 <= inject_Z a / inject_Z n)%Q /\ (inject_Z a / inject_Z n <= inject_Z k)%Q.
Proof.
  intros Hn [Ha Hk].
  assert (Hn' : (0 < inject_Z n)%Q) by (unfold Qlt, inject_Z; simpl; lia).
  split.
  - apply Qle_shift_div_l; [exact Hn' |].
    unfold Qle, inject_Z. simpl. lia.
  - apply Qle_shift_div_r; [exact Hn' |].
    rewrite <- inject_Z_mult. unfold Qle, inject_Z. simpl. lia.
Qed.

Lemma add_of_nat (a b : nat) : add (of_nat a) (of_nat b) = of_nat (a + b).
Proof. unfold of_nat. rewrite add_of_Z. f_equal. lia. Qed.

Lemma div_of_Z_of_nat (a : Z) (n : nat) :
  n <> 0%nat ->
  div (of_Z a) (of_nat n) = Fin (inject_Z a / inject_Z (Z.of_nat n)).
Proof.
  intros Hn. unfold div, of_nat, of_Z. rewrite is_zero_of_nat.
  destruct (Nat.eqb_spec n 0); [contradiction | reflexivity].
Qed.

Lemma histogram_buckets (l : list Z) :
  Spec.histogram l
  = buckets (Spec.occurrences 1 l) (Spec.occurrences 2 l) (Spec.occurrences 3 l)
      (Spec.occurrences 4 l) (Spec.occurrences 5 l).
Proof. reflexivity. Qed.

Lemma bucket_4 (c1 c2 c3 c4 c5 : nat) :
  FeedbackService.bucket (buckets c1 c2 c3 c4 c5) 4 = of_nat c4.
Proof. unfold FeedbackService.bucket. rewrite buckets_lookup. reflexivity. Qed.

Lemma bucket_5 (c1 c2 c3 c4 c5 : nat) :
  FeedbackService.bucket (buckets c1 c2 c3 c4 c5) 5 = of_nat c5.
Proof. unfold FeedbackService.bucket. rewrite buckets_lookup. reflexivity. Qed.

Lemma stats_of_ratings_nonempty (ratings : list Z) :
  ratings <> [] ->
  Forall (fun r => 1 <= r <= 5) ratings ->
  FeedbackService.stats_of_ratings ratings
  = {| FeedbackService.total_feedback := length ratings;
       FeedbackService.average_rating :=
         Number_toFixed2 (Fin (Spec.mean ratings));
       FeedbackService.rating_distribution := Spec.histogram ratings;
       FeedbackService.satisfaction_rate :=
         Number_toFixed2
           (Fin (Spec.percentage (Spec.at_least 4 ratings) (length ratings))) |}.
Proof.
  intros Hne Hall.
  assert (Hlen : length ratings <> 0%nat) by (destruct ratings; [congruence | discriminate]).
  unfold FeedbackService.stats_of_ratings.
  destruct (Nat.ltb_spec 0 (length ratings)) as [_ | Hle]; [| lia].
  change FeedbackService.empty_distribution with (buckets 0 0 0 0 0).
  rewrite (distribution_buckets ratings 0 0 0 0 0 Hall).
  cbn [Nat.add].
  rewrite bucket_4, bucket_5.
  change (Fin 0) with (of_Z 0) at 1.
  rewrite (totalRating_sum ratings 0), Z.add_0_l.
  rewrite add_of_nat, <- (at_least_4_split ratings Hall).
  rewrite (div_of_Z_of_nat _ _ Hlen).
  unfold of_nat at 1. rewrite (div_of_Z_of_nat _ _ Hlen).
  rewrite histogram_buckets.
  reflexivity.
Qed.

Lemma mean_bounds (ratings : list Z) :
  ratings <> [] ->
  Forall (fun r => 1 <= r <= 5) ratings ->
  (0 <= Spec.mean ratings)%Q /\ (Spec.mean ratings < inject_Z (10 ^ 21))%Q.
Proof.
  intros Hne Hall.
  assert (Hlen : 0 < Z.of_nat (length ratings)) by (destruct ratings; [congruence | simpl; lia]).
  destruct (Qdiv_nat_bounds (Spec.sum ratings) (Z.of_nat (length ratings)) 5 Hlen
              (sum_bounds ratings Hall)) as [H0 H5].
  split; [exact H0 |].
  eapply Qle_lt_trans; [exact H5 |]. reflexivity.
Qed.

Lemma percentage_bounds (part whole : nat) :
  (part <= whole)%nat -> whole <> 0%nat ->
  (Spec.percentage part whole < inject_Z (10 ^ 21))%Q.
Proof.
  intros Hle Hne. unfold Spec.percentage.
  assert (Hw : 0 < Z.of_nat whole) by lia.
  assert (Hp : 0 <= Z.of_nat part <= 1 * Z.of_nat whole) by lia.
  destruct (Qdiv_nat_bounds _ _ 1 Hw Hp) as [H0 H1].
  change (inject_Z 1) with 1%Q in H1.
  assert (Hc : (inject_Z (10 ^ 21) == 1000000000000000000000)%Q) by reflexivity.
  rewrite Hc. lra.
Qed.

(** C2.  For the ratings of the selected feedback rows, each an integer
    from 1 to 5: the total is their number; the distribution is the
    histogram over the buckets 1 to 5; without ratings the average and the
    satisfaction rate are 0; otherwise the average is the arithmetic mean
    rounded to 2 decimals and the satisfaction rate is the percentage of
    ratings of 4 or more rounded to 2 decimals.  Ratings 5, 4, 3 give
    average 4.00, distribution 1:0 2:0 3:1 4:1 5:1 and satisfaction 66.67. *)
Theorem getOverallFeedbackStats_report :
  (forall rows f,
      let ratings :=
        map FeedbackService.rating
          (List.filter (FeedbackService.in_scope f) rows) in
      Forall (fun r => 1 <= r <= 5) ratings ->
      exists s,
        FeedbackService.getOverallFeedbackStats rows f = Ok s
        /\ FeedbackService.total_feedback s = length ratings
        /\ FeedbackService.rating_distribution s = Spec.histogram ratings
        /\ dom (FeedbackService.rating_distribution s) = {[1; 2; 3; 4; 5]}
        /\ (ratings = [] ->
            FeedbackService.average_rating s = Fin 0
            /\ FeedbackService.satisfaction_rate s = Fin 0)
        /\ (ratings <> [] ->
            Spec.rounded_to_2_decimals (Spec.mean ratings)
              (FeedbackService.average_rating s)
            /\ Spec.rounded_to_2_decimals
                 (Spec.percentage (Spec.at_least 4 ratings) (length ratings))
                 (FeedbackService.satisfaction_rate s)))
  /\ FeedbackService.stats_of_ratings [5; 4; 3]
     = {| FeedbackService.total_feedback := 3;
          FeedbackService.average_rating := Fin 4;
          FeedbackService.rating_distribution :=
            <[1 := Fin 0]> (<[2 := Fin 0]> (<[3 := Fin 1]>
            (<[4 := Fin 1]> (<[5 := Fin 1]> ∅))));
          FeedbackService.satisfaction_rate := Fin (6667 # 100) |}.
Proof.
  split.
  - intros rows f ratings Hall.
    unfold FeedbackService.getOverallFeedbackStats,
      FeedbackService.getOverallFeedbackStats_of, FeedbackService.select_ratings.
    cbn [error data]. fold ratings.
    eexists. split; [reflexivity |].
    destruct (list_eq_nil_dec ratings) as [Hnil | Hne].
    + rewrite Hnil. cbn.
      repeat split; try reflexivity; congruence.
    + rewrite (stats_of_ratings_nonempty ratings Hne Hall).
      cbn [FeedbackService.total_feedback FeedbackService.average_rating
           FeedbackService.rating_distribution FeedbackService.satisfaction_rate].
      split; [reflexivity |]. split; [reflexivity |].
      split.
      { unfold Spec.histogram. rewrite !dom_insert_L. set_solver. }
      split; [congruence |].
      intros _.
      destruct (mean_bounds ratings Hne Hall) as [Hm0 Hm1].
      split.
      * apply Number_toFixed2_rounds; assumption.
      * apply Number_toFixed2_rounds.
        -- apply percentage_nonneg.
        -- apply percentage_bounds.
           ++ apply at_least_le_length.
           ++ destruct ratings; [congruence | discriminate].
  - vm_compute. reflexivity.
Qed.

Lemma getOverallFeedbackStats_report_witness :
  Forall (fun r => 1 <= r <= 5)
    (map FeedbackService.rating
       (List.filter (FeedbackService.in_scope Sample.no_filters) Sample.rating_rows))
  /\ exists s,
      FeedbackService.getOverallFeedbackStats Sample.rating_rows Sample.no_filters
      = Ok s
      /\ FeedbackService.total_feedback s = 3%nat.
Proof.
  assert (H : Forall (fun r => 1 <= r <= 5)
                (map FeedbackService.rating
                   (List.filter (FeedbackService.in_scope Sample.no_filters)
                      Sample.rating_rows))).
  { simpl. repeat constructor; lia. }
  split; [exact H |].
  destruct (proj1 getOverallFeedbackStats_report Sample.rating_rows
              Sample.no_filters H) as (s & Hs & Ht & _).
  exists s. split; [exact Hs | exact Ht].
Defined.

(** ** Ratings *)

Lemma integer_bounds_bool (q : Q) :
  num_isInteger (Fin q) && num_le (Fin 1) (Fin q) && num_le (Fin q) (Fin 5) = true
  <-> Spec.integer_1_to_5 (VNum (Fin q)).
Proof.
  unfold num_isInteger, num_le, Spec.integer_1_to_5.
  rewrite !andb_true_iff, Qeq_bool_iff, !Qle_bool_iff.
  split.
  - intros [[Hint H1] H5]. exists q, (Qfloor q).
    split; [reflexivity |]. split; [exact Hint |].
    rewrite Hint in H1, H5.
    change 1%Q with (inject_Z 1) in H1. change 5%Q with (inject_Z 5) in H5.
    rewrite <- Zle_Qle in H1, H5. lia.
  - intros (q' & z & Heq & Hq & Hz). injection Heq as <-.
    assert (Hfloor : Qfloor q = z) by (rewrite Hq; apply Qfloor_Z).
    rewrite Hfloor.
    repeat split; [exact Hq | |]; rewrite Hq.
    + change 1%Q with (inject_Z 1). rewrite <- Zle_Qle. lia.
    + change 5%Q with (inject_Z 5). rewrite <- Zle_Qle. lia.
Qed.

Lemma not_a_number_not_integer (v : value) :
  (forall n, v <> VNum n) -> ~ Spec.integer_1_to_5 v.
Proof. intros Hv (q & z & Heq & _). exact (Hv _ Heq). Qed.

Lemma validateRating_iff (r : value) :
  Feedback.validateRating r = true <-> Spec.integer_1_to_5 r.
Proof.
  destruct r as [| | b | [q | | s] | s |];
    try (split; [discriminate | intros (q' & z & Heq & _); discriminate]).
  unfold Feedback.validateRating, Feedback.MIN_RATING, Feedback.MAX_RATING.
  apply integer_bounds_bool.
Qed.

Lemma isValidRating_iff (r : value) :
  ValidationService.isValidRating r = true <-> Spec.integer_1_to_5 r.
Proof.
  destruct r as [| | b | [q | | []] | s |];
    try (split; [discriminate | intros (q' & z & Heq & _); discriminate]).
  unfold ValidationService.isValidRating.
  rewrite <- integer_bounds_bool, !andb_true_iff. tauto.
Qed.

Lemma integer_1_to_5_truthy (r : value) :
  Spec.integer_1_to_5 r -> truthy r = true.
Proof.
  intros (q & z & -> & Hq & Hz). simpl. unfold is_zero.
  destruct (Qeq_bool q 0) eqn:H0; [| reflexivity].
  apply Qeq_bool_iff in H0. rewrite Hq in H0.
  unfold Qeq, inject_Z in H0. simpl in H0. lia.
Qed.

(** C3.  Feedback creation accepts a rating exactly when it is an integer
    with 1 <= r <= 5: [Feedback.validateRating] and
    [ValidationService.isValidRating] hold of such values and of no other,
    and [Feedback.create], on data whose other fields are in order, returns
    the feedback with that rating when [r] is such an integer and throws the
    rating error otherwise.  0, 6 and 3.5 are rejected; 1, 2, 3, 4 and 5 are
    accepted. *)
Theorem rating_accepted_iff_integer_1_to_5 :
  (forall r, Feedback.validateRating r = true <-> Spec.integer_1_to_5 r)
  /\ (forall r, ValidationService.isValidRating r = true <-> Spec.integer_1_to_5 r)
  /\ (forall now data,
        truthy (Feedback.student_id data) = true ->
        truthy (Feedback.event_id data) = true ->
        truthy (Feedback.comments data) && Feedback.not_a_string (Feedback.comments data)
        = false ->
        (Spec.integer_1_to_5 (Feedback.rating data) ->
         exists f, Feedback.create now data = Ok f
                   /\ Feedback.rating f = Feedback.rating data)
        /\ (~ Spec.integer_1_to_5 (Feedback.rating data) ->
            Feedback.create now data = Throw Feedback.rating_message))
  /\ (forall now r,
        In r [VNum (Fin 0); VNum (Fin 6); VNum (Fin (7 # 2))] ->
        Feedback.create now (Sample.feedback_of "f-1" r)
        = Throw Feedback.rating_message)
  /\ (forall now r,
        In r [VNum (Fin 1); VNum (Fin 2); VNum (Fin 3); VNum (Fin 4); VNum (Fin 5)] ->
        is_ok (Feedback.create now (Sample.feedback_of "f-1" r)) = true).
Proof.
  split; [exact validateRating_iff |].
  split; [exact isValidRating_iff |].
  split.
  - intros now data Hs He Hc. unfold Feedback.create.
    rewrite Hs, He, Hc. cbn [negb].
    split.
    + intros Hr.
      rewrite (integer_1_to_5_truthy _ Hr).
      rewrite (proj2 (validateRating_iff _) Hr). cbn [negb orb].
      eexists. split; reflexivity.
    + intros Hr.
      destruct (Feedback.validateRating (Feedback.rating data)) eqn:Hv.
      * apply validateRating_iff in Hv. contradiction.
      * rewrite orb_true_r. reflexivity.
  - split.
    + intros now r Hin. simpl in Hin.
      destruct Hin as [<- | [<- | [<- | []]]]; reflexivity.
    + intros now r Hin. simpl in Hin.
      destruct Hin as [<- | [<- | [<- | [<- | [<- | []]]]]]; reflexivity.
Qed.

Lemma rating_accepted_iff_integer_1_to_5_witness :
  Spec.integer_1_to_5 (VNum (Fin 4))
  /\ exists f,
      Feedback.create "2026-01-01T00:00:00.000Z" (Sample.feedback_of "f-1" (VNum (Fin 4)))
      = Ok f
      /\ Feedback.rating f = VNum (Fin 4).
Proof.
  assert (H4 : Spec.integer_1_to_5 (VNum (Fin 4))).
  { exists 4%Q, 4. repeat split; try reflexivity; lia. }
  split; [exact H4 |].
  destruct rating_accepted_iff_integer_1_to_5 as (_ & _ & Hcreate & _).
  apply (Hcreate "2026-01-01T00:00:00.000Z" (Sample.feedback_of "f-1" (VNum (Fin 4))));
    [reflexivity | reflexivity | reflexivity | exact H4].
Defined.

(** ** Login *)

Section Login.
Variable bcrypt_compare : string -> value -> result bool.
Variable jwt_sign : gmap string value -> string -> string -> string.
Variable JWT_SECRET : option string.
Variable JWT_REFRESH_SECRET : option string.

Let loginAdmin :=
  AuthService.loginAdmin bcrypt_compare jwt_sign JWT_SECRET JWT_REFRESH_SECRET.
Let login :=
  AuthController.login bcrypt_compare jwt_sign JWT_SECRET JWT_REFRESH_SECRET.

Lemma login_provided (db : list Admin.t) (identifier password now : string) :
  identifier <> "" -> password <> "" ->
  login db {| AuthController.identifier := Some identifier;
              AuthController.password := Some password |} now
  = match loginAdmin db identifier password now with
    | (db', Ok r) =>
        (db', ResponseHelper.success_with (Some r) "Login successful" 200)
    | (db', Throw m) => (db', ResponseHelper.unauthorized m)
    end.
Proof.
  intros Hi Hp. unfold login, AuthController.login, AuthController.provided.
  cbn [AuthController.identifier AuthController.password].
  destruct (String.eqb_spec identifier ""); [contradiction |].
  destruct (String.eqb_spec password ""); [contradiction |].
  reflexivity.
Qed.

(** C4, as amended.  A login attempt with both fields provided is answered
    401, without success and without touching the table, in each of the
    three cases; the message is "Login failed: Invalid credentials" when the
    lookup fails and when the hash comparison fails on an active account,
    and "Login failed: Account is deactivated" when the account is inactive,
    whatever the password. *)
Theorem login_failure_is_unauthorized
  (db : list Admin.t) (identifier password now : string) :
  identifier <> "" -> password <> "" ->
  let answer :=
    login db {| AuthController.identifier := Some identifier;
                AuthController.password := Some password |} now in
  (AuthService.findAdmin db identifier = None ->
   answer = (db, ResponseHelper.unauthorized "Login failed: Invalid credentials"))
  /\ (forall a,
        AuthService.findAdmin db identifier = Some a ->
        truthy (Admin.is_active a) = false ->
        answer
        = (db, ResponseHelper.unauthorized "Login failed: Account is deactivated"))
  /\ (forall a,
        AuthService.findAdmin db identifier = Some a ->
        truthy (Admin.is_active a) = true ->
        bcrypt_compare password (Admin.password_hash a) = Ok false ->
        answer = (db, ResponseHelper.unauthorized "Login failed: Invalid credentials")).
Proof.
  intros Hi Hp answer. subst answer.
  rewrite (login_provided db identifier password now Hi Hp).
  unfold loginAdmin, AuthService.loginAdmin, AuthService.loginAdmin_try.
  repeat split.
  - intros Hnone. rewrite Hnone. reflexivity.
  - intros a Hsome Hact. rewrite Hsome, Hact. reflexivity.
  - intros a Hsome Hact Hcmp. rewrite Hsome, Hact.
    unfold AuthService.comparePassword. rewrite Hcmp. reflexivity.
Qed.

End Login.

(** C4, as stated, fails: with one deactivated admin in the table, the
    right password gets 401 "Login failed: Account is deactivated", while an
    unknown identifier gets 401 "Login failed: Invalid credentials"; the two
    messages tell the causes apart. *)
Lemma login_deactivated_message_differs :
  let db := [Sample.admin_of "a-1" "dean" "hash:secret" (VBool false)] in
  let login := AuthController.login Sample.compare Sample.sign (Some "key") None in
  let deactivated :=
    snd (login db {| AuthController.identifier := Some "dean";
                     AuthController.password := Some "secret" |} "now") in
  let unknown :=
    snd (login db {| AuthController.identifier := Some "nobody";
                     AuthController.password := Some "secret" |} "now") in
  Sample.compare "secret" (VStr "hash:secret") = Ok true
  /\ ResponseHelper.status deactivated = 401
  /\ ResponseHelper.message deactivated = "Login failed: Account is deactivated"
  /\ ResponseHelper.status unknown = 401
  /\ ResponseHelper.message unknown = "Login failed: Invalid credentials"
  /\ ResponseHelper.message deactivated <> ResponseHelper.message unknown.
Proof.
  repeat split; try (vm_compute; reflexivity).
  vm_compute. discriminate.
Qed.

Lemma login_failure_is_unauthorized_witness :
  snd (AuthController.login Sample.compare Sample.sign (Some "key") None
         [Sample.admin_of "a-1" "dean" "hash:secret" (VBool false)]
         {| AuthController.identifier := Some "dean";
            AuthController.password := Some "secret" |} "now")
  = ResponseHelper.unauthorized "Login failed: Account is deactivated".
Proof.
  destruct (login_failure_is_unauthorized Sample.compare Sample.sign (Some "key") None
              [Sample.admin_of "a-1" "dean" "hash:secret" (VBool false)]
              "dean" "secret" "now") as (_ & Hinactive & _);
    [discriminate | discriminate |].
  rewrite (Hinactive
             (Admin.construct (Sample.admin_of "a-1" "dean" "hash:secret" (VBool false))));
    reflexivity.
Defined.

(** ** Self-deactivation *)

(** C8.  A request to deactivate the admin whose id is the caller's own id
    is rejected with a 4xx error and leaves the table of admins as it was,
    whatever the caller's role: a super-admin is answered 400 "Cannot
    deactivate your own account", every other caller 403. *)
Theorem self_deactivation_rejected (db : list Admin.t) (req : AuthController.request) :
  AuthController.user_id (AuthController.req_user req)
  = VStr (AuthController.params_id req) ->
  let (db', answer) := AuthController.deactivateAdmin db req in
  db' = db
  /\ ResponseHelper.success answer = false
  /\ 400 <= ResponseHelper.status answer < 500
  /\ (strict_eq_string (AuthController.user_role (AuthController.req_user req))
        "super_admin" = true ->
      answer = ResponseHelper.error "Cannot deactivate your own account" 400)
  /\ (strict_eq_string (AuthController.user_role (AuthController.req_user req))
        "super_admin" = false ->
      answer = ResponseHelper.forbidden "Super admin access required").
Proof.
  intros Hself. unfold AuthController.deactivateAdmin.
  rewrite Hself. cbn [strict_eq_string]. rewrite String.eqb_refl.
  destruct (strict_eq_string _ "super_admin"); cbn [negb];
    repeat split; try reflexivity; try discriminate; cbn; lia.
Qed.

Lemma self_deactivation_rejected_witness :
  let db := [Sample.admin_of "a-1" "dean" "hash:secret" (VBool true)] in
  let req :=
    {| AuthController.req_user :=
         {| AuthController.user_id := VStr "a-1";
            AuthController.user_role := VStr "super_admin" |};
       AuthController.params_id := "a-1" |} in
  AuthController.deactivateAdmin db req
  = (db, ResponseHelper.error "Cannot deactivate your own account" 400).
Proof.
  cbv zeta.
  pose proof (self_deactivation_rejected
                [Sample.admin_of "a-1" "dean" "hash:secret" (VBool true)]
                {| AuthController.req_user :=
                     {| AuthController.user_id := VStr "a-1";
                        AuthController.user_role := VStr "super_admin" |};
                   AuthController.params_id := "a-1" |} eq_refl) as H.
  destruct (AuthController.deactivateAdmin _ _) as [db' answer].
  destruct H as (-> & _ & _ & Hsuper & _).
  rewrite (Hsuper eq_refl). reflexivity.
Defined.

(** ** Serialization of admins *)

Lemma toJSON_default_lookup (a : Admin.t) :
  Admin.toJSON a VUndefined !! "password_hash" = None.
Proof. unfold Admin.toJSON. cbn [truthy]. by simplify_map_eq. Qed.

(** The ordered rows are the rows of the table, each once. *)
Lemma place_row_length (created_at_desc : value -> value -> bool) (r : Admin.t)
  (rows : list Admin.t) :
  List.length (AuthService.place_row created_at_desc r rows)
  = S (List.length rows).
Proof.
  induction rows as [| r' rows IH]; [reflexivity |].
  cbn [AuthService.place_row].
  destruct (created_at_desc _ _); cbn [List.length]; [reflexivity |].
  now rewrite IH.
Qed.

Lemma order_by_created_at_length (created_at_desc : value -> value -> bool)
  (rows : list Admin.t) :
  List.length (AuthService.order_by_created_at created_at_desc rows)
  = List.length rows.
Proof.
  induction rows as [| r rows IH]; [reflexivity |].
  cbn [AuthService.order_by_created_at fold_right].
  rewrite place_row_length. cbn [List.length]. f_equal. exact IH.
Qed.

(** C9, as amended.  The object [toJSON] returns has a [password_hash]
    field exactly when [includePassword] is truthy: none by default and
    none for [false], the stored hash for [true], and the hash as well for
    every other truthy argument.  The default serialization does not depend
    on the hash, and [getAllAdmins] gives one entry for each row, none of
    which carries a hash, whatever the order of the database is. *)
Theorem toJSON_excludes_password_hash :
  (forall a, Admin.toJSON a VUndefined !! "password_hash" = None)
  /\ (forall a, Admin.toJSON a (VBool false) !! "password_hash" = None)
  /\ (forall a, Admin.toJSON a (VBool true) !! "password_hash"
                = Some (Admin.password_hash a))
  /\ (forall a includePassword,
        is_Some (Admin.toJSON a includePassword !! "password_hash")
        <-> truthy includePassword = true)
  /\ (forall a includePassword,
        truthy includePassword = true ->
        Admin.toJSON a includePassword !! "password_hash"
        = Some (Admin.password_hash a))
  /\ (forall a h,
        Admin.toJSON (Admin.with_password_hash h a) VUndefined
        = Admin.toJSON a VUndefined)
  /\ (forall a b,
        Admin.with_password_hash VNull a = Admin.with_password_hash VNull b ->
        Admin.toJSON a VUndefined = Admin.toJSON b VUndefined)
  /\ (forall created_at_desc db,
        Forall (fun o : gmap string value => o !! "password_hash" = None)
          (AuthService.getAllAdmins created_at_desc db)
        /\ List.length (AuthService.getAllAdmins created_at_desc db)
           = List.length db).
Proof.
  assert (Hsame : forall a h,
             Admin.toJSON (Admin.with_password_hash h a) VUndefined
             = Admin.toJSON a VUndefined) by reflexivity.
  assert (Htruthy : forall v,
             truthy match v with VUndefined => VBool false | _ => v end = truthy v)
    by (intros v; destruct v; reflexivity).
  split; [exact toJSON_default_lookup |].
  split; [intros a; unfold Admin.toJSON; cbn [truthy]; by simplify_map_eq |].
  split; [intros a; unfold Admin.toJSON; cbn [truthy]; by simplify_map_eq |].
  split.
  { intros a v. unfold Admin.toJSON. rewrite Htruthy. destruct (truthy v).
    - rewrite lookup_insert_eq. split; [reflexivity | eauto].
    - simplify_map_eq. split; [intros [x Hx]; discriminate | discriminate]. }
  split.
  { intros a v Hv. unfold Admin.toJSON. rewrite Htruthy, Hv.
    now rewrite lookup_insert_eq. }
  split; [exact Hsame |].
  split.
  { intros a b Hab. rewrite <- (Hsame a VNull), <- (Hsame b VNull). now rewrite Hab. }
  intros created_at_desc db. unfold AuthService.getAllAdmins. split.
  - apply Forall_map. apply Forall_forall. intros a _. apply toJSON_default_lookup.
  - rewrite length_map. apply order_by_created_at_length.
Qed.

(** C9, as stated, fails: [toJSON] tests its argument for truthiness, so a
    caller that never passes [true] still gets the hash with the number 1,
    or with the string 'admin', which is what [JSON.stringify] hands to
    [toJSON] for an admin held under the property [admin]. *)
Lemma toJSON_truthy_argument_carries_hash :
  VNum (Fin 1) <> VBool true
  /\ Admin.toJSON (Sample.admin_of "a-1" "ada" "hash:secret" (VBool true))
       (VNum (Fin 1)) !! "password_hash"
     = Some (VStr "hash:secret")
  /\ VStr "admin" <> VBool true
  /\ Admin.toJSON (Sample.admin_of "a-1" "ada" "hash:secret" (VBool true))
       (VStr "admin") !! "password_hash"
     = Some (VStr "hash:secret").
Proof.
  split; [discriminate |]. split; [vm_compute; reflexivity |].
  split; [discriminate |]. vm_compute; reflexivity.
Qed.

(** ** Updating feedback *)

(** C10.  [updateFeedback] with a truthy rating in the payload throws
    "Failed to update feedback: Feedback.isValidRating is not a function"
    and hands back the table untouched, whatever the client would do: the
    class has a static [validateRating] and no [isValidRating]. *)
Theorem updateFeedback_with_rating_throws
  (table : Type)
  (update_single : table -> string -> Feedback.t -> table * response Feedback.t)
  (db : table) (feedbackId : string) (updateData : Feedback.t) :
  truthy (Feedback.rating updateData) = true ->
  Feedback.static "isValidRating" = None
  /\ Feedback.static "validateRating" = Some Feedback.Member_validateRating
  /\ FeedbackService.updateFeedback table update_single db feedbackId updateData
     = (db, Throw "Failed to update feedback: Feedback.isValidRating is not a function").
Proof.
  intros Hrating. split; [reflexivity |]. split; [reflexivity |].
  unfold FeedbackService.updateFeedback, FeedbackService.updateFeedback_try.
  rewrite Hrating. reflexivity.
Qed.

Lemma updateFeedback_with_rating_throws_witness :
  let db := [Sample.feedback_of "f-1" (VNum (Fin 2))] in
  FeedbackService.updateFeedback (list Feedback.t) FeedbackService.update_single_rows
    db "f-1" (Sample.rating_update (VNum (Fin 4)))
  = (db, Throw "Failed to update feedback: Feedback.isValidRating is not a function").
Proof.
  cbv zeta.
  apply (updateFeedback_with_rating_throws (list Feedback.t)
           FeedbackService.update_single_rows
           [Sample.feedback_of "f-1" (VNum (Fin 2))] "f-1"
           (Sample.rating_update (VNum (Fin 4)))).
  reflexivity.
Defined.

(** ** Event dates *)

Lemma Event_create_ok_date (Date_parse : string -> option Z)
  (Date_of_object : option Z) (now : Z) (data e : Event.t) :
  Event.create Date_parse Date_of_object now data = Ok e ->
  truthy (Event.date data) = true
  /\ Event.validateDate Date_parse Date_of_object now (Event.date data) = true.
Proof.
  unfold Event.create.
  destruct (Event.too_short "title" _ 3) as [[] |]; try discriminate.
  destruct (Event.too_short "description" _ 10) as [[] |]; try discriminate.
  destruct (truthy (Event.date data)); [| discriminate].
  destruct (Event.validateDate _ _ now _); [| discriminate].
  intros _. split; reflexivity.
Qed.

(** C7.  [Event.create] returns an event only when the supplied date is a
    valid date strictly after the current time.  A date in the past, a date
    equal to the present and an invalid date all make it throw, so no event
    is produced; when title and description are in order the error is
    "Event date must be in the future". *)
Theorem Event_create_requires_future_date
  (Date_parse : string -> option Z) (Date_of_object : option Z)
  (now : Z) (data : Event.t) :
  let create := Event.create Date_parse Date_of_object now in
  let time_value := Event.time_value Date_parse Date_of_object in
  (forall e, create data = Ok e ->
             exists t, time_value (Event.date data) = Some t /\ now < t)
  /\ (forall t, time_value (Event.date data) = Some t -> t <= now ->
                exists m, create data = Throw m)
  /\ (time_value (Event.date data) = None -> exists m, create data = Throw m)
  /\ (Event.too_short "title" (Event.title data) 3 = Ok false ->
      Event.too_short "description" (Event.description data) 10 = Ok false ->
      (forall t, time_value (Event.date data) = Some t -> t <= now) ->
      create data = Throw "Event date must be in the future").
Proof.
  intros create time_value.
  assert (Hok : forall e, create data = Ok e ->
                  exists t, time_value (Event.date data) = Some t /\ now < t).
  { intros e He. apply Event_create_ok_date in He as [_ Hv].
    unfold Event.validateDate in Hv. fold time_value in Hv.
    destruct (time_value (Event.date data)) as [t |]; [| discriminate].
    exists t. split; [reflexivity | lia]. }
  split; [exact Hok |].
  split.
  { intros t Ht Hle. destruct (create data) as [e | m] eqn:Hc; [| eauto].
    destruct (Hok e eq_refl) as (t' & Ht' & Hlt). rewrite Ht in Ht'.
    injection Ht' as <-. lia. }
  split.
  { intros Hnone. destruct (create data) as [e | m] eqn:Hc; [| eauto].
    destruct (Hok e eq_refl) as (t' & Ht' & _). rewrite Hnone in Ht'. discriminate. }
  intros Htitle Hdesc Hpast. subst create. unfold Event.create.
  rewrite Htitle, Hdesc.
  assert (Hv : Event.validateDate Date_parse Date_of_object now (Event.date data) = false).
  { unfold Event.validateDate. fold time_value.
    destruct (time_value (Event.date data)) as [t |] eqn:Ht; [| reflexivity].
    specialize (Hpast t eq_refl). lia. }
  rewrite Hv, orb_true_r. reflexivity.
Qed.

Lemma Event_create_requires_future_date_witness :
  let parse := fun s : string => if String.eqb s "2026-06-01" then Some 1000 else None in
  Event.create parse None 1000 (Sample.event_of (VStr "2026-06-01"))
  = Throw "Event date must be in the future".
Proof.
  cbv zeta.
  apply (Event_create_requires_future_date
           (fun s : string => if String.eqb s "2026-06-01" then Some 1000 else None)
           None 1000 (Sample.event_of (VStr "2026-06-01"))).
  - reflexivity.
  - reflexivity.
  - intros t Ht. vm_compute in Ht. injection Ht as <-. lia.
Defined.

(** ** Registration statuses *)






(** ** The limiter of admin actions *)

Section AdminRateLimit.
Variable Number_toString : number -> string.
Variable Object_toString : string.
Variables maxAttempts windowMs : Z.

Let rateLimit := AdminMiddleware.rateLimit Number_toString Object_toString
                   maxAttempts windowMs.
Let let_through := AdminMiddleware.let_through Number_toString Object_toString
                  maxAttempts windowMs.
Let rateLimit_key := AdminMiddleware.rateLimit_key Number_toString Object_toString.

Lemma filter_length_le_impl {A} (f g : A -> bool) (l : list A) :
  (forall x, f x = true -> g x = true) ->
  (List.length (List.filter f l) <= List.length (List.filter g l))%nat.
Proof.
  intros Himpl. induction l as [| x l IH]; [reflexivity |].
  cbn [List.filter]. destruct (f x) eqn:Hf.
  - rewrite (Himpl x Hf). cbn [length]. lia.
  - destruct (g x); cbn [length]; lia.
Qed.

Lemma filter_filter_impl {A} (f g : A -> bool) (l : list A) :
  (forall x, f x = true -> g x = true) ->
  List.filter f (List.filter g l) = List.filter f l.
Proof.
  intros Himpl. induction l as [| x l IH]; [reflexivity |].
  cbn [List.filter]. destruct (g x) eqn:Hg.
  - cbn [List.filter]. destruct (f x); [f_equal |]; exact IH.
  - destruct (f x) eqn:Hf; [| exact IH].
    rewrite (Himpl x Hf) in Hg. discriminate.
Qed.

Let tracks := AdminMiddleware.tracks windowMs.

Lemma in_window_app (t : Z) (P Q : list Z) :
  AdminMiddleware.in_window windowMs t (P ++ Q)
  = (AdminMiddleware.in_window windowMs t P
     + AdminMiddleware.in_window windowMs t Q)%nat.
Proof.
  unfold AdminMiddleware.in_window. now rewrite List.filter_app, length_app.
Qed.

Lemma let_through_window (key : string) :
  forall reqs t0 attempts P,
    AdminMiddleware.ordered t0 (map snd reqs) ->
    tracks key t0 attempts P ->
    (forall t, (AdminMiddleware.in_window windowMs t P <= Z.to_nat maxAttempts)%nat) ->
    forall t,
      (AdminMiddleware.in_window windowMs t (P ++ let_through key attempts reqs)
       <= Z.to_nat maxAttempts)%nat.
Proof.
  induction reqs as [| [req_user now] reqs IH]; intros t0 attempts P Hord Htr Hwin t.
  - cbn. rewrite app_nil_r. apply Hwin.
  - cbn [map snd AdminMiddleware.ordered] in Hord. destruct Hord as [Hnow Hord].
    assert (Hlater : tracks key now attempts P).
    { intros c Hc. apply Htr. lia. }
    subst let_through. cbn [AdminMiddleware.let_through].
    unfold AdminMiddleware.rateLimit.
    destruct req_user as [u |]; [| now apply (IH now)].
    destruct (AdminMiddleware.isAdmin (Some u)) eqn:Hadmin; cbn [negb andb];
      [| now apply (IH now)].
    fold (rateLimit_key u).
    set (recent := List.filter (fun time => now - windowMs <? time)
                     (default [] (attempts !! rateLimit_key u))).
    destruct (Z.leb_spec maxAttempts (Z.of_nat (List.length recent))) as [Hfull | Hroom].
    + now apply (IH now).
    + destruct (String.eqb_spec (rateLimit_key u) key) as [Hk | Hk].
      * match goal with
        | |- context [(P ++ now :: ?l)%list] =>
            replace (P ++ now :: l)%list with ((P ++ [now]) ++ l)%list
              by (rewrite <- app_assoc; reflexivity)
        end.
        apply (IH now); [exact Hord | |].
        -- intros c Hc. rewrite Hk, lookup_insert_eq. change (default [] (Some ?x)) with x.
           rewrite !List.filter_app. f_equal.
           subst recent. rewrite Hk.
           rewrite filter_filter_impl; [apply Hlater; lia |].
           intros x Hx. apply Z.ltb_lt in Hx. apply Z.ltb_lt. lia.
        -- intros t'. rewrite in_window_app.
           unfold AdminMiddleware.in_window at 2. cbn [List.filter].
           destruct ((t' - windowMs <? now) && (now <=? t')) eqn:Hin;
             cbn [length]; [| rewrite Nat.add_0_r; apply Hwin].
           apply andb_true_iff in Hin as [Hlow Hhigh].
           apply Z.ltb_lt in Hlow. apply Z.leb_le in Hhigh.
           assert (Hle : (AdminMiddleware.in_window windowMs t' P
                          <= List.length recent)%nat).
           { subst recent. rewrite Hk.
             rewrite (Hlater (now - windowMs)) by lia.
             apply filter_length_le_impl. intros x Hx.
             apply andb_true_iff in Hx as [Hx _].
             apply Z.ltb_lt in Hx. apply Z.ltb_lt. lia. }
           lia.
      * apply (IH now); [exact Hord | | exact Hwin].
        intros c Hc. rewrite lookup_insert_ne by exact Hk. now apply Hlater.
Qed.


Let after := AdminMiddleware.after Number_toString Object_toString
               maxAttempts windowMs.

Lemma after_tracks (key : string) :
  forall reqs t0 attempts P,
    AdminMiddleware.ordered t0 (map snd reqs) ->
    tracks key t0 attempts P ->
    Forall (fun x => x <= t0) P ->
    let t1 := List.last (map snd reqs) t0 in
    tracks key t1 (after attempts reqs) (P ++ let_through key attempts reqs)
    /\ Forall (fun x => x <= t1) (P ++ let_through key attempts reqs).
Proof.
  induction reqs as [| [req_user now] reqs IH]; intros t0 attempts P Hord Htr Hle.
  - cbn. rewrite app_nil_r. split; assumption.
  - cbn [map snd AdminMiddleware.ordered] in Hord. destruct Hord as [Hnow Hord].
    assert (Hlater : tracks key now attempts P).
    { intros c Hc. apply Htr. lia. }
    assert (Hle' : Forall (fun x => x <= now) P).
    { eapply Forall_impl; [exact Hle |]. cbn. intros x Hx. lia. }
    assert (Hlast : List.last (map snd ((req_user, now) :: reqs)) t0
                    = List.last (map snd reqs) now).
    { cbn [map snd]. generalize (map snd reqs). intros l.
      destruct l as [| t l]; [reflexivity |].
      cbn [List.last]. revert t. induction l as [| b l IHl]; intros t; [reflexivity |].
      cbn [List.last] in *. apply IHl. }
    rewrite Hlast.
    subst let_through after. cbn [AdminMiddleware.let_through AdminMiddleware.after].
    unfold AdminMiddleware.rateLimit.
    destruct req_user as [u |]; [| now apply (IH now)].
    destruct (AdminMiddleware.isAdmin (Some u)) eqn:Hadmin; cbn [negb andb fst];
      [| now apply (IH now)].
    fold (rateLimit_key u).
    set (recent := List.filter (fun time => now - windowMs <? time)
                     (default [] (attempts !! rateLimit_key u))).
    destruct (Z.leb_spec maxAttempts (Z.of_nat (List.length recent))) as [Hfull | Hroom];
      cbn [fst].
    + now apply (IH now).
    + destruct (String.eqb_spec (rateLimit_key u) key) as [Hk | Hk].
      * match goal with
        | |- context [(P ++ now :: ?l)%list] =>
            replace (P ++ now :: l)%list with ((P ++ [now]) ++ l)%list
              by (rewrite <- app_assoc; reflexivity)
        end.
        apply (IH now); [exact Hord | |].
        -- intros c Hc. rewrite Hk, lookup_insert_eq.
           change (default [] (Some ?x)) with x.
           rewrite !List.filter_app. f_equal.
           subst recent. rewrite Hk.
           rewrite filter_filter_impl; [apply Hlater; lia |].
           intros x Hx. apply Z.ltb_lt in Hx. apply Z.ltb_lt. lia.
        -- apply Forall_app. split; [exact Hle' |]. constructor; [lia | constructor].
      * apply (IH now); [exact Hord | | exact Hle'].
        intros c Hc. rewrite lookup_insert_ne by exact Hk. now apply Hlater.
Qed.


(** X2.  [AdminMiddleware.rateLimit] is a sliding window.  With a clock
    that never runs backwards, and starting from the empty map: in any span
    of [windowMs] no more than [maxAttempts] requests of one admin go
    through; a request of an admin goes through exactly when fewer than
    [maxAttempts] requests of that admin went through within the last
    [windowMs], and is answered 429 otherwise, leaving the map as it was;
    and a request of anyone who is no admin always goes through. *)
Theorem admin_rateLimit_sliding_window
  (reqs : list (option AdminMiddleware.user * Z)) (t0 : Z) :
  AdminMiddleware.ordered t0 (map snd reqs) ->
  (forall key t,
      (AdminMiddleware.in_window windowMs t (let_through key ∅ reqs)
       <= Z.to_nat maxAttempts)%nat)
  /\ (forall u now,
        AdminMiddleware.isAdmin (Some u) = true ->
        List.last (map snd reqs) t0 <= now ->
        (snd (rateLimit (after ∅ reqs) (Some u) now) = AdminMiddleware.Next
         <-> Z.of_nat (AdminMiddleware.in_window windowMs now
                         (let_through (rateLimit_key u) ∅ reqs)) < maxAttempts)
        /\ (snd (rateLimit (after ∅ reqs) (Some u) now) <> AdminMiddleware.Next ->
            rateLimit (after ∅ reqs) (Some u) now
            = (after ∅ reqs,
               AdminMiddleware.Reply
                 (ResponseHelper.error
                    "Too many admin actions. Please try again later." 429))))
  /\ (forall attempts req_user now,
        AdminMiddleware.isAdmin req_user = false ->
        rateLimit attempts req_user now = (attempts, AdminMiddleware.Next)).
Proof.
  intros Hord.
  assert (Hempty : forall key t, tracks key t ∅ []).
  { intros key t c _. rewrite lookup_empty. reflexivity. }
  split; [| split].
  - intros key t.
    apply (let_through_window key reqs t0 ∅ [] Hord (Hempty key t0)).
    intros t'. cbn. lia.
  - intros u now Hadmin Hnow.
    destruct (after_tracks (rateLimit_key u) reqs t0 ∅ [] Hord (Hempty _ t0)
                (List.Forall_nil _))
      as [Htr Hle].
    cbn [app] in Htr, Hle. fold let_through after in Htr, Hle.
    subst rateLimit. unfold AdminMiddleware.rateLimit.
    rewrite Hadmin. cbn [negb]. fold (rateLimit_key u).
    rewrite (Htr (now - windowMs)) by lia.
    assert (Hsame : AdminMiddleware.in_window windowMs now
                      (let_through (rateLimit_key u) ∅ reqs)
                    = List.length
                        (List.filter (fun time => now - windowMs <? time)
                           (let_through (rateLimit_key u) ∅ reqs))).
    { unfold AdminMiddleware.in_window. f_equal.
      apply List.filter_ext_in. intros x Hx.
      rewrite List.Forall_forall in Hle. specialize (Hle x Hx). cbn in Hle.
      destruct (Z.leb_spec x now); [apply andb_true_r | lia]. }
    rewrite Hsame.
    destruct (Z.leb_spec maxAttempts
                (Z.of_nat (List.length
                   (List.filter (fun time => now - windowMs <? time)
                      (let_through (rateLimit_key u) ∅ reqs))))) as [Hfull | Hroom];
      cbn [snd].
    + split; [| intros _; reflexivity].
      split; [discriminate | lia].
    + split; [| intros Hn; now contradiction Hn].
      split; [intros _; exact Hroom | reflexivity].
  - intros attempts [u |] now Hno; subst rateLimit; unfold AdminMiddleware.rateLimit;
      [rewrite Hno |]; reflexivity.
Qed.

End AdminRateLimit.

Lemma admin_rateLimit_sliding_window_witness :
  AdminMiddleware.ordered 0 (map snd Fixtures.admin_requests)
  /\ (AdminMiddleware.in_window 1000 20
        (AdminMiddleware.let_through Fixtures.some_digits "" 2 1000 "admin_a-1" ∅
           Fixtures.admin_requests) <= 2)%nat
  /\ AdminMiddleware.let_through Fixtures.some_digits "" 2 1000 "admin_a-1" ∅
       Fixtures.admin_requests = [0; 10].
Proof.
  assert (H : AdminMiddleware.ordered 0 (map snd Fixtures.admin_requests))
    by (cbn; lia).
  split; [exact H |]. split; [| reflexivity].
  destruct (admin_rateLimit_sliding_window Fixtures.some_digits "" 2 1000
              Fixtures.admin_requests 0 H) as (Hwindow & _).
  exact (Hwindow "admin_a-1" 20).
Defined.

(** ** Role gates *)

Lemma allowed_table (operation resource : string) :
  AdminMiddleware.allowed operation resource = Ok true ->
  In resource ["events"; "students"; "registrations"; "attendance"; "feedback";
               "reports"; "colleges"]
  /\ In operation ["create"; "read"; "update"; "delete"]
  /\ (operation = "delete" -> resource = "events")
  /\ (operation = "create" -> resource = "events" \/ resource = "students")
  /\ (In resource ["feedback"; "reports"; "colleges"] -> operation = "read").
Proof.
  unfold AdminMiddleware.allowed.
  cbn [AdminMiddleware.own_property AdminMiddleware.adminPermissions].
  repeat (match goal with
          | |- context [String.eqb ?k resource] =>
              destruct (String.eqb_spec k resource) as [<- | ?]
          end;
          [ cbn [existsb];
            repeat (match goal with
                    | |- context [String.eqb operation ?o] =>
                        destruct (String.eqb_spec operation o) as [-> | ?]
                    end;
                    [ intros _; cbn; intuition (discriminate || congruence) |]);
            cbn; discriminate |]).
  destruct (existsb _ _); discriminate.
Qed.

Lemma strict_eq_string_true (v : value) (s : string) :
  strict_eq_string v s = true <-> v = VStr s.
Proof.
  destruct v as [| | b | n | t |]; cbn; try (split; [discriminate | discriminate]).
  rewrite String.eqb_eq. split; [now intros -> | now intros [= ->]].
Qed.

(** X3.  [checkPermissions] lets a request through only for an authenticated
    admin or super admin; a super admin always; an admin only for a pair
    of its table. *)
Theorem checkPermissions_within_table :
  (forall operation resource req_user,
      AdminMiddleware.checkPermissions operation resource req_user
      = Ok AdminMiddleware.Next ->
      exists u,
        req_user = Some u
        /\ (AdminMiddleware.role u = VStr "super_admin"
            \/ AdminMiddleware.role u = VStr "admin"
               /\ In resource ["events"; "students"; "registrations"; "attendance";
                               "feedback"; "reports"; "colleges"]
               /\ In operation ["create"; "read"; "update"; "delete"]
               /\ (operation = "delete" -> resource = "events")
               /\ (operation = "create" ->
                   resource = "events" \/ resource = "students")
               /\ (In resource ["feedback"; "reports"; "colleges"] ->
                   operation = "read")))
  /\ (forall operation resource u,
        AdminMiddleware.role u = VStr "super_admin" ->
        AdminMiddleware.checkPermissions operation resource (Some u)
        = Ok AdminMiddleware.Next)
  /\ (forall operation resource,
        AdminMiddleware.checkPermissions operation resource None
        = Ok (AdminMiddleware.Reply
                (ResponseHelper.unauthorized "Authentication required")))
  /\ (forall operation resource req_user m,
        AdminMiddleware.checkPermissions operation resource req_user = Throw m ->
        In resource AdminMiddleware.Object_prototype_names
        /\ exists u, req_user = Some u /\ AdminMiddleware.role u = VStr "admin").
Proof.
  split; [| split; [| split]].
  - intros operation resource [u |]; [| discriminate].
    unfold AdminMiddleware.checkPermissions.
    destruct (strict_eq_string (AdminMiddleware.role u) "super_admin") eqn:Hsuper.
    + intros _. exists u. split; [reflexivity |]. left.
      now apply strict_eq_string_true.
    + destruct (strict_eq_string (AdminMiddleware.role u) "admin") eqn:Hadmin;
        [| discriminate].
      destruct (AdminMiddleware.allowed operation resource) as [[] | m] eqn:Hallowed;
        try discriminate.
      intros _. exists u. split; [reflexivity |]. right.
      split; [now apply strict_eq_string_true |].
      exact (allowed_table operation resource Hallowed).
  - intros operation resource u Hrole. unfold AdminMiddleware.checkPermissions.
    now rewrite Hrole.
  - reflexivity.
  - intros operation resource [u |] m; [| discriminate].
    unfold AdminMiddleware.checkPermissions.
    destruct (strict_eq_string (AdminMiddleware.role u) "super_admin");
      [discriminate |].
    destruct (strict_eq_string (AdminMiddleware.role u) "admin") eqn:Hadmin;
      [| discriminate].
    unfold AdminMiddleware.allowed.
    destruct (AdminMiddleware.own_property _ resource) as [ops |].
    { destruct (existsb _ ops); discriminate. }
    destruct (existsb (String.eqb resource) AdminMiddleware.Object_prototype_names)
      eqn:Hproto; [| discriminate].
    intros _. split.
    + apply existsb_exists in Hproto as (name & Hin & Heq).
      apply String.eqb_eq in Heq. now subst.
    + exists u. split; [reflexivity | now apply strict_eq_string_true].
Qed.

(** X4.  The role gates of the two middleware classes agree, and they
    nest: [verifyAdmin] is [requireAdmin] and [verifySuperAdmin] is
    [requireSuperAdmin]; each lets through exactly the users [isAdmin] and
    [isSuperAdmin] hold of; and whoever passes the super admin gate passes
    the admin gate, both ownership gates for every parameter, and
    [checkPermissions] for every operation on every resource. *)
Theorem role_gates_nest (req_user : option AdminMiddleware.user) :
  AuthMiddleware.verifyAdmin req_user = AdminMiddleware.requireAdmin req_user
  /\ AuthMiddleware.verifySuperAdmin req_user
     = AdminMiddleware.requireSuperAdmin req_user
  /\ (AuthMiddleware.verifyAdmin req_user = AdminMiddleware.Next
      <-> AdminMiddleware.isAdmin req_user = true)
  /\ (AuthMiddleware.verifySuperAdmin req_user = AdminMiddleware.Next
      <-> AdminMiddleware.isSuperAdmin req_user = true)
  /\ (AuthMiddleware.verifySuperAdmin req_user = AdminMiddleware.Next ->
      AuthMiddleware.verifyAdmin req_user = AdminMiddleware.Next
      /\ (forall param,
             AuthMiddleware.verifyOwnership param req_user = AdminMiddleware.Next
             /\ AdminMiddleware.allowAdminOrOwner param req_user
                = AdminMiddleware.Next)
      /\ (forall operation resource,
             AdminMiddleware.checkPermissions operation resource req_user
             = Ok AdminMiddleware.Next)).
Proof.
  split; [reflexivity |]. split; [reflexivity |].
  destruct req_user as [u |]; cbn.
  2: { repeat split; discriminate. }
  unfold AuthMiddleware.verifyOwnership, AdminMiddleware.allowAdminOrOwner,
    AdminMiddleware.checkPermissions, AdminMiddleware.isAdmin.
  destruct (strict_eq_string (AdminMiddleware.role u) "super_admin") eqn:Hsuper;
    destruct (strict_eq_string (AdminMiddleware.role u) "admin") eqn:Hadmin;
    cbn; repeat split; intros; try reflexivity; try discriminate.
Qed.

(** X5.  The two ownership gates let the same requests through, and a user
    who is no admin only to the resource whose path parameter is the very
    string of its id. *)
Theorem ownership_gates (param : option string)
  (req_user : option AdminMiddleware.user) :
  (AuthMiddleware.verifyOwnership param req_user = AdminMiddleware.Next
   <-> AdminMiddleware.allowAdminOrOwner param req_user = AdminMiddleware.Next)
  /\ (req_user = None ->
      AuthMiddleware.verifyOwnership param req_user
      = AdminMiddleware.Reply (ResponseHelper.unauthorized "Authentication required")
      /\ AdminMiddleware.allowAdminOrOwner param req_user
         = AdminMiddleware.Reply (ResponseHelper.unauthorized "Authentication required"))
  /\ (forall u p,
        req_user = Some u -> param = Some p ->
        AdminMiddleware.isAdmin req_user = false ->
        (AuthMiddleware.verifyOwnership param req_user = AdminMiddleware.Next
         <-> AdminMiddleware.id u = VStr p /\ p <> ""
             \/ truthy (AdminMiddleware.id u) = false
                /\ AdminMiddleware.student_id u = VStr p)).
Proof.
  split; [| split].
  - destruct req_user as [u |]; [| split; discriminate].
    unfold AuthMiddleware.verifyOwnership, AdminMiddleware.allowAdminOrOwner,
      AdminMiddleware.isAdmin.
    destruct (strict_eq_string (AdminMiddleware.role u) "admin"
              || strict_eq_string (AdminMiddleware.role u) "super_admin");
      [tauto |].
    destruct (AdminMiddleware.strict_eq_param param _); cbn;
      split; try reflexivity; discriminate.
  - intros ->. split; reflexivity.
  - intros u p -> -> Hno.
    unfold AuthMiddleware.verifyOwnership.
    unfold AdminMiddleware.isAdmin in Hno. rewrite Hno.
    unfold AdminMiddleware.or_else.
    destruct (truthy (AdminMiddleware.id u)) eqn:Hid.
    + destruct (AdminMiddleware.id u) as [| | b | n | s |] eqn:Hv; cbn;
        try (split; [discriminate | intros [[H _] | [H _]]; discriminate]).
      destruct (String.eqb_spec p s) as [Heq | Hne]; cbn.
      * subst s. split; [| reflexivity]. intros _. left. split; [reflexivity |].
        intros ->. discriminate.
      * split; [discriminate |].
        intros [[H _] | [H _]]; [injection H as H; congruence | discriminate].
    + destruct (AdminMiddleware.student_id u) as [| | b | n | s |] eqn:Hv; cbn.
      all: try (split; [discriminate |];
                intros [[H Hp] | [_ H]]; [| discriminate];
                rewrite H in Hid; cbn in Hid;
                destruct (String.eqb_spec p ""); [contradiction | discriminate]).
      destruct (String.eqb_spec p s) as [Heq | Hne]; cbn.
      * subst s. split; [| reflexivity]. intros _. right. split; reflexivity.
      * split; [discriminate |].
        intros [[H Hp] | [_ H]].
        -- rewrite H in Hid. cbn in Hid.
           destruct (String.eqb_spec p ""); [contradiction | discriminate].
        -- injection H as H. congruence.
Qed.

(** ** Accounts: deactivation, passwords, profiles *)

Lemma filter_map_same {A} (P : A -> bool) (f : A -> A) (l : list A) :
  (forall x, P (f x) = P x) ->
  List.filter P (map f l) = map f (List.filter P l).
Proof.
  intros HP. induction l as [| x l IH]; [reflexivity |].
  cbn [map List.filter]. rewrite HP. destruct (P x); cbn [map]; now rewrite IH.
Qed.

Lemma single_map {A B} (f : A -> B) (l : list A) :
  AuthService.single (map f l) = f <$> AuthService.single l.
Proof. destruct l as [| x [| y l]]; reflexivity. Qed.

Lemma getAdminBy_map (column : Admin.t -> value) (f : Admin.t -> Admin.t)
  (db : list Admin.t) (v : value) :
  (forall r, column (f r) = column r) ->
  AuthService.getAdminBy column (map f db) v
  = (fun r => Admin.construct (f r))
      <$> AuthService.single
            (List.filter (fun r => AuthService.column_eq (column r) v) db).
Proof.
  intros Hcol. unfold AuthService.getAdminBy.
  rewrite (filter_map_same (fun r => AuthService.column_eq (column r) v) f db)
    by (intros x; now rewrite Hcol).
  rewrite single_map. now destruct (AuthService.single _).
Qed.

Lemma single_In {A} (l : list A) (x : A) :
  AuthService.single l = Some x -> l = [x].
Proof. destruct l as [| y [| z l]]; [discriminate | | discriminate]. now intros [= ->]. Qed.

Lemma single_filter {A} (P : A -> bool) (l : list A) (x : A) :
  AuthService.single (List.filter P l) = Some x -> P x = true.
Proof.
  intros H. apply single_In in H.
  assert (Hin : In x (List.filter P l)) by (rewrite H; now left).
  now apply List.filter_In in Hin.
Qed.

(** The row function of [deactivateAdmin] and of [activateAdmin]. *)
Lemma deactivateAdmin_rows (db : list Admin.t) (adminId : string) :
  exists f,
    fst (AuthService.deactivateAdmin db adminId) = map f db
    /\ (forall r, AuthService.column_eq (Admin.id r) (VStr adminId) = true ->
                  Admin.is_active (f r) = VBool false)
    /\ (forall r, AuthService.column_eq (Admin.id r) (VStr adminId) = false -> f r = r)
    /\ (forall r, Admin.id (f r) = Admin.id r /\ Admin.username (f r) = Admin.username r
                  /\ Admin.email (f r) = Admin.email r
                  /\ Admin.password_hash (f r) = Admin.password_hash r
                  /\ Admin.role (f r) = Admin.role r).
Proof.
  eexists. split; [reflexivity |].
  split; [| split]; intros r; try intros Hr; cbn beta;
    destruct (AuthService.column_eq (Admin.id r) (VStr adminId));
    try discriminate; try reflexivity; repeat split.
Qed.

Section Accounts.
Variable bcrypt_compare : string -> value -> result bool.
Variable jwt_sign : gmap string value -> string -> string -> string.
Variable JWT_SECRET : option string.
Variable JWT_REFRESH_SECRET : option string.

Let loginAdmin := AuthService.loginAdmin bcrypt_compare jwt_sign JWT_SECRET
                    JWT_REFRESH_SECRET.

Lemma findAdmin_deactivated (db : list Admin.t) (adminId identifier : string)
  (a : Admin.t) :
  AuthService.findAdmin db identifier = Some a ->
  Admin.id a = VStr adminId ->
  exists a',
    AuthService.findAdmin (fst (AuthService.deactivateAdmin db adminId)) identifier
    = Some a'
    /\ Admin.is_active a' = VBool false.
Proof.
  intros Hfind Hid.
  destruct (deactivateAdmin_rows db adminId) as (f & -> & Hoff & _ & Hsame).
  unfold AuthService.findAdmin, AuthService.getAdminByEmail,
    AuthService.getAdminByUsername in *.
  pose proof (getAdminBy_map Admin.email f db (VStr identifier)
                (fun r => proj1 (proj2 (proj2 (Hsame r))))) as Hemail.
  pose proof (getAdminBy_map Admin.username f db (VStr identifier)
                (fun r => proj1 (proj2 (Hsame r)))) as Huser.
  unfold AuthService.getAdminBy in Hemail, Huser. rewrite Hemail, Huser.
  assert (Hrow : forall r, Admin.construct r = a ->
                           Admin.is_active (Admin.construct (f r)) = VBool false).
  { intros r <-. cbn [Admin.construct Admin.id] in Hid.
    cbn [Admin.construct Admin.is_active]. rewrite Hoff; [reflexivity |].
    rewrite Hid. cbn. apply String.eqb_refl. }
  destruct (AuthService.single
              (List.filter (fun r => AuthService.column_eq (Admin.email r) (VStr identifier)) db))
    as [r |]; cbn [fmap option_fmap option_map] in *.
  - injection Hfind as Ha. eexists. split; [reflexivity | now apply Hrow].
  - destruct (AuthService.single
                (List.filter
                   (fun r => AuthService.column_eq (Admin.username r) (VStr identifier)) db))
      as [r |]; cbn [fmap option_fmap option_map] in *; [| discriminate].
    injection Hfind as Ha. eexists. split; [reflexivity | now apply Hrow].
Qed.

(** X6.  A super admin who deactivates another admin locks that account
    out: the controller answers 200, the session of that id is no longer
    valid, every later login to the account is refused with 'Account is
    deactivated' whatever the password, and the rows keep their id,
    username, email, password hash and role, rows of another id being
    untouched. *)
Theorem deactivated_admin_locked_out (db : list Admin.t)
  (req : AuthController.request) :
  strict_eq_string (AuthController.user_role (AuthController.req_user req))
    "super_admin" = true ->
  strict_eq_string (AuthController.user_id (AuthController.req_user req))
    (AuthController.params_id req) = false ->
  let id := AuthController.params_id req in
  let db' := fst (AuthController.deactivateAdmin db req) in
  snd (AuthController.deactivateAdmin db req)
  = ResponseHelper.success_with None "Admin deactivated successfully" 200
  /\ AuthService.validateSession db' id = None
  /\ (forall identifier password now a,
         AuthService.findAdmin db identifier = Some a ->
         Admin.id a = VStr id ->
         loginAdmin db' identifier password now
         = (db', Throw "Login failed: Account is deactivated"))
  /\ Forall2 (fun old new =>
                (AuthService.column_eq (Admin.id old) (VStr id) = false -> new = old)
                /\ Admin.id new = Admin.id old
                /\ Admin.username new = Admin.username old
                /\ Admin.email new = Admin.email old
                /\ Admin.password_hash new = Admin.password_hash old
                /\ Admin.role new = Admin.role old) db db'.
Proof.
  intros Hrole Hother id db'.
  assert (Hdb : db' = fst (AuthService.deactivateAdmin db id)).
  { subst db'. unfold AuthController.deactivateAdmin.
    rewrite Hrole. cbn [negb]. cbv zeta. rewrite Hother. reflexivity. }
  split.
  { unfold AuthController.deactivateAdmin.
    rewrite Hrole. cbn [negb]. cbv zeta. rewrite Hother. reflexivity. }
  rewrite Hdb. clear Hdb db'.
  split; [| split].
  - destruct (deactivateAdmin_rows db id) as (f & -> & Hoff & _ & Hsame).
    unfold AuthService.validateSession, AuthService.getAdminById.
    rewrite (getAdminBy_map Admin.id f db (VStr id) (fun r => proj1 (Hsame r))).
    destruct (AuthService.single _) as [r |] eqn:Hsingle; [| reflexivity].
    cbn [fmap option_fmap option_map].
    apply single_filter in Hsingle.
    cbn [Admin.construct Admin.is_active]. now rewrite (Hoff r Hsingle).
  - intros identifier password now a Hfind Hid.
    destruct (findAdmin_deactivated db id identifier a Hfind Hid) as (a' & Hfind' & Hoff).
    subst loginAdmin. unfold AuthService.loginAdmin, AuthService.loginAdmin_try.
    rewrite Hfind', Hoff. reflexivity.
  - destruct (deactivateAdmin_rows db id) as (f & -> & _ & Hkeep & Hsame).
    induction db as [| r db IH]; cbn [map]; constructor; [| exact IH].
    split; [apply Hkeep |]. apply Hsame.
Qed.

End Accounts.

Lemma deactivated_admin_locked_out_witness :
  AuthService.validateSession
    (fst (AuthController.deactivateAdmin Fixtures.admins Fixtures.deactivation_request))
    "a-1" = None
  /\ snd (AuthService.loginAdmin Sample.compare Sample.sign (Some "k") None
            (fst (AuthController.deactivateAdmin Fixtures.admins
                    Fixtures.deactivation_request))
            "ada" "lovelace" "2026-01-01T00:00:00.000Z")
     = Throw "Login failed: Account is deactivated"
  /\ is_ok (snd (AuthService.loginAdmin Sample.compare Sample.sign (Some "k") None
                   Fixtures.admins "ada" "lovelace" "2026-01-01T00:00:00.000Z"))
     = true.
Proof.
  destruct (deactivated_admin_locked_out Sample.compare Sample.sign (Some "k") None
              Fixtures.admins Fixtures.deactivation_request eq_refl eq_refl)
    as (_ & Hsession & Hlogin & _).
  split; [exact Hsession |]. split; [| reflexivity].
  rewrite (Hlogin "ada" "lovelace" "2026-01-01T00:00:00.000Z"
             (Admin.construct (Sample.admin_of "a-1" "ada" "hash:lovelace" (VBool true)))
             eq_refl eq_refl).
  reflexivity.
Defined.

(** The row function of [activateAdmin]. *)
Lemma activateAdmin_rows (db : list Admin.t) (adminId : string) :
  exists f,
    fst (AuthService.activateAdmin db adminId) = map f db
    /\ (forall r, AuthService.column_eq (Admin.id r) (VStr adminId) = true ->
                  Admin.is_active (f r) = VBool true)
    /\ (forall r, Admin.id (f r) = Admin.id r).
Proof.
  eexists. split; [reflexivity |].
  split; intros r; try intros Hr; cbn beta;
    destruct (AuthService.column_eq (Admin.id r) (VStr adminId));
    try discriminate; reflexivity.
Qed.

(** X7.  Activation undoes deactivation: whatever was done to the account
    before, after [activateAdmin] the session of an admin is valid exactly
    when its id is that of one row, and deactivating first changes nothing
    in what activation leaves. *)
Theorem activateAdmin_restores_session (db : list Admin.t) (adminId : string) :
  (is_Some (AuthService.validateSession
              (fst (AuthService.activateAdmin db adminId)) adminId)
   <-> is_Some (AuthService.getAdminById db adminId))
  /\ fst (AuthService.activateAdmin
            (fst (AuthService.deactivateAdmin db adminId)) adminId)
     = fst (AuthService.activateAdmin db adminId)
  /\ AuthService.validateSession
       (fst (AuthService.deactivateAdmin
               (fst (AuthService.activateAdmin db adminId)) adminId)) adminId
     = None.
Proof.
  split; [| split].
  - destruct (activateAdmin_rows db adminId) as (f & -> & Hon & Hid).
    unfold AuthService.validateSession, AuthService.getAdminById.
    rewrite (getAdminBy_map Admin.id f db (VStr adminId) Hid).
    unfold AuthService.getAdminBy.
    destruct (AuthService.single _) as [r |] eqn:Hsingle;
      cbn [fmap option_fmap option_map]; [| tauto].
    apply single_filter in Hsingle.
    cbn [Admin.construct Admin.is_active]. rewrite (Hon r Hsingle). cbn.
    split; intros _; eexists; reflexivity.
  - cbn [AuthService.activateAdmin AuthService.deactivateAdmin fst].
    rewrite map_map. apply map_ext. intros r. cbn [Admin.id].
    destruct (AuthService.column_eq (Admin.id r) (VStr adminId)) eqn:Hr;
      cbn [Admin.id]; rewrite Hr; reflexivity.
  - destruct (deactivateAdmin_rows (fst (AuthService.activateAdmin db adminId)) adminId)
      as (f & -> & Hoff & _ & Hsame).
    unfold AuthService.validateSession, AuthService.getAdminById.
    rewrite (getAdminBy_map Admin.id f _ (VStr adminId) (fun r => proj1 (Hsame r))).
    destruct (AuthService.single _) as [r |] eqn:Hsingle; [| reflexivity].
    cbn [fmap option_fmap option_map].
    apply single_filter in Hsingle.
    cbn [Admin.construct Admin.is_active]. now rewrite (Hoff r Hsingle).
Qed.

Section Passwords.
Variable bcrypt_compare : string -> value -> result bool.
Variable bcrypt_hash : string -> Z -> string -> result string.

Let changePassword := AuthService.changePassword bcrypt_compare bcrypt_hash.

(** X8.  [changePassword] changes nothing unless the current password
    matches the stored hash of the one admin with that id; when it
    succeeds, that admin's hash is the hash of the new password, no other
    column and no other row has changed, and the new password is the one
    the stored hash now matches. *)
Theorem changePassword_requires_current_password (db : list Admin.t)
  (adminId currentPassword newPassword salt : string) :
  let out := changePassword db adminId currentPassword newPassword salt in
  (is_ok (snd out) = false -> fst out = db)
  /\ (AuthService.getAdminById db adminId = None ->
      out = (db, Throw "Failed to change password: Admin not found"))
  /\ (forall admin,
         AuthService.getAdminById db adminId = Some admin ->
         bcrypt_compare currentPassword (Admin.password_hash admin) = Ok false ->
         out = (db, Throw "Failed to change password: Current password is incorrect"))
  /\ (snd out = Ok true ->
      exists admin hash,
        AuthService.getAdminById db adminId = Some admin
        /\ bcrypt_compare currentPassword (Admin.password_hash admin) = Ok true
        /\ bcrypt_hash newPassword 12 salt = Ok hash
        /\ (exists admin',
               AuthService.getAdminById (fst out) adminId = Some admin'
               /\ Admin.password_hash admin' = VStr hash)
        /\ Forall2 (fun old new =>
                      (AuthService.column_eq (Admin.id old) (VStr adminId) = false ->
                       new = old)
                      /\ Admin.with_password_hash (Admin.password_hash old) new = old)
             db (fst out)).
Proof.
  intros out. subst out changePassword.
  unfold AuthService.changePassword, AuthService.changePassword_try,
    AuthService.comparePassword, AuthService.hashPassword, AuthService.SALT_ROUNDS.
  destruct (AuthService.getAdminById db adminId) as [admin |] eqn:Hget.
  2: { repeat split; try reflexivity; try discriminate. }
  destruct (bcrypt_compare currentPassword (Admin.password_hash admin))
    as [[] | m] eqn:Hcmp.
  2, 3: repeat split; try reflexivity; try discriminate;
        intros admin' [= <-]; rewrite Hcmp; (discriminate || reflexivity).
  destruct (bcrypt_hash newPassword 12 salt) as [hash | m] eqn:Hhash.
  2: { repeat split; try reflexivity; try discriminate.
       intros admin' [= <-]. rewrite Hcmp. discriminate. }
  cbn [fst snd is_ok].
  split; [discriminate |]. split; [discriminate |].
  split; [intros admin' [= <-]; rewrite Hcmp; discriminate |].
  intros _. exists admin, hash.
  split; [reflexivity |]. split; [exact Hcmp |]. split; [reflexivity |].
  set (f := fun r : Admin.t =>
              if AuthService.column_eq (Admin.id r) (VStr adminId)
              then Admin.with_password_hash (VStr hash) r else r).
  assert (Hid : forall r, Admin.id (f r) = Admin.id r).
  { intros r. subst f. cbn beta.
    destruct (AuthService.column_eq (Admin.id r) (VStr adminId)); reflexivity. }
  split.
  - unfold AuthService.getAdminById in *.
    rewrite (getAdminBy_map Admin.id f db (VStr adminId) Hid).
    unfold AuthService.getAdminBy in Hget.
    destruct (AuthService.single _) as [r |] eqn:Hsingle; [| discriminate].
    cbn [fmap option_fmap option_map]. eexists. split; [reflexivity |].
    apply single_filter in Hsingle. subst f. cbn beta. rewrite Hsingle.
    reflexivity.
  - clear Hget. induction db as [| r db IH]; cbn [map]; constructor; [| exact IH].
    subst f. cbn beta.
    destruct (AuthService.column_eq (Admin.id r) (VStr adminId));
      split; try discriminate; try reflexivity; now destruct r.
Qed.

End Passwords.

Lemma filteredData_lookup (updateData : gmap string value) (k : string) :
  AuthService.filteredData updateData !! k
  = if decide (k = "username") then
      match updateData !! "username" with
      | Some VUndefined | None => None
      | Some v => Some v
      end
    else if decide (k = "email") then
      match updateData !! "email" with
      | Some VUndefined | None => None
      | Some v => Some v
      end
    else None.
Proof.
  unfold AuthService.filteredData, AuthService.allowedFields. cbn [fold_left].
  destruct (updateData !! "username") as [[] |] eqn:Hu;
    destruct (updateData !! "email") as [[] |] eqn:He;
    repeat case_decide; subst; simplify_map_eq; try reflexivity; congruence.
Qed.

(** X9.  [updateAdminProfile] writes no column but [username] and [email],
    whatever keys the body has, and touches no row of another id; an email
    that another admin has is refused, and so is a username that another
    admin has, whatever else the body carries (the email is looked at
    first, so that its message wins when both are taken), and so is a body
    with neither key; and then nothing is written. *)
Theorem updateAdminProfile_writes_only_username_and_email (no_single_row : string)
  (db : list Admin.t) (adminId : string) (updateData : gmap string value) :
  let out := AuthService.updateAdminProfile no_single_row db adminId updateData in
  Forall2 (fun old new =>
             (AuthService.column_eq (Admin.id old) (VStr adminId) = false -> new = old)
             /\ Admin.id new = Admin.id old
             /\ Admin.password_hash new = Admin.password_hash old
             /\ Admin.role new = Admin.role old
             /\ Admin.is_active new = Admin.is_active old
             /\ Admin.last_login new = Admin.last_login old
             /\ Admin.created_at new = Admin.created_at old
             /\ Admin.updated_at new = Admin.updated_at old) db (fst out)
  /\ (forall v existing,
        updateData !! "email" = Some v -> truthy v = true ->
        AuthService.getAdminBy Admin.email db v = Some existing ->
        strict_eq_string (Admin.id existing) adminId = false ->
        out = (db, Throw "Failed to update admin profile: Email already in use"))
  /\ (forall v existing,
        updateData !! "username" = Some v -> truthy v = true ->
        AuthService.getAdminBy Admin.username db v = Some existing ->
        strict_eq_string (Admin.id existing) adminId = false ->
        out = (db,
               Throw (if AuthService.in_use Admin.email db adminId
                           (updateData !! "email")
                      then "Failed to update admin profile: Email already in use"
                      else "Failed to update admin profile: Username already in use")))
  /\ ((forall k v, updateData !! k = Some v -> k <> "username" /\ k <> "email") ->
      out = (db, Throw "Failed to update admin profile: No valid fields to update")).
Proof.
  intros out. subst out.
  unfold AuthService.updateAdminProfile, AuthService.updateAdminProfile_try.
  set (fd := AuthService.filteredData updateData).
  assert (Hsame : Forall2
            (fun old new =>
               (AuthService.column_eq (Admin.id old) (VStr adminId) = false -> new = old)
               /\ Admin.id new = Admin.id old
               /\ Admin.password_hash new = Admin.password_hash old
               /\ Admin.role new = Admin.role old
               /\ Admin.is_active new = Admin.is_active old
               /\ Admin.last_login new = Admin.last_login old
               /\ Admin.created_at new = Admin.created_at old
               /\ Admin.updated_at new = Admin.updated_at old) db db).
  { clear. induction db; constructor; [repeat split | assumption]. }
  assert (Hgiven : forall k v,
             (k = "username" \/ k = "email") ->
             updateData !! k = Some v -> truthy v = true ->
             fd !! k = Some v /\ (size fd =? 0)%nat = false).
  { intros k v Hk Hv Ht.
    assert (Hfd : fd !! k = Some v).
    { subst fd. rewrite filteredData_lookup.
      destruct Hk as [-> | ->]; cbn; rewrite Hv; now destruct v. }
    split; [exact Hfd |].
    apply Nat.eqb_neq. intros Hsize. apply map_size_empty_inv in Hsize.
    rewrite Hsize, lookup_empty in Hfd. discriminate. }
  split; [| split; [| split]].
  - destruct (size fd =? 0)%nat; [exact Hsame |].
    destruct (AuthService.in_use Admin.email db adminId (fd !! "email"));
      [exact Hsame |].
    destruct (AuthService.in_use Admin.username db adminId (fd !! "username"));
      [exact Hsame |].
    unfold AuthService.update_single.
    match goal with
    | |- context [List.filter ?h (map ?g db)] =>
        destruct (List.filter h (map g db)) as [| row [| row' rows]]
    end; cbn [fst snd error data].
    all: clear Hsame Hgiven; induction db as [| r db IH]; cbn [map]; constructor;
      try exact IH.
    all: destruct (AuthService.column_eq (Admin.id r) (VStr adminId));
      [| repeat split].
    all: split; [discriminate |].
    all: unfold AuthService.set_columns;
      cbn [Admin.id Admin.password_hash Admin.role Admin.is_active
           Admin.last_login Admin.created_at Admin.updated_at];
      subst fd; rewrite !filteredData_lookup;
      repeat (case_decide; [discriminate |]); repeat split.
  - intros v existing Hv Ht Hget Hid.
    destruct (Hgiven "email" v (or_intror eq_refl) Hv Ht) as [Hfd ->].
    unfold AuthService.in_use. rewrite Hfd, Ht, Hget, Hid. reflexivity.
  - intros v existing Hv Ht Hget Hid.
    destruct (Hgiven "username" v (or_introl eq_refl) Hv Ht) as [Hfd ->].
    assert (Hemail : AuthService.in_use Admin.email db adminId (fd !! "email")
                     = AuthService.in_use Admin.email db adminId
                         (updateData !! "email")).
    { subst fd. rewrite filteredData_lookup. cbn.
      destruct (updateData !! "email") as [[] |]; reflexivity. }
    rewrite Hemail.
    destruct (AuthService.in_use Admin.email db adminId (updateData !! "email"));
      [reflexivity |].
    unfold AuthService.in_use. rewrite Hfd, Ht, Hget, Hid. reflexivity.
  - intros Hnone.
    assert (Hempty : fd = ∅).
    { apply map_eq. intros k. subst fd. rewrite filteredData_lookup, lookup_empty.
      repeat case_decide; try reflexivity.
      - destruct (updateData !! "username") as [v |] eqn:Hu; [| reflexivity].
        destruct (Hnone _ _ Hu) as [Hk _]. now contradiction Hk.
      - destruct (updateData !! "email") as [v |] eqn:He; [| reflexivity].
        destruct (Hnone _ _ He) as [_ Hk]. now contradiction Hk. }
    rewrite Hempty, map_size_empty. reflexivity.
Qed.

(** ** Reports and statistics, continued *)

Lemma attendancePercentage_controller_report_witness :
  (Spec.percentage (Spec.present_count (Sample.event_7 10 4) 7)
     (Spec.total_registrations (Sample.event_7 10 4) 7) < inject_Z (10 ^ 21))%Q
  /\ exists pct,
      Reports.attendancePercentage (Sample.event_7 10 4) 7
      = {| Reports.status := 200;
           Reports.body :=
             Reports.AttendanceBody 7 (VNum (of_nat 10)) (VNum (of_nat 4)) pct |}
      /\ Spec.rounded_to_2_decimals (Spec.percentage 4 10) pct.
Proof.
  assert (H : (Spec.percentage (Spec.present_count (Sample.event_7 10 4) 7)
                 (Spec.total_registrations (Sample.event_7 10 4) 7)
               < inject_Z (10 ^ 21))%Q) by (vm_compute; reflexivity).
  split; [exact H |].
  destruct (attendancePercentage_controller_report (Sample.event_7 10 4) 7 H)
    as (pct & Heq & _ & Hpct).
  exists pct. split; [exact Heq |]. apply Hpct. discriminate.
Defined.

Lemma sum_lower (l : list Z) :
  Forall (fun r => 1 <= r <= 5) l -> Z.of_nat (List.length l) <= Spec.sum l.
Proof.
  induction 1 as [| r l Hr _ IH]; [reflexivity |].
  unfold Spec.sum in *. cbn [List.length fold_right]. lia.
Qed.

Lemma mean_range (ratings : list Z) :
  ratings <> [] ->
  Forall (fun r => 1 <= r <= 5) ratings ->
  (1 <= Spec.mean ratings)%Q /\ (Spec.mean ratings <= 5)%Q.
Proof.
  intros Hne Hall. unfold Spec.mean.
  assert (Hlen : 0 < Z.of_nat (List.length ratings))
    by (destruct ratings; [congruence | cbn; lia]).
  assert (Hn : (0 < inject_Z (Z.of_nat (List.length ratings)))%Q)
    by (unfold Qlt, inject_Z; cbn; lia).
  pose proof (sum_lower ratings Hall) as Hlow.
  pose proof (sum_bounds ratings Hall) as [_ Hup].
  split.
  - apply Qle_shift_div_l; [exact Hn |]. rewrite Qmult_1_l.
    rewrite <- Zle_Qle. exact Hlow.
  - apply Qle_shift_div_r; [exact Hn |].
    change 5%Q with (inject_Z 5). rewrite <- inject_Z_mult, <- Zle_Qle. exact Hup.
Qed.

(** Rounding to hundredths keeps a number between two integers between
    them. *)
Lemma Number_toFixed2_range (q : Q) (a b : Z) :
  0 <= a -> b < 10 ^ 19 ->
  (inject_Z a <= q)%Q -> (q <= inject_Z b)%Q ->
  exists r, Number_toFixed2 (Fin q) = Fin r
            /\ (inject_Z a <= r)%Q /\ (r <= inject_Z b)%Q.
Proof.
  intros Ha Hb Hlow Hup.
  assert (Hpos : (0 <= q)%Q).
  { eapply Qle_trans; [| exact Hlow]. change 0%Q with (inject_Z 0).
    rewrite <- Zle_Qle. exact Ha. }
  unfold Number_toFixed2, fixed2_digits.
  rewrite (is_neg_false q Hpos).
  destruct (Qle_bool (inject_Z (10 ^ 21)) (Qabs q)) eqn:Hbig.
  { apply Qle_bool_iff in Hbig. rewrite (Qabs_pos q Hpos) in Hbig.
    assert (Hc : (inject_Z b < inject_Z (10 ^ 21))%Q) by (rewrite <- Zlt_Qlt; lia).
    lra. }
  set (n := Qfloor (q * 100 + (1 # 2))).
  assert (Hn_low : 100 * a <= n).
  { subst n.
    assert (Hle : (inject_Z (100 * a) <= q * 100 + (1 # 2))%Q).
    { rewrite inject_Z_mult. change (inject_Z 100) with 100%Q. lra. }
    apply Qfloor_resp_le in Hle. rewrite Qfloor_Z in Hle. exact Hle. }
  assert (Hn_up : n <= 100 * b).
  { subst n.
    assert (Hlt : (q * 100 + (1 # 2) < inject_Z (100 * b + 1))%Q).
    { rewrite inject_Z_plus, inject_Z_mult.
      change (inject_Z 100) with 100%Q. change (inject_Z 1) with 1%Q. lra. }
    pose proof (Qfloor_le (q * 100 + (1 # 2))) as Hfl.
    assert (Hz : (inject_Z (Qfloor (q * 100 + (1 # 2))) < inject_Z (100 * b + 1))%Q)
      by lra.
    rewrite <- Zlt_Qlt in Hz. lia. }
  eexists. split; [reflexivity |].
  rewrite Qred_correct. clearbody n.
  split; unfold Qle, inject_Z; cbn; lia.
Qed.

(** X10.  The average rating of an event, as the report controller and the
    route of [routes/reports.js] compute it: with the ratings of the event
    all in 1..5, the answer is a 200 with the number of its rows as count
    and, as average, 0 when there is none and otherwise the mean rounded to
    2 decimals, a number between 1 and 5. *)
Theorem feedbackAverage_report (feedback : list Reports.feedback_row)
  (event_id : Z) :
  let ratings :=
    map Reports.fb_rating
      (List.filter (fun r => Reports.fb_event_id r =? event_id) feedback) in
  Forall (fun r => 1 <= r <= 5) ratings ->
  exists avg,
    Reports.feedbackAverage feedback event_id
    = {| Reports.fb_status := 200;
         Reports.fb_body :=
           Reports.FeedbackAverage event_id avg (List.length ratings) |}
    /\ (ratings = [] -> avg = Fin 0)
    /\ (ratings <> [] ->
        Spec.rounded_to_2_decimals (Spec.mean ratings) avg
        /\ exists q, avg = Fin q /\ (1 <= q)%Q /\ (q <= 5)%Q).
Proof.
  intros ratings Hall.
  unfold Reports.feedbackAverage, Reports.feedbackAverage_of,
    Reports.ratings_of_event.
  cbn [error data]. fold ratings.
  destruct (list_eq_nil_dec ratings) as [Hnil | Hne].
  - rewrite Hnil. eexists. split; [reflexivity |]. split; [reflexivity | congruence].
  - assert (Hlen : List.length ratings <> 0%nat)
      by (destruct ratings; [congruence | discriminate]).
    destruct (Nat.ltb_spec 0 (List.length ratings)) as [_ | Hle]; [| lia].
    change (Fin 0) with (of_Z 0).
    rewrite (totalRating_sum ratings 0), Z.add_0_l.
    rewrite (div_of_Z_of_nat _ _ Hlen).
    fold (Spec.mean ratings).
    eexists. split; [reflexivity |]. split; [congruence |].
    intros _.
    destruct (mean_bounds ratings Hne Hall) as [Hm0 Hm1].
    destruct (mean_range ratings Hne Hall) as [H1 H5].
    split.
    + apply Number_toFixed2_rounds; assumption.
    + destruct (Number_toFixed2_range (Spec.mean ratings) 1 5) as (q & Hq & Hq1 & Hq5);
        [lia | lia | exact H1 | exact H5 |].
      exists q. split; [exact Hq |]. split; assumption.
Qed.

Lemma occurrences_total (l : list Z) :
  Forall (fun r => 1 <= r <= 5) l ->
  (Spec.occurrences 1 l + Spec.occurrences 2 l + Spec.occurrences 3 l
   + Spec.occurrences 4 l + Spec.occurrences 5 l = List.length l)%nat.
Proof.
  induction 1 as [| r l Hr _ IH]; [reflexivity |].
  rewrite !occurrences_cons. cbn [List.length]. unfold hit.
  assert (Hcases : r = 1 \/ r = 2 \/ r = 3 \/ r = 4 \/ r = 5) by lia.
  destruct Hcases as [-> | [-> | [-> | [-> | ->]]]]; cbn; lia.
Qed.

Lemma percentage_range (part whole : nat) :
  (part <= whole)%nat -> whole <> 0%nat ->
  (0 <= Spec.percentage part whole)%Q /\ (Spec.percentage part whole <= 100)%Q.
Proof.
  intros Hle Hne. split; [apply percentage_nonneg |].
  unfold Spec.percentage.
  assert (Hw : 0 < Z.of_nat whole) by lia.
  assert (Hp : 0 <= Z.of_nat part <= 1 * Z.of_nat whole) by lia.
  destruct (Qdiv_nat_bounds _ _ 1 Hw Hp) as [H0 H1].
  change (inject_Z 1) with 1%Q in H1. lra.
Qed.

(** X11.  What [getOverallFeedbackStats] reports hangs together: the five
    buckets add up to the total, the average lies between 1 and 5 and the
    satisfaction rate between 0 and 100. *)
Theorem getOverallFeedbackStats_invariants
  (rows : list FeedbackService.rating_row) (f : FeedbackService.filters) :
  let ratings :=
    map FeedbackService.rating
      (List.filter (FeedbackService.in_scope f) rows) in
  Forall (fun r => 1 <= r <= 5) ratings ->
  exists s,
    FeedbackService.getOverallFeedbackStats rows f = Ok s
    /\ (exists c1 c2 c3 c4 c5 : nat,
           FeedbackService.rating_distribution s = buckets c1 c2 c3 c4 c5
           /\ (c1 + c2 + c3 + c4 + c5)%nat = FeedbackService.total_feedback s)
    /\ (exists a p : Q,
           FeedbackService.average_rating s = Fin a
           /\ FeedbackService.satisfaction_rate s = Fin p
           /\ (ratings <> [] -> (1 <= a)%Q /\ (a <= 5)%Q)
           /\ (0 <= p)%Q /\ (p <= 100)%Q).
Proof.
  intros ratings Hall.
  unfold FeedbackService.getOverallFeedbackStats,
    FeedbackService.getOverallFeedbackStats_of, FeedbackService.select_ratings.
  cbn [error data]. fold ratings.
  eexists. split; [reflexivity |].
  destruct (list_eq_nil_dec ratings) as [Hnil | Hne].
  - rewrite Hnil. cbn. split.
    + exists 0%nat, 0%nat, 0%nat, 0%nat, 0%nat. split; reflexivity.
    + exists 0%Q, 0%Q. repeat split; try reflexivity; try congruence; discriminate.
  - rewrite (stats_of_ratings_nonempty ratings Hne Hall).
    cbn [FeedbackService.total_feedback FeedbackService.average_rating
         FeedbackService.rating_distribution FeedbackService.satisfaction_rate].
    split.
    + exists (Spec.occurrences 1 ratings), (Spec.occurrences 2 ratings),
        (Spec.occurrences 3 ratings), (Spec.occurrences 4 ratings),
        (Spec.occurrences 5 ratings).
      split; [apply histogram_buckets | apply occurrences_total; exact Hall].
    + assert (Hlen : List.length ratings <> 0%nat)
        by (destruct ratings; [congruence | discriminate]).
      destruct (mean_range ratings Hne Hall) as [H1 H5].
      destruct (Number_toFixed2_range (Spec.mean ratings) 1 5)
        as (a & Ha & Ha1 & Ha5); [lia | lia | exact H1 | exact H5 |].
      destruct (percentage_range (Spec.at_least 4 ratings) (List.length ratings)
                  (at_least_le_length 4 ratings) Hlen) as [Hp0 Hp100].
      destruct (Number_toFixed2_range
                  (Spec.percentage (Spec.at_least 4 ratings) (List.length ratings))
                  0 100) as (p & Hp & Hp0' & Hp100');
        [lia | lia | exact Hp0 | exact Hp100 |].
      exists a, p. repeat split; assumption.
Qed.

Lemma increment_other (d : gmap Z number) (r k : Z) :
  r <> k -> FeedbackService.increment d r !! k = d !! k.
Proof. intros Hne. unfold FeedbackService.increment. now rewrite lookup_insert_ne. Qed.

Lemma distribution_NaN_stays (l : list Z) (d : gmap Z number) (k : Z) :
  d !! k = Some NaN -> fold_left FeedbackService.increment l d !! k = Some NaN.
Proof.
  revert d. induction l as [| r l IH]; intros d Hd; [exact Hd |].
  cbn [fold_left]. apply IH.
  destruct (Z.eq_dec r k) as [-> | Hne].
  - unfold FeedbackService.increment, FeedbackService.bucket.
    now rewrite lookup_insert_eq, Hd.
  - now rewrite increment_other.
Qed.

Lemma distribution_NaN_appears (l : list Z) (d : gmap Z number) (k : Z) :
  d !! k = None -> In k l ->
  fold_left FeedbackService.increment l d !! k = Some NaN.
Proof.
  revert d. induction l as [| r l IH]; intros d Hd Hin; [destruct Hin |].
  cbn [fold_left].
  destruct (Z.eq_dec r k) as [-> | Hne].
  - apply distribution_NaN_stays.
    unfold FeedbackService.increment, FeedbackService.bucket.
    now rewrite lookup_insert_eq, Hd.
  - apply IH; [now rewrite increment_other |].
    destruct Hin as [Heq | Hin]; [contradiction | exact Hin].
Qed.

(** X12.  A rating outside 1 to 5 among the rows puts a bucket of its own
    into the distribution, and its count is [NaN]: [undefined++]. *)
Theorem out_of_range_rating_counts_NaN (ratings : list Z) (k : Z) :
  In k ratings -> ~ 1 <= k <= 5 ->
  FeedbackService.rating_distribution (FeedbackService.stats_of_ratings ratings) !! k
  = Some NaN
  /\ FeedbackService.total_feedback (FeedbackService.stats_of_ratings ratings)
     = List.length ratings.
Proof.
  intros Hin Hout. unfold FeedbackService.stats_of_ratings.
  destruct (Nat.ltb_spec 0 (List.length ratings)) as [_ | Hle].
  - cbn [FeedbackService.rating_distribution FeedbackService.total_feedback].
    split; [| reflexivity].
    apply distribution_NaN_appears; [| exact Hin].
    change FeedbackService.empty_distribution with (buckets 0 0 0 0 0).
    rewrite buckets_lookup. repeat (case_decide; [lia |]). reflexivity.
  - destruct ratings; [destruct Hin | cbn in Hle; lia].
Qed.

Lemma out_of_range_rating_counts_NaN_witness :
  FeedbackService.rating_distribution
    (FeedbackService.stats_of_ratings [5; 7; 4]) !! 7 = Some NaN
  /\ FeedbackService.total_feedback (FeedbackService.stats_of_ratings [5; 7; 4])
     = 3%nat.
Proof.
  apply (out_of_range_rating_counts_NaN [5; 7; 4] 7); [cbn; tauto | lia].
Defined.

Lemma getOverallFeedbackStats_invariants_witness :
  exists s,
    FeedbackService.getOverallFeedbackStats Sample.rating_rows Sample.no_filters = Ok s
    /\ exists c1 c2 c3 c4 c5 : nat,
        FeedbackService.rating_distribution s = buckets c1 c2 c3 c4 c5
        /\ (c1 + c2 + c3 + c4 + c5)%nat = FeedbackService.total_feedback s.
Proof.
  assert (H : Forall (fun r => 1 <= r <= 5)
                (map FeedbackService.rating
                   (List.filter (FeedbackService.in_scope Sample.no_filters)
                      Sample.rating_rows))).
  { cbn. repeat constructor; lia. }
  destruct (getOverallFeedbackStats_invariants Sample.rating_rows Sample.no_filters H)
    as (s & Hs & Hb & _).
  exists s. split; [exact Hs | exact Hb].
Defined.

Lemma forallb_trim_start (s : UString.t) :
  forallb UString.is_white_space (UString.trim_start s)
  = forallb UString.is_white_space s.
Proof.
  induction s as [| c s IH]; [reflexivity |].
  cbn [UString.trim_start forallb].
  destruct (UString.is_white_space c) eqn:Hc; [exact IH |].
  cbn [forallb]. now rewrite Hc.
Qed.

Lemma trim_start_empty (s : UString.t) :
  UString.is_empty (UString.trim_start s) = forallb UString.is_white_space s.
Proof.
  induction s as [| c s IH]; [reflexivity |].
  cbn [UString.trim_start forallb].
  destruct (UString.is_white_space c); [exact IH | reflexivity].
Qed.

Lemma forallb_rev {A} (f : A -> bool) (l : list A) :
  forallb f (rev l) = forallb f l.
Proof.
  induction l as [| x l IH]; [reflexivity |].
  cbn [rev forallb]. rewrite forallb_app, IH. cbn. rewrite andb_true_r.
  apply andb_comm.
Qed.

Lemma is_empty_rev (s : UString.t) : UString.is_empty (rev s) = UString.is_empty s.
Proof.
  destruct s as [| c s]; [reflexivity |].
  cbn [rev]. now destruct (rev s).
Qed.

(** [trim] leaves nothing exactly of the strings of white space. *)
Lemma trim_empty (s : UString.t) :
  UString.is_empty (UString.trim s) = forallb UString.is_white_space s.
Proof.
  unfold UString.trim.
  now rewrite is_empty_rev, trim_start_empty, forallb_rev, forallb_trim_start.
Qed.

Lemma has_comments_spec (f : FeedbackService.comment_row) :
  FeedbackService.has_comments f
  = match FeedbackService.cr_comments f with
    | Some s => existsb (fun c => negb (UString.is_white_space c)) s
    | None => false
    end.
Proof.
  unfold FeedbackService.has_comments.
  destruct (FeedbackService.cr_comments f) as [s |]; [| reflexivity].
  rewrite trim_empty.
  induction s as [| c s IH]; [reflexivity |].
  cbn [UString.is_empty forallb existsb negb andb] in *.
  destruct (UString.is_white_space c); cbn [negb andb orb]; [| reflexivity].
  destruct s; [reflexivity | exact IH].
Qed.

Lemma fold_left_map {A B C} (g : C -> B -> C) (h : A -> B) (l : list A) (c : C) :
  fold_left g (map h l) c = fold_left (fun acc x => g acc (h x)) l c.
Proof. revert c. induction l as [| x l IH]; intros c; [reflexivity | apply IH]. Qed.

(** X13.  [getEventFeedbackStats] counts, averages and distributes the
    ratings of the event as [getOverallFeedbackStats] does, and counts as
    comments the rows whose comment has a character that is no white
    space; there are never more comments than rows. *)
Theorem getEventFeedbackStats_report (rows : list FeedbackService.comment_row)
  (eventId : Z) :
  let selected :=
    List.filter (fun r => FeedbackService.cr_event_id r =? eventId) rows in
  let overall :=
    FeedbackService.stats_of_ratings (map FeedbackService.cr_rating selected) in
  exists s,
    FeedbackService.getEventFeedbackStats rows eventId = Ok s
    /\ FeedbackService.ev_total_feedback s = List.length selected
    /\ FeedbackService.ev_total_feedback s = FeedbackService.total_feedback overall
    /\ FeedbackService.ev_average_rating s = FeedbackService.average_rating overall
    /\ FeedbackService.ev_rating_distribution s
       = FeedbackService.rating_distribution overall
    /\ (FeedbackService.ev_total_comments s <= FeedbackService.ev_total_feedback s)%nat
    /\ FeedbackService.ev_total_comments s
       = List.length
           (List.filter
              (fun f => match FeedbackService.cr_comments f with
                        | Some c => existsb (fun u => negb (UString.is_white_space u)) c
                        | None => false
                        end) selected).
Proof.
  intros selected overall.
  unfold FeedbackService.getEventFeedbackStats,
    FeedbackService.getEventFeedbackStats_of.
  cbn [error data]. fold selected.
  eexists. split; [reflexivity |].
  subst overall.
  unfold FeedbackService.event_stats_of, FeedbackService.stats_of_ratings.
  rewrite length_map, !fold_left_map.
  assert (Hcomments :
            List.length (List.filter FeedbackService.has_comments selected)
            = List.length
                (List.filter
                   (fun f => match FeedbackService.cr_comments f with
                             | Some c =>
                                 existsb (fun u => negb (UString.is_white_space u)) c
                             | None => false
                             end) selected)).
  { f_equal. apply List.filter_ext. intros a. apply has_comments_spec. }
  destruct (0 <? List.length selected)%nat;
    cbn [FeedbackService.ev_total_feedback FeedbackService.ev_average_rating
         FeedbackService.ev_rating_distribution FeedbackService.ev_total_comments
         FeedbackService.total_feedback FeedbackService.average_rating
         FeedbackService.rating_distribution];
    repeat split; try reflexivity; try exact Hcomments;
    apply List.filter_length_le.
Qed.

Lemma feedbackAverage_report_witness :
  Forall (fun r => 1 <= r <= 5)
    (map Reports.fb_rating
       (List.filter (fun r => Reports.fb_event_id r =? 7) Fixtures.feedback_rows))
  /\ exists avg,
      Reports.feedbackAverage Fixtures.feedback_rows 7
      = {| Reports.fb_status := 200;
           Reports.fb_body := Reports.FeedbackAverage 7 avg 3 |}
      /\ Spec.rounded_to_2_decimals (Spec.mean [5; 4; 3]) avg.
Proof.
  assert (H : Forall (fun r => 1 <= r <= 5)
                (map Reports.fb_rating
                   (List.filter (fun r => Reports.fb_event_id r =? 7)
                      Fixtures.feedback_rows))).
  { cbn. repeat constructor; lia. }
  split; [exact H |].
  destruct (feedbackAverage_report Fixtures.feedback_rows 7 H) as (avg & Heq & _ & Havg).
  exists avg. split; [exact Heq |]. apply Havg. discriminate.
Defined.

(** ** The models and their helpers *)

Lemma create_ok_rating (now : string) (data f : Feedback.t) :
  Feedback.create now data = Ok f ->
  Feedback.rating f = Feedback.rating data
  /\ Feedback.validateRating (Feedback.rating data) = true.
Proof.
  unfold Feedback.create.
  destruct (negb (truthy (Feedback.student_id data))); [discriminate |].
  destruct (negb (truthy (Feedback.event_id data))); [discriminate |].
  destruct (truthy (Feedback.rating data)); [| discriminate].
  destruct (Feedback.validateRating (Feedback.rating data)); [| discriminate].
  cbn [negb orb].
  destruct (_ && _); [discriminate |].
  intros [= <-]. split; reflexivity.
Qed.

Section FeedbackHelpers.
Variable String_toNumber : string -> number.
Variable Object_toNumber : number.

Let isPositive := Feedback.isPositive String_toNumber Object_toNumber.
Let isNegative := Feedback.isNegative String_toNumber Object_toNumber.

(** X14.  No feedback is positive and negative at once, whatever its rating
    is; a feedback that [Feedback.create] returned is positive exactly for
    the ratings 4 and 5 and negative exactly for 1 and 2. *)
Theorem feedback_positive_negative :
  (forall f, isPositive f && isNegative f = false)
  /\ (forall now data f,
         Feedback.create now data = Ok f ->
         exists (q : Q) (z : Z),
           Feedback.rating f = VNum (Fin q) /\ (q == inject_Z z)%Q /\ 1 <= z <= 5
           /\ (isPositive f = true <-> 4 <= z)
           /\ (isNegative f = true <-> z <= 2)).
Proof.
  split.
  - intros f. subst isPositive isNegative.
    unfold Feedback.isPositive, Feedback.isNegative.
    destruct (Conversion.to_number _ _ _) as [q | | []]; try reflexivity.
    cbn [num_le].
    destruct (Qle_bool 4 q) eqn:H4; [| reflexivity].
    destruct (Qle_bool q 2) eqn:H2; [| reflexivity].
    apply Qle_bool_iff in H4, H2. lra.
  - intros now data f Hcreate.
    destruct (create_ok_rating now data f Hcreate) as [Hsame Hvalid].
    apply validateRating_iff in Hvalid as (q & z & Hq & Hz & Hrange).
    exists q, z. rewrite Hsame, Hq.
    split; [reflexivity |]. split; [exact Hz |]. split; [exact Hrange |].
    subst isPositive isNegative.
    unfold Feedback.isPositive, Feedback.isNegative.
    rewrite Hsame, Hq. cbn [Conversion.to_number num_le].
    rewrite !Qle_bool_iff, Hz.
    change 4%Q with (inject_Z 4). change 2%Q with (inject_Z 2).
    rewrite <- !Zle_Qle. tauto.
Qed.

End FeedbackHelpers.

Section SubmitFeedback.
Variables table row : Type.
Variable insert_single :
  table -> FeedbackController.body -> table * response row.
Variable String_toNumber : string -> number.
Variable Object_toNumber : number.

Let submitFeedback :=
  FeedbackController.submitFeedback table row insert_single String_toNumber
    Object_toNumber.

(** X15.  The range check of [submitFeedback] is weaker than the model's
    validation: with both ids present, a numeric rating is refused by the
    handler exactly when it is below 1 or above 5, so that the handler sends
    to the database every rating [Feedback.validateRating] accepts and as
    well every number between 1 and 5 that is no integer. *)
Theorem submitFeedback_range_check (db : table) (b : FeedbackController.body) :
  truthy (FeedbackController.event_id b) = true ->
  truthy (FeedbackController.student_id b) = true ->
  (forall q,
      FeedbackController.rating b = VNum (Fin q) ->
      ((q < 1)%Q \/ (5 < q)%Q ->
       submitFeedback db b
       = (db, FeedbackController.Error 400 "Rating must be between 1 and 5"))
      /\ ((1 <= q)%Q /\ (q <= 5)%Q ->
          submitFeedback db b = FeedbackController.answer table row (insert_single db b)))
  /\ (Feedback.validateRating (FeedbackController.rating b) = true ->
      submitFeedback db b = FeedbackController.answer table row (insert_single db b))
  /\ (FeedbackController.loose_eq_null (FeedbackController.rating b) = true ->
      submitFeedback db b
      = (db, FeedbackController.Error 400 "Missing event_id, student_id or rating")).
Proof.
  intros He Hs. subst submitFeedback. unfold FeedbackController.submitFeedback.
  rewrite He, Hs. cbn [negb orb].
  assert (Hnum : forall q,
             FeedbackController.rating b = VNum (Fin q) ->
             ((q < 1)%Q \/ (5 < q)%Q ->
              (if FeedbackController.loose_eq_null (FeedbackController.rating b)
               then (db, FeedbackController.Error 400
                           "Missing event_id, student_id or rating")
               else
                 let r := Conversion.to_number String_toNumber Object_toNumber
                            (FeedbackController.rating b) in
                 if num_lt r (Fin 1) || num_lt (Fin 5) r
                 then (db, FeedbackController.Error 400 "Rating must be between 1 and 5")
                 else FeedbackController.answer table row (insert_single db b))
              = (db, FeedbackController.Error 400 "Rating must be between 1 and 5"))
             /\ ((1 <= q)%Q /\ (q <= 5)%Q ->
                 (if FeedbackController.loose_eq_null (FeedbackController.rating b)
                  then (db, FeedbackController.Error 400
                              "Missing event_id, student_id or rating")
                  else
                    let r := Conversion.to_number String_toNumber Object_toNumber
                               (FeedbackController.rating b) in
                    if num_lt r (Fin 1) || num_lt (Fin 5) r
                    then (db, FeedbackController.Error 400
                                "Rating must be between 1 and 5")
                    else FeedbackController.answer table row (insert_single db b))
                 = FeedbackController.answer table row (insert_single db b))).
  { intros q ->. cbn [FeedbackController.loose_eq_null Conversion.to_number].
    cbv zeta. unfold num_lt, num_le.
    destruct (Qle_bool 1 q) eqn:H1; destruct (Qle_bool q 5) eqn:H5; cbn [negb orb].
    all: try apply Qle_bool_iff in H1; try apply Qle_bool_iff in H5.
    all: split; intros Hq; try reflexivity.
    all: try (destruct Hq as [Hq | Hq]; lra).
    all: destruct Hq as [Hq1 Hq5].
    all: try (apply Qle_bool_iff in Hq1; congruence).
    all: try (apply Qle_bool_iff in Hq5; congruence). }
  split; [exact Hnum |]. split.
  - intros Hvalid. apply validateRating_iff in Hvalid as (q & z & Hq & Hz & Hrange).
    apply (proj2 (Hnum q Hq)). rewrite Hz.
    change 1%Q with (inject_Z 1). change 5%Q with (inject_Z 5).
    rewrite <- !Zle_Qle. exact Hrange.
  - intros ->. reflexivity.
Qed.

End SubmitFeedback.

Section EventHelpers.
Variable Date_parse : string -> option Z.
Variable Date_of_object : option Z.
Variable String_toNumber : string -> number.
Variable Object_toNumber : number.

Let create := Event.create Date_parse Date_of_object.
Let isPast := Event.isPast Date_parse Date_of_object.
Let isFull := Event.isFull String_toNumber Object_toNumber.

Lemma Event_create_ok_capacity (now : Z) (data e : Event.t) :
  create now data = Ok e ->
  e = data
  /\ Event.validateMaxAttendees (Event.max_attendees data) = true
  /\ Event.validateDate Date_parse Date_of_object now (Event.date data) = true.
Proof.
  subst create. unfold Event.create.
  destruct (Event.too_short "title" _ _) as [[] | m]; try discriminate.
  destruct (Event.too_short "description" _ _) as [[] | m]; try discriminate.
  destruct (truthy (Event.date data)); [| discriminate].
  destruct (Event.validateDate _ _ now (Event.date data)); [| discriminate].
  cbn [negb orb].
  destruct (Event.too_short "location" _ _) as [[] | m]; try discriminate.
  destruct (truthy (Event.max_attendees data)); [| discriminate].
  destruct (Event.validateMaxAttendees (Event.max_attendees data)); [| discriminate].
  cbn [negb orb].
  destruct (negb (truthy (Event.college_id data))); [discriminate |].
  intros [= <-]. repeat split.
Qed.

(** X16.  An event that [Event.create] returned has room: its capacity is an
    integer of at least 1, it is not full without attendees, it is full
    exactly from as many attendees as its capacity on, and it is not past
    at the clock of its creation or before. *)
Theorem created_event_has_room (now : Z) (data e : Event.t) :
  create now data = Ok e ->
  exists (q : Q) (capacity : Z),
    Event.max_attendees e = VNum (Fin q)
    /\ (q == inject_Z capacity)%Q /\ 1 <= capacity
    /\ isFull e None = false
    /\ (forall n : nat, isFull e (Some (of_nat n)) = true <-> capacity <= Z.of_nat n)
    /\ (forall clock, clock <= now -> isPast clock e = false).
Proof.
  intros Hcreate.
  destruct (Event_create_ok_capacity now data e Hcreate) as (-> & Hmax & Hdate).
  unfold Event.validateMaxAttendees in Hmax.
  destruct (Event.max_attendees data) as [| | b | [q | | s] | s |] eqn:Hv;
    try discriminate.
  apply andb_true_iff in Hmax as [Hint Hpos].
  unfold num_isInteger in Hint. apply Qeq_bool_iff in Hint.
  unfold num_lt, num_le in Hpos. apply negb_true_iff in Hpos.
  assert (Hq0 : ~ (q <= 0)%Q).
  { intros Hle. apply Qle_bool_iff in Hle. congruence. }
  assert (Hcap : 1 <= Qfloor q).
  { assert (H0 : (0 < inject_Z (Qfloor q))%Q) by (rewrite <- Hint; lra).
    change 0%Q with (inject_Z 0) in H0. rewrite <- Zlt_Qlt in H0. lia. }
  exists q, (Qfloor q).
  split; [reflexivity |]. split; [exact Hint |]. split; [exact Hcap |].
  subst isFull isPast. unfold Event.isFull, Event.isPast.
  rewrite Hv. cbn [Conversion.to_number default from_option id num_le].
  split; [| split].
  - destruct (Qle_bool q 0) eqn:H; [| reflexivity].
    apply Qle_bool_iff in H. contradiction.
  - intros n. unfold of_nat, of_Z. cbn [num_le].
    rewrite Qle_bool_iff, Hint, <- Zle_Qle, Qfloor_Z. tauto.
  - intros clock Hclock. unfold Event.validateDate in Hdate.
    destruct (Event.time_value Date_parse Date_of_object (Event.date data))
      as [eventDate |]; [| reflexivity].
    apply Z.ltb_lt in Hdate. apply Z.ltb_ge. lia.
Qed.

(** X17.  The validators of [ValidationService] agree with those of the
    Event model: the same capacities and, at one clock, the same dates
    pass; with [allowPast] every valid date passes; and the valid date
    ranges form a strict order. *)
Theorem service_validators_agree_with_model :
  (forall capacity,
      ValidationService.isValidCapacity capacity
      = Event.validateMaxAttendees capacity)
  /\ (forall now date,
        DateValidation.isValidFutureDate Date_parse Date_of_object now date false
        = Event.validateDate Date_parse Date_of_object now date)
  /\ (forall now date,
        DateValidation.isValidFutureDate Date_parse Date_of_object now date true
        = true
        <-> is_Some (Event.time_value Date_parse Date_of_object date))
  /\ (forall a, DateValidation.isValidDateRange Date_parse Date_of_object a a = false)
  /\ (forall a b c,
        DateValidation.isValidDateRange Date_parse Date_of_object a b = true ->
        DateValidation.isValidDateRange Date_parse Date_of_object b c = true ->
        DateValidation.isValidDateRange Date_parse Date_of_object a c = true)
  /\ (forall now a b,
        Event.validateDate Date_parse Date_of_object now a = true ->
        DateValidation.isValidDateRange Date_parse Date_of_object a b = true ->
        Event.validateDate Date_parse Date_of_object now b = true).
Proof.
  split; [| split; [| split; [| split; [| split]]]].
  - intros [| | b | n | s |]; try reflexivity.
    unfold ValidationService.isValidCapacity, Event.validateMaxAttendees.
    apply andb_comm.
  - intros now date.
    unfold DateValidation.isValidFutureDate, Event.validateDate.
    destruct (Event.time_value _ _ date) as [t |]; [| reflexivity].
    cbn [negb andb].
    destruct (Z.leb_spec t now), (Z.ltb_spec now t); reflexivity || lia.
  - intros now date. unfold DateValidation.isValidFutureDate.
    destruct (Event.time_value _ _ date) as [t |]; cbn.
    + split; [intros _; eexists; reflexivity | reflexivity].
    + split; [discriminate | intros [x Hx]; discriminate].
  - intros a. unfold DateValidation.isValidDateRange.
    destruct (Event.time_value _ _ a) as [t |]; [apply Z.ltb_irrefl | reflexivity].
  - intros a b c. unfold DateValidation.isValidDateRange.
    destruct (Event.time_value _ _ a) as [ta |]; [| discriminate].
    destruct (Event.time_value _ _ b) as [tb |]; [| discriminate].
    destruct (Event.time_value _ _ c) as [tc |]; [| discriminate].
    rewrite !Z.ltb_lt. lia.
  - intros now a b. unfold DateValidation.isValidDateRange, Event.validateDate.
    destruct (Event.time_value _ _ a) as [ta |]; [| discriminate].
    destruct (Event.time_value _ _ b) as [tb |]; [| discriminate].
    rewrite !Z.ltb_lt. lia.
Qed.

End EventHelpers.

Section EventRoom.
Variable no_single_row : string.

Let getEventById := EventService.getEventById no_single_row.
Let isEventFull := EventService.isEventFull no_single_row.
Let getAvailableSpots := EventService.getAvailableSpots no_single_row.

Lemma getEventById_wrapped (db : EventService.tables) (eventId : string) :
  (exists event, getEventById db eventId = Ok event)
  \/ getEventById db eventId = Throw ("Failed to fetch event: " ++ no_single_row).
Proof.
  subst getEventById. unfold EventService.getEventById.
  destruct (List.filter _ _) as [| row [| row' rows]]; [right | left | right];
    try reflexivity.
  eexists. reflexivity.
Qed.

(** X18.  [isEventFull] and [getAvailableSpots] tell the same story: they
    succeed for the same events, the number of spots is never negative, an
    event is full exactly when no spot is left, and while it is not full the
    spots and the confirmed registrations add up to its capacity. *)
Theorem event_full_iff_no_spots (db : EventService.tables) (eventId : string) :
  (is_ok (isEventFull db eventId) = is_ok (getAvailableSpots db eventId))
  /\ (forall full spots,
        isEventFull db eventId = Ok full ->
        getAvailableSpots db eventId = Ok spots ->
        0 <= spots /\ (full = true <-> spots = 0)
        /\ exists event,
            getEventById db eventId = Ok event
            /\ spots <= Z.max 0 (EventService.capacity event)
            /\ (full = false ->
                spots + Z.of_nat (EventService.confirmed_count db eventId)
                = EventService.capacity event))
  /\ (is_ok (getEventById db eventId) = false ->
      isEventFull db eventId
      = Throw ("Failed to check if event is full: Failed to fetch event: "
               ++ no_single_row)
      /\ getAvailableSpots db eventId
         = Throw ("Failed to get available spots: Failed to fetch event: "
                  ++ no_single_row)).
Proof.
  subst isEventFull getAvailableSpots.
  unfold EventService.isEventFull, EventService.getAvailableSpots.
  destruct (getEventById_wrapped db eventId) as [[event Hget] | Hget];
    subst getEventById; rewrite Hget.
  - split; [reflexivity |]. split; [| discriminate].
    intros full spots [= <-] [= <-].
    split; [lia |]. split.
    + rewrite Z.leb_le. lia.
    + exists event. split; [reflexivity |]. split; [lia |].
      intros Hfull. apply Z.leb_gt in Hfull. lia.
  - split; [reflexivity |]. split; [discriminate |].
    intros _. split; reflexivity.
Qed.

End EventRoom.

(** X19.  The status of a registration stays one of the three the model
    knows: [Registration.create] returns none with another status, and
    [cancel] keeps it so; a registration is active exactly when confirmed,
    which a new one is when no status was given, and never after
    [cancel]. *)
Theorem registration_status_invariant :
  (forall now data r,
      Registration.create now data = Ok r ->
      Registration.validateStatus (Registration.status r) = true
      /\ (Registration.isActive r = true
          <-> truthy (Registration.status data) = false
              \/ Registration.status data = VStr "confirmed"))
  /\ (forall now r,
        Registration.validateStatus (Registration.status (Registration.cancel now r))
        = true
        /\ Registration.isActive (Registration.cancel now r) = false
        /\ Registration.id (Registration.cancel now r) = Registration.id r
        /\ Registration.student_id (Registration.cancel now r)
           = Registration.student_id r
        /\ Registration.event_id (Registration.cancel now r) = Registration.event_id r
        /\ Registration.registration_date (Registration.cancel now r)
           = Registration.registration_date r).
Proof.
  split.
  - intros now data r. unfold Registration.create.
    destruct (negb (truthy (Registration.student_id data))); [discriminate |].
    destruct (negb (truthy (Registration.event_id data))); [discriminate |].
    destruct (truthy (Registration.status data)) eqn:Ht; cbn [andb].
    + destruct (Registration.validateStatus (Registration.status data)) eqn:Hv;
        [| discriminate].
      cbn [negb]. intros [= <-].
      unfold Registration.construct, Registration.isActive.
      cbn [Registration.status]. rewrite Ht.
      split; [exact Hv |].
      rewrite strict_eq_string_true. split; [now right | now intros [? | ?]].
    + intros [= <-].
      unfold Registration.construct, Registration.isActive.
      cbn [Registration.status]. rewrite Ht.
      split; [reflexivity |]. split; [now left | reflexivity].
  - intros now r. repeat split.
Qed.

Lemma attendance_after_invariant (calls : list Attendance.call) :
  forall a,
    (truthy (Attendance.check_out_time a) = true ->
     truthy (Attendance.attended a) = true) ->
    let final := fold_left Attendance.after calls a in
    (truthy (Attendance.check_out_time final) = true ->
     truthy (Attendance.attended final) = true)
    /\ Attendance.student_id final = Attendance.student_id a
    /\ Attendance.event_id final = Attendance.event_id a
    /\ (truthy (Attendance.attended a) = true ->
        truthy (Attendance.attended final) = true).
Proof.
  induction calls as [| c calls IH]; intros a Hinv; [cbn; tauto |].
  cbn [fold_left].
  assert (Hstep : (truthy (Attendance.check_out_time (Attendance.after a c)) = true ->
                   truthy (Attendance.attended (Attendance.after a c)) = true)
                  /\ Attendance.student_id (Attendance.after a c)
                     = Attendance.student_id a
                  /\ Attendance.event_id (Attendance.after a c) = Attendance.event_id a
                  /\ (truthy (Attendance.attended a) = true ->
                      truthy (Attendance.attended (Attendance.after a c)) = true)).
  { destruct c as [now later t | now later t]; cbn [Attendance.after].
    - cbn. tauto.
    - unfold Attendance.markCheckedOut.
      destruct (truthy (Attendance.attended a)) eqn:Hatt; cbn [negb]; cbn;
        rewrite ?Hatt; tauto. }
  destruct Hstep as (H1 & H2 & H3 & H4).
  destruct (IH (Attendance.after a c) H1) as (I1 & I2 & I3 & I4).
  cbv zeta. rewrite I2, I3, H2, H3. tauto.
Qed.

(** X20.  Nobody is checked out who was not checked in: on a record that
    [Attendance.create] returned from data without a check-out time, after
    any calls of [markAttended] and [markCheckedOut], a check-out time is
    there only if the student is marked attended; [markCheckedOut] throws
    on a record that is not, and succeeds on one that is. *)
Theorem attendance_checkout_requires_checkin (data a : Attendance.t)
  (calls : list Attendance.call) :
  Attendance.create data = Ok a ->
  truthy (Attendance.check_out_time data) = false ->
  let final := fold_left Attendance.after calls a in
  (truthy (Attendance.check_out_time final) = true ->
   truthy (Attendance.attended final) = true)
  /\ Attendance.student_id final = Attendance.student_id data
  /\ Attendance.event_id final = Attendance.event_id data
  /\ (forall now later t,
        Attendance.markCheckedOut now later t final
        = Throw "Cannot check out student who has not checked in"
        <-> truthy (Attendance.attended final) = false)
  /\ (forall now later t now' later' t',
        is_ok (Attendance.markCheckedOut now' later' t'
                 (Attendance.markAttended now later t final)) = true).
Proof.
  intros Hcreate Hfresh final.
  assert (Ha : a = Attendance.construct data).
  { unfold Attendance.create in Hcreate.
    destruct (negb (truthy (Attendance.student_id data))); [discriminate |].
    destruct (negb (truthy (Attendance.event_id data))); [discriminate |].
    now injection Hcreate as <-. }
  destruct (attendance_after_invariant calls a) as (H1 & H2 & H3 & _).
  { subst a. cbn [Attendance.construct Attendance.check_out_time].
    rewrite Hfresh. discriminate. }
  fold final in H1, H2, H3.
  split; [exact H1 |].
  split; [rewrite H2; now subst a |].
  split; [rewrite H3; now subst a |].
  split.
  - intros now later t. unfold Attendance.markCheckedOut.
    destruct (truthy (Attendance.attended final)); cbn [negb];
      split; try reflexivity; discriminate.
  - intros. reflexivity.
Qed.

Lemma submitFeedback_range_check_witness :
  truthy (FeedbackController.event_id (Fixtures.feedback_body (VNum (Fin (7 # 2)))))
  = true
  /\ FeedbackController.submitFeedback (list FeedbackController.body)
       FeedbackController.body Fixtures.insert_row Fixtures.no_number NaN []
       (Fixtures.feedback_body (VNum (Fin (7 # 2))))
     = ([Fixtures.feedback_body (VNum (Fin (7 # 2)))],
        FeedbackController.Created
          (Some (Fixtures.feedback_body (VNum (Fin (7 # 2))))))
  /\ Feedback.validateRating (VNum (Fin (7 # 2))) = false.
Proof.
  split; [reflexivity |]. split; [| reflexivity].
  destruct (submitFeedback_range_check (list FeedbackController.body)
              FeedbackController.body Fixtures.insert_row Fixtures.no_number NaN []
              (Fixtures.feedback_body (VNum (Fin (7 # 2)))) eq_refl eq_refl)
    as (Hnum & _).
  rewrite (proj2 (Hnum (7 # 2)%Q eq_refl)); [reflexivity |].
  split; unfold Qle; cbn; lia.
Defined.

Lemma created_event_has_room_witness :
  Event.create Fixtures.parse_date None 0 (Sample.event_of (VStr "2030-01-01"))
  = Ok (Sample.event_of (VStr "2030-01-01"))
  /\ Event.isFull Fixtures.no_number NaN (Sample.event_of (VStr "2030-01-01")) None
     = false
  /\ Event.isPast Fixtures.parse_date None 0 (Sample.event_of (VStr "2030-01-01"))
     = false.
Proof.
  assert (H : Event.create Fixtures.parse_date None 0
                (Sample.event_of (VStr "2030-01-01"))
              = Ok (Sample.event_of (VStr "2030-01-01"))) by reflexivity.
  split; [exact H |].
  destruct (created_event_has_room Fixtures.parse_date None Fixtures.no_number NaN 0
              _ _ H) as (q & capacity & _ & _ & _ & Hfull & _ & Hpast).
  split; [exact Hfull | apply Hpast; lia].
Defined.

Lemma attendance_checkout_requires_checkin_witness :
  Attendance.create (Fixtures.attendance_of "s-1")
  = Ok (Attendance.construct (Fixtures.attendance_of "s-1"))
  /\ forall now later t,
      Attendance.markCheckedOut now later t
        (fold_left Attendance.after
           [Attendance.MarkCheckedOut "10:00" "10:00" VUndefined]
           (Attendance.construct (Fixtures.attendance_of "s-1")))
      = Throw "Cannot check out student who has not checked in".
Proof.
  assert (H : Attendance.create (Fixtures.attendance_of "s-1")
              = Ok (Attendance.construct (Fixtures.attendance_of "s-1")))
    by reflexivity.
  split; [exact H |].
  destruct (attendance_checkout_requires_checkin (Fixtures.attendance_of "s-1") _
              [Attendance.MarkCheckedOut "10:00" "10:00" VUndefined] H eq_refl)
    as (_ & _ & _ & Hthrow & _).
  intros now later t. apply Hthrow. reflexivity.
Defined.

Section AttendanceSummary.
Variable Number_toString : number -> string.
Variables table row : Type.
Variable insert_single :
  table -> AttendanceController.body -> table * response row.

Let markAttendance := AttendanceController.markAttendance table row insert_single.
Let summary_of := AttendanceService.summary_of Number_toString.

Lemma toFixed2_zero (q : Q) :
  (q == 0)%Q -> Conversion.toFixed2 Number_toString (Fin q) = "0.00".
Proof.
  intros Hq. unfold Conversion.toFixed2, fixed2_digits, is_neg.
  assert (Habs : Qle_bool (inject_Z (10 ^ 21)) (Qabs q) = false).
  { destruct (Qle_bool _ _) eqn:H; [| reflexivity].
    apply Qle_bool_iff in H. rewrite Hq in H. vm_compute in H.
    exfalso. apply H. reflexivity. }
  assert (Hpos : Qle_bool 0 q = true) by (apply Qle_bool_iff; rewrite Hq; discriminate).
  assert (Hfloor : Qfloor (q * 100 + (1 # 2)) = 0) by (now rewrite Hq).
  rewrite Habs, Hpos, Hfloor. reflexivity.
Qed.

Lemma controller_status_not_counted (s : string) (rows : list AttendanceService.status_row) :
  In s ["present"; "absent"; "late"] ->
  Forall (fun r => AttendanceController.valid_status
                     (match AttendanceService.status r with
                      | Some t => VStr t
                      | None => VNull
                      end) = true) rows ->
  List.filter (AttendanceService.has_status s) rows = [].
Proof.
  intros Hs. induction 1 as [| r rows Hr _ IH]; [reflexivity |].
  cbn [List.filter]. rewrite IH.
  unfold AttendanceService.has_status.
  destruct (AttendanceService.status r) as [t |]; [| reflexivity].
  unfold AttendanceController.valid_status in Hr. cbn in Hr.
  assert (Ht : t = "Present" \/ t = "Absent").
  { destruct (String.eqb_spec t "Present"); [now left |].
    destruct (String.eqb_spec t "Absent"); [now right | discriminate]. }
  cbn in Hs.
  destruct Ht as [Ht | Ht]; rewrite Ht;
    destruct Hs as [<- | [<- | [<- | []]]]; reflexivity.
Qed.

(** X21.  The summary of the attendance service does not see the rows the
    attendance controller writes: the controller sends to the database
    exactly the statuses 'Present' and 'Absent', and on rows with these
    statuses the summary counts nobody present, absent or late, and gives
    the rate 0.00. *)
Theorem attendance_summary_misses_controller_rows :
  (forall db b,
      truthy (AttendanceController.event_id b) = true ->
      truthy (AttendanceController.student_id b) = true ->
      (AttendanceController.status b = VStr "Present"
       \/ AttendanceController.status b = VStr "Absent" ->
       markAttendance db b = AttendanceController.answer table row (insert_single db b))
      /\ (AttendanceController.status b <> VStr "Present" ->
          AttendanceController.status b <> VStr "Absent" ->
          exists message,
            markAttendance db b = (db, AttendanceController.Error 400 message)))
  /\ (forall rows,
        Forall (fun r => AttendanceController.valid_status
                           (match AttendanceService.status r with
                            | Some t => VStr t
                            | None => VNull
                            end) = true) rows ->
        summary_of rows
        = {| AttendanceService.total := List.length rows;
             AttendanceService.present := 0;
             AttendanceService.absent := 0;
             AttendanceService.late := 0;
             AttendanceService.attendance_rate :=
               if (0 <? List.length rows)%nat then VStr "0.00" else VNum (Fin 0) |}).
Proof.
  split.
  - intros db b He Hs. subst markAttendance.
    unfold AttendanceController.markAttendance. rewrite He, Hs. cbn [negb orb].
    split.
    + intros [-> | ->]; reflexivity.
    + intros Hp Ha.
      destruct (truthy (AttendanceController.status b)); cbn [negb];
        [| eexists; reflexivity].
      assert (Hv : AttendanceController.valid_status (AttendanceController.status b)
                   = false).
      { unfold AttendanceController.valid_status. cbn [existsb].
        destruct (strict_eq_string _ "Present") eqn:H1;
          [apply strict_eq_string_true in H1; contradiction |].
        destruct (strict_eq_string _ "Absent") eqn:H2;
          [apply strict_eq_string_true in H2; contradiction |].
        reflexivity. }
      rewrite Hv. eexists. reflexivity.
  - intros rows Hrows. subst summary_of. unfold AttendanceService.summary_of.
    rewrite (controller_status_not_counted "present" rows) by (cbn; tauto || exact Hrows).
    rewrite (controller_status_not_counted "absent" rows) by (cbn; tauto || exact Hrows).
    rewrite (controller_status_not_counted "late" rows) by (cbn; tauto || exact Hrows).
    cbn [List.length]. f_equal.
    destruct (Nat.ltb_spec 0 (List.length rows)) as [Hpos | Hzero]; [| reflexivity].
    f_equal.
    change (add (of_nat 0) (of_nat 0)) with (of_Z 0).
    rewrite div_of_Z_of_nat by lia. cbn [mul].
    apply toFixed2_zero. unfold Qdiv. rewrite Qmult_0_l. reflexivity.
Qed.

End AttendanceSummary.

(** ** Passwords and tokens *)

Lemma classes_disjoint (c : N) :
  (Nat.b2n (ValidationService.is_upper c) + Nat.b2n (ValidationService.is_lower c) + Nat.b2n (ValidationService.is_digit c)
   + Nat.b2n (ValidationService.is_special c) <= 1)%nat.
Proof.
  unfold ValidationService.is_special. cbn [existsb].
  repeat match goal with
         | |- context [N.eqb c ?k] =>
             destruct (N.eqb_spec c k) as [-> | ?]; [vm_compute; lia |]
         end.
  cbn [orb Nat.b2n]. unfold ValidationService.is_upper, ValidationService.is_lower, ValidationService.is_digit.
  destruct (N.leb_spec 65 c), (N.leb_spec c 90), (N.leb_spec 97 c),
    (N.leb_spec c 122), (N.leb_spec 48 c), (N.leb_spec c 57); cbn; lia.
Qed.

Lemma classes_fit (p : UString.t) :
  (List.length (List.filter ValidationService.is_upper p) + List.length (List.filter ValidationService.is_lower p)
   + List.length (List.filter ValidationService.is_digit p)
   + List.length (List.filter ValidationService.is_special p)
   <= List.length p)%nat.
Proof.
  induction p as [| c p IH]; [reflexivity |].
  pose proof (classes_disjoint c) as Hc.
  cbn [List.filter List.length].
  destruct (ValidationService.is_upper c), (ValidationService.is_lower c), (ValidationService.is_digit c), (ValidationService.is_special c);
    cbn [List.length Nat.b2n] in *; lia.
Qed.

Lemma existsb_filter_length {A} (f : A -> bool) (l : list A) :
  existsb f l = true -> (1 <= List.length (List.filter f l))%nat.
Proof.
  induction l as [| x l IH]; [discriminate |].
  cbn [existsb List.filter]. destruct (f x); cbn [orb List.length]; [lia | exact IH].
Qed.

(** X22.  The strength of a password that is there: each of the five
    requirements scores a point or leaves a suggestion, the password is
    valid exactly when at most one suggestion is left, a password with the
    four kinds of characters is valid at any length, and no password of
    fewer than 4 characters is. *)
Theorem password_strength_score (p : UString.t) :
  p <> [] ->
  let r := ValidationService.validatePasswordStrength (Some p) in
  let m := ValidationService.met r in
  (ValidationService.score r + List.length (ValidationService.suggestions r) = 5)%nat
  /\ ValidationService.score r
     = (Nat.b2n (ValidationService.minLength m)
        + Nat.b2n (ValidationService.hasUppercase m)
        + Nat.b2n (ValidationService.hasLowercase m)
        + Nat.b2n (ValidationService.hasNumber m)
        + Nat.b2n (ValidationService.hasSpecialChar m))%nat
  /\ (ValidationService.isValid r = true
      <-> (List.length (ValidationService.suggestions r) <= 1)%nat)
  /\ (ValidationService.hasUppercase m && ValidationService.hasLowercase m
      && ValidationService.hasNumber m && ValidationService.hasSpecialChar m = true ->
      ValidationService.isValid r = true)
  /\ (ValidationService.minLength m = true <-> (8 <= List.length p)%nat)
  /\ (ValidationService.isValid r = true -> (4 <= List.length p)%nat).
Proof.
  intros Hne r m. subst m r.
  destruct p as [| c p]; [congruence |].
  unfold ValidationService.validatePasswordStrength.
  set (s := c :: p).
  pose proof (classes_fit s) as Hfit.
  pose proof (existsb_filter_length ValidationService.is_upper s) as Hu.
  pose proof (existsb_filter_length ValidationService.is_lower s) as Hl.
  pose proof (existsb_filter_length ValidationService.is_digit s) as Hd.
  pose proof (existsb_filter_length ValidationService.is_special s) as Hs.
  destruct (Nat.leb_spec 8 (List.length s)) as [Hlen | Hlen];
    destruct (existsb ValidationService.is_upper s);
    destruct (existsb ValidationService.is_lower s);
    destruct (existsb ValidationService.is_digit s);
    destruct (existsb ValidationService.is_special s);
    cbn -[s Nat.leb];
    cbn [Nat.leb];
    repeat split; intros; try reflexivity; try discriminate; try lia.
Qed.

Lemma substring_all (s : string) : String.substring 0 (String.length s) s = s.
Proof. induction s as [| c s IH]; [reflexivity |]. cbn. now rewrite IH. Qed.

Lemma append_cons (c : ascii) (s t : string) :
  String c s ++ t = String c (s ++ t).
Proof. reflexivity. Qed.

Lemma prefix_append (s t : string) : String.prefix s (s ++ t) = true.
Proof.
  induction s as [| c s IH]; [now destruct t |].
  rewrite append_cons. cbn [String.prefix].
  destruct (Ascii.ascii_dec c c); [exact IH | congruence].
Qed.

Lemma substring_append (s t : string) (n : nat) :
  String.substring (String.length s) n (s ++ t) = String.substring 0 n t.
Proof.
  induction s as [| c s IH]; [reflexivity |].
  rewrite append_cons. cbn [String.length String.substring]. exact IH.
Qed.

Lemma length_append (s t : string) :
  String.length (s ++ t) = (String.length s + String.length t)%nat.
Proof.
  induction s as [| c s IH]; [reflexivity |].
  rewrite append_cons. cbn [String.length Nat.add]. now rewrite IH.
Qed.

Lemma token_of_bearer (token : string) :
  AuthMiddleware.token_of ("Bearer " ++ token) = token.
Proof.
  unfold AuthMiddleware.token_of.
  rewrite prefix_append, length_append.
  change (String.length "Bearer ") with 7%nat.
  replace (7 + String.length token - 7)%nat with (String.length token) by lia.
  rewrite (substring_append "Bearer " token). apply substring_all.
Qed.

Section Tokens.
Variable jwt_verify : string -> string -> AuthMiddleware.verification.
Variable JWT_SECRET : option string.

Let verifyToken := AuthMiddleware.verifyToken jwt_verify JWT_SECRET.

(** X23.  [verifyToken] lets a request through only with a token that
    [jwt.verify] accepted under the configured secret, and sets [req.user]
    to what it decoded; the prefix 'Bearer ' is optional; without a secret
    nothing goes through; and every refusal is a 401 or a 500 that sets no
    user. *)
Theorem verifyToken_accepts_only_verified_tokens :
  (forall authorization user,
      verifyToken authorization = (AdminMiddleware.Next, user) ->
      exists header secret payload,
        authorization = Some header
        /\ AuthMiddleware.token_of header <> ""
        /\ AuthService.env_truthy JWT_SECRET = Some secret
        /\ jwt_verify (AuthMiddleware.token_of header) secret
           = AuthMiddleware.Decoded payload
        /\ user = Some payload)
  /\ (forall token,
        String.prefix "Bearer " token = false ->
        verifyToken (Some ("Bearer " ++ token)) = verifyToken (Some token))
  /\ (forall authorization,
        AuthService.env_truthy JWT_SECRET = None ->
        fst (verifyToken authorization) <> AdminMiddleware.Next)
  /\ (forall authorization e user,
        verifyToken authorization = (AdminMiddleware.Reply e, user) ->
        user = None /\ ResponseHelper.success e = false
        /\ (ResponseHelper.status e = 401 \/ ResponseHelper.status e = 500)).
Proof.
  subst verifyToken. unfold AuthMiddleware.verifyToken.
  split; [| split; [| split]].
  - intros authorization user.
    destruct authorization as [header |]; [| discriminate].
    cbn [AuthController.provided].
    destruct (String.eqb_spec header "") as [-> | Hheader]; [discriminate |].
    destruct (String.eqb_spec (AuthMiddleware.token_of header) "") as [Htoken | Htoken];
      [discriminate |].
    destruct (AuthService.env_truthy JWT_SECRET) as [secret |]; [| discriminate].
    destruct (jwt_verify (AuthMiddleware.token_of header) secret) as [payload | | |] eqn:Hv;
      try discriminate.
    intros [= <-]. exists header, secret, payload. repeat split; assumption.
  - intros token Hprefix.
    cbn [AuthController.provided].
    assert (Hne : String.eqb ("Bearer " ++ token) "" = false) by reflexivity.
    rewrite Hne, token_of_bearer.
    assert (Hraw : AuthMiddleware.token_of token = token).
    { unfold AuthMiddleware.token_of. now rewrite Hprefix. }
    destruct (String.eqb_spec token "") as [-> | Htoken]; [reflexivity |].
    rewrite Hraw.
    destruct (String.eqb_spec token ""); [contradiction | reflexivity].
  - intros authorization Hsecret. rewrite Hsecret.
    destruct (AuthController.provided authorization) as [header |];
      [| discriminate].
    destruct (String.eqb _ ""); discriminate.
  - intros authorization e user.
    destruct (AuthController.provided authorization) as [header |].
    2: { intros [= <- <-]. cbn. tauto. }
    destruct (String.eqb _ ""); [intros [= <- <-]; cbn; tauto |].
    destruct (AuthService.env_truthy JWT_SECRET) as [secret |];
      [| intros [= <- <-]; cbn; tauto].
    destruct (jwt_verify _ secret); try discriminate;
      intros [= <- <-]; cbn; tauto.
Qed.

End Tokens.

Lemma password_strength_score_witness :
  Fixtures.short_password <> []
  /\ ValidationService.isValid
       (ValidationService.validatePasswordStrength (Some Fixtures.short_password))
     = true
  /\ List.length Fixtures.short_password = 4%nat.
Proof.
  assert (H : Fixtures.short_password <> []) by discriminate.
  split; [exact H |]. split; [| reflexivity].
  destruct (password_strength_score Fixtures.short_password H)
    as (_ & _ & _ & Hkinds & _).
  apply Hkinds. reflexivity.
Defined.

(** ** Rate limiting *)

Import RateLimitMiddleware.






































(** ** Rate limiting with a skip option *)








(** ** Limiters that share a key *)


